(** * FlowDash account lifecycle and authorization

    A shallow embedding of the two authentication implementations of the
    repository:

    - [Backend]: the Express controller
      [backend/src/controllers/auth.controller.js], whose store is the
      [users] array and the [pendingVerifications] map;
    - [Client]: the React context [AuthContext.tsx], whose store is the
      constant [DEMO_USERS] object and three JSON documents kept in
      [localStorage].

    Strings are sequences of code units below 256 (Rocq's [string]); on that
    range [toLowerCase], [trim] and the regular expression class [\s] are
    modelled exactly.  The passwords the context is given are the
    exception: [btoa] throws on a code unit above 255, so they are
    sequences of 16-bit code units ([JsString.wide]).  Time ([Date.now()]) and the random values drawn by a
    call are inputs of the call.  Library functions the repository only
    calls (bcrypt, jsonwebtoken, [btoa], [JSON.stringify]) are the fields of
    the [Platform] class.  Console output is not modelled. *)

From stdpp Require Import gmap strings list fin_maps.
From Stdlib Require Import ZArith NArith Ascii String List Bool Lia.
Import ListNotations.

Local Open Scope string_scope.
Local Open Scope Z_scope.

(** ** JavaScript strings *)

Module JsString.

(** White space as [String.prototype.trim] and the regular expression
    class [\s] see it, on code units below 256: TAB, LF, VT, FF, CR,
    SPACE and NO-BREAK SPACE. *)
Definition is_space (c : ascii) : bool :=
  let n := N_of_ascii c in
  ((9 <=? n) && (n <=? 13) || (n =? 32) || (n =? 160))%N.

(** Upper-case letters of Basic Latin and Latin-1 (all of U+00C0..U+00DE
    but the multiplication sign U+00D7). *)
Definition is_upper (c : ascii) : bool :=
  let n := N_of_ascii c in
  ((65 <=? n) && (n <=? 90) || (192 <=? n) && (n <=? 222) && negb (n =? 215))%N.

Definition lower_char (c : ascii) : ascii :=
  if is_upper c then ascii_of_N (N_of_ascii c + 32) else c.

Fixpoint toLowerCase (s : string) : string :=
  match s with
  | EmptyString => EmptyString
  | String c r => String (lower_char c) (toLowerCase r)
  end.

Fixpoint trimStart (s : string) : string :=
  match s with
  | EmptyString => EmptyString
  | String c r => if is_space c then trimStart r else s
  end.

Fixpoint trimEnd (s : string) : string :=
  match s with
  | EmptyString => EmptyString
  | String c r =>
      match trimEnd r with
      | EmptyString => if is_space c then EmptyString else String c EmptyString
      | r' => String c r'
      end
  end.

Definition trim (s : string) : string := trimEnd (trimStart s).

(** [s.length] *)
Definition length (s : string) : Z := Z.of_nat (String.length s).

(** A value used as a condition: [undefined] and the empty string are
    falsy, every other string is truthy. *)
Definition truthy (v : option string) : option string :=
  match v with
  | Some EmptyString => None
  | other => other
  end.

(** A string whose code units may exceed 255, as its sequence of UTF-16
    code units. *)
Definition wide : Type := list N.

Definition of_string (s : string) : wide :=
  map N_of_ascii (list_ascii_of_string s).

(** [w.length] *)
Definition wide_length (w : wide) : Z := Z.of_nat (List.length w).

(** The string itself when none of its code units exceeds 255. *)
Fixpoint narrow (w : wide) : option string :=
  match w with
  | [] => Some EmptyString
  | u :: r =>
      if (u <? 256)%N
      then match narrow r with
           | Some s => Some (String (ascii_of_N u) s)
           | None => None
           end
      else None
  end.

End JsString.

Coercion JsString.of_string : string >-> JsString.wide.

(** [email.toLowerCase().trim()], the normalisation every operation of both
    implementations applies to its [email] argument. *)
Definition normalize (email : string) : string :=
  JsString.trim (JsString.toLowerCase email).

(** ** Regular expressions (matching by derivatives) *)

Module Regex.

Inductive re : Type :=
| Void
| Eps
| Class (p : ascii -> bool)
| Seq (r1 r2 : re)
| Alt (r1 r2 : re)
| Star (r : re).

Fixpoint nullable (r : re) : bool :=
  match r with
  | Void => false
  | Eps => true
  | Class _ => false
  | Seq r1 r2 => nullable r1 && nullable r2
  | Alt r1 r2 => nullable r1 || nullable r2
  | Star _ => true
  end.

Fixpoint deriv (c : ascii) (r : re) : re :=
  match r with
  | Void => Void
  | Eps => Void
  | Class p => if p c then Eps else Void
  | Seq r1 r2 =>
      if nullable r1
      then Alt (Seq (deriv c r1) r2) (deriv c r2)
      else Seq (deriv c r1) r2
  | Alt r1 r2 => Alt (deriv c r1) (deriv c r2)
  | Star r1 => Seq (deriv c r1) (Star r1)
  end.

(** [/^r$/.test(s)]: the whole string matches [r]. *)
Fixpoint test (r : re) (s : string) : bool :=
  match s with
  | EmptyString => nullable r
  | String c s' => test (deriv c r) s'
  end.

Definition Plus (r : re) : re := Seq r (Star r).
Definition Chr (a : ascii) : re := Class (Ascii.eqb a).

End Regex.

(** [[^\s@]]: any code unit that is neither white space nor an at sign. *)
Definition not_space_at (c : ascii) : bool :=
  negb (JsString.is_space c || Ascii.eqb c "@").

(** [/^[^\s@]+@[^\s@]+\.[^\s@]+$/] *)
Definition emailRegex : Regex.re :=
  Regex.Seq (Regex.Plus (Regex.Class not_space_at))
    (Regex.Seq (Regex.Chr "@")
       (Regex.Seq (Regex.Plus (Regex.Class not_space_at))
          (Regex.Seq (Regex.Chr ".") (Regex.Plus (Regex.Class not_space_at))))).

(** ** JSON values and objects *)

#[local] Unset Elimination Schemes.
Inductive json : Type :=
| JNull
| JBool (b : bool)
| JNum (n : Z)
| JStr (s : string)
| JObj (fields : list (string * json)).
#[local] Set Elimination Schemes.

(** Own enumerable properties in creation order. *)
Abbreviation object := (list (string * json)).

Fixpoint get_field (k : string) (o : object) : option json :=
  match o with
  | [] => None
  | (k', v) :: rest => if String.eqb k' k then Some v else get_field k rest
  end.

(** Object rest destructuring [const { k: _, ...rest } = o]: every own
    property of [o] except [k]. *)
Definition omit (k : string) (o : object) : object :=
  List.filter (fun kv => negb (String.eqb (fst kv) k)) o.

(** Assignment [o.k = v]: the property keeps its place when the object
    has it, and is added at the end otherwise. *)
Fixpoint set_field (k : string) (v : json) (o : object) : object :=
  match o with
  | [] => [(k, v)]
  | (k', v') :: rest =>
      if String.eqb k' k then (k, v) :: rest
      else (k', v') :: set_field k v rest
  end.

(** ** Roles and permissions ([AuthContext.tsx]) *)

Inductive UserRole : Type := operator | manager | director.

Definition role_name (r : UserRole) : string :=
  match r with
  | operator => "operator"
  | manager => "manager"
  | director => "director"
  end.

Inductive Permission : Type :=
| view_dashboard | view_tasks | create_tasks | edit_tasks | delete_tasks
| assign_tasks | view_team | manage_team | view_performance
| manage_performance | view_assessments | create_assessments
| edit_assessments | view_reports | create_reports | edit_reports
| export_reports | view_settings | manage_settings | view_all_data
| manage_organization.

Definition Permission_eqb (p q : Permission) : bool :=
  match p, q with
  | view_dashboard, view_dashboard | view_tasks, view_tasks
  | create_tasks, create_tasks | edit_tasks, edit_tasks
  | delete_tasks, delete_tasks | assign_tasks, assign_tasks
  | view_team, view_team | manage_team, manage_team
  | view_performance, view_performance
  | manage_performance, manage_performance
  | view_assessments, view_assessments
  | create_assessments, create_assessments
  | edit_assessments, edit_assessments | view_reports, view_reports
  | create_reports, create_reports | edit_reports, edit_reports
  | export_reports, export_reports | view_settings, view_settings
  | manage_settings, manage_settings | view_all_data, view_all_data
  | manage_organization, manage_organization => true
  | _, _ => false
  end.

Definition UserRole_eqb (r s : UserRole) : bool :=
  match r, s with
  | operator, operator | manager, manager | director, director => true
  | _, _ => false
  end.

Definition ROLE_PERMISSIONS (r : UserRole) : list Permission :=
  match r with
  | operator =>
      [ view_dashboard; view_tasks; view_performance; view_assessments;
        view_settings ]
  | manager =>
      [ view_dashboard; view_tasks; create_tasks; edit_tasks; assign_tasks;
        view_team; manage_team; view_performance; manage_performance;
        view_assessments; create_assessments; edit_assessments;
        view_reports; create_reports; edit_reports; view_settings ]
  | director =>
      [ view_dashboard; view_tasks; create_tasks; edit_tasks; delete_tasks;
        assign_tasks; view_team; manage_team; view_performance;
        manage_performance; view_assessments; create_assessments;
        edit_assessments; view_reports; create_reports; edit_reports;
        export_reports; view_settings; manage_settings; view_all_data;
        manage_organization ]
  end.

(** [Array.prototype.includes] on permission and role lists. *)
Definition includes_permission (l : list Permission) (p : Permission) : bool :=
  existsb (Permission_eqb p) l.

Definition includes_role (l : list UserRole) (r : UserRole) : bool :=
  existsb (UserRole_eqb r) l.

(** ** Library functions *)

Class Platform : Type := {
  (** [bcrypt.hash(password, rounds)] with the salt it draws *)
  bcrypt_hash : string -> Z -> string -> string;
  (** [bcrypt.compare(password, hash)] *)
  bcrypt_compare : string -> string -> bool;
  (** [jwt.sign(payload, secret, { expiresIn })] at a given time *)
  jwt_sign : object -> string -> string -> Z -> string;
  (** [btoa(s)] *)
  btoa : string -> string;
  (** [JSON.stringify(value)] *)
  JSON_stringify : json -> string;
  (** [process.env.JWT_SECRET] *)
  env_JWT_SECRET : option string;
}.

(** ** The Express controller ([auth.controller.js])

    A handler reads its arguments from [req.body]: each is a string or is
    absent.  No call of the model throws, so the [catch] branches that
    answer 500 are never taken.  The handlers of this module are the
    handlers run from their first line to their answer with no other
    request in between; [Overlap], below, splits the two that write to a
    store after an [await]. *)

Module Backend.
Section WithPlatform.
Context `{Platform}.

(** An element of the [users] array. *)
Record user : Type := {
  id : string;
  email : string;
  password : string;
  name : string;
  role : UserRole;
  department : string;
  title : string;
  isVerified : bool;
  createdAt : string;
}.

(** A value of the [pendingVerifications] map. *)
Record pending : Type := {
  token : string;
  expiry : Z;
  userId : string;
}.

(** The module's two mutable stores. *)
Record state : Type := {
  users : list user;
  pendingVerifications : gmap string pending;
}.

(** What a call reads from outside the stores: [Date.now()], the ISO
    rendering of the current date, and the random values it draws. *)
Record env : Type := {
  now : Z;
  now_iso : string;
  random_hex : string;     (* crypto.randomBytes(32).toString('hex') *)
  random_id : string;      (* `usr_${Date.now()}_${Math.random()...}` *)
  salt : string;           (* the salt bcrypt draws *)
}.

(** [res.status(code).json(body)] *)
Record response : Type := {
  status : Z;
  body : object;
}.

Definition JWT_SECRET : string :=
  match JsString.truthy env_JWT_SECRET with
  | Some s => s
  | None => "fallback-secret-key"
  end.

Definition JWT_EXPIRES_IN : string := "24h".

(** The three accounts the array is created with; each hash is
    [bcrypt.hashSync('demo123', 10)] with a salt of its own. *)
Definition initial_users (s1 s2 s3 : string) : list user :=
  [ {| id := "1"; email := "operator@demo.com";
       password := bcrypt_hash "demo123" 10 s1;
       name := "Alex Operator"; role := operator;
       department := "Operations"; title := "Operations Specialist";
       isVerified := true; createdAt := "2024-01-15T00:00:00.000Z" |};
    {| id := "2"; email := "manager@demo.com";
       password := bcrypt_hash "demo123" 10 s2;
       name := "Sarah Manager"; role := manager;
       department := "Management"; title := "Team Manager";
       isVerified := true; createdAt := "2024-01-10T00:00:00.000Z" |};
    {| id := "3"; email := "director@demo.com";
       password := bcrypt_hash "demo123" 10 s3;
       name := "James Director"; role := director;
       department := "Executive"; title := "Director of Operations";
       isVerified := true; createdAt := "2024-01-01T00:00:00.000Z" |} ].

Definition initial_state (s1 s2 s3 : string) : state :=
  {| users := initial_users s1 s2 s3; pendingVerifications := ∅ |}.

(** The own properties of a user object, in creation order. *)
Definition user_object (u : user) : object :=
  [ ("id", JStr (id u)); ("email", JStr (email u));
    ("password", JStr (password u)); ("name", JStr (name u));
    ("role", JStr (role_name (role u)));
    ("department", JStr (department u)); ("title", JStr (title u));
    ("isVerified", JBool (isVerified u));
    ("createdAt", JStr (createdAt u)) ].

(** [users.find(u => u.email === e)] *)
Definition find_user (e : string) (us : list user) : option user :=
  List.find (fun u => String.eqb (email u) e) us.

(** Assignment to a property of the object [users.find] returned: the
    first matching element of the array is the one that changes. *)
Fixpoint update_found (e : string) (f : user -> user) (us : list user)
  : list user :=
  match us with
  | [] => []
  | u :: rest =>
      if String.eqb (email u) e then f u :: rest
      else u :: update_found e f rest
  end.

Definition set_isVerified (b : bool) (u : user) : user :=
  {| id := id u; email := email u; password := password u;
     name := name u; role := role u; department := department u;
     title := title u; isVerified := b; createdAt := createdAt u |}.

Definition set_password (h : string) (u : user) : user :=
  {| id := id u; email := email u; password := h;
     name := name u; role := role u; department := department u;
     title := title u; isVerified := isVerified u;
     createdAt := createdAt u |}.

Definition with_pending (m : gmap string pending) (st : state) : state :=
  {| users := users st; pendingVerifications := m |}.

Definition failure (code : Z) (message : string) : response :=
  {| status := code;
     body := [ ("success", JBool false); ("message", JStr message) ] |}.

Definition success (code : Z) (message : string) : response :=
  {| status := code;
     body := [ ("success", JBool true); ("message", JStr message) ] |}.

Definition reset_key (normalizedEmail : string) : string :=
  "reset_" ++ normalizedEmail.

Definition signup (e : env) (name0 email0 password0 : option string)
    (st : state) : state * response :=
  match JsString.truthy name0, JsString.truthy email0,
        JsString.truthy password0 with
  | Some name0, Some email0, Some password0 =>
      if negb (Regex.test emailRegex email0) then
        (st, failure 400 "Please enter a valid email address")
      else if JsString.length password0 <? 6 then
        (st, failure 400 "Password must be at least 6 characters")
      else
        let normalizedEmail := normalize email0 in
        match find_user normalizedEmail (users st) with
        | Some _ =>
            (st, failure 409 "An account with this email already exists")
        | None =>
            let hashedPassword := bcrypt_hash password0 12 (salt e) in
            let verificationToken := random_hex e in
            let tokenExpiry := now e + 24 * 60 * 60 * 1000 in
            let newUser :=
              {| id := random_id e; email := normalizedEmail;
                 password := hashedPassword;
                 name := JsString.trim name0; role := operator;
                 department := "General"; title := "Team Member";
                 isVerified := false; createdAt := now_iso e |} in
            let pv :=
              <[ normalizedEmail :=
                   {| token := verificationToken; expiry := tokenExpiry;
                      userId := id newUser |} ]>
                (pendingVerifications st) in
            ({| users := users st ++ [newUser];
                pendingVerifications := pv |},
             {| status := 201;
                body :=
                  [ ("success", JBool true);
                    ("message",
                     JStr "Account created! Please check your email to verify your account.");
                    ("requiresVerification", JBool true) ] |})
        end
  | _, _, _ =>
      (st, failure 400 "Name, email and password are required")
  end.

Definition verifyEmail (e : env) (email0 token0 : option string)
    (st : state) : state * response :=
  match JsString.truthy email0, JsString.truthy token0 with
  | Some email0, Some token0 =>
      let normalizedEmail := normalize email0 in
      match pendingVerifications st !! normalizedEmail with
      | None =>
          (st, failure 400 "Verification link is invalid or has expired")
      | Some p =>
          if negb (String.eqb (token p) token0) then
            (st, failure 400 "Invalid verification token")
          else if expiry p <? now e then
            (with_pending (delete normalizedEmail (pendingVerifications st)) st,
             failure 400 "Verification link has expired. Please sign up again.")
          else
            let us :=
              match find_user normalizedEmail (users st) with
              | Some _ =>
                  update_found normalizedEmail (set_isVerified true) (users st)
              | None => users st
              end in
            ({| users := us;
                pendingVerifications :=
                  delete normalizedEmail (pendingVerifications st) |},
             success 200 "Email verified successfully! You can now log in.")
      end
  | _, _ => (st, failure 400 "Email and token are required")
  end.

Definition resendVerification (e : env) (email0 : option string)
    (st : state) : state * response :=
  match JsString.truthy email0 with
  | None => (st, failure 400 "Email is required")
  | Some email0 =>
      let normalizedEmail := normalize email0 in
      match find_user normalizedEmail (users st) with
      | None => (st, failure 404 "No account found with this email")
      | Some u =>
          if isVerified u then
            (st, failure 400 "This email is already verified")
          else
            (with_pending
               (<[ normalizedEmail :=
                     {| token := random_hex e;
                        expiry := now e + 24 * 60 * 60 * 1000;
                        userId := id u |} ]> (pendingVerifications st)) st,
             success 200 "Verification email sent! Please check your inbox.")
      end
  end.

Definition login (e : env) (email0 password0 : option string)
    (st : state) : state * response :=
  match JsString.truthy email0, JsString.truthy password0 with
  | Some email0, Some password0 =>
      let normalizedEmail := normalize email0 in
      match find_user normalizedEmail (users st) with
      | None => (st, failure 401 "No account found with this email")
      | Some u =>
          if negb (isVerified u) then
            (st,
             {| status := 403;
                body :=
                  [ ("success", JBool false);
                    ("message",
                     JStr "Please verify your email before logging in");
                    ("requiresVerification", JBool true) ] |})
          else if negb (bcrypt_compare password0 (password u)) then
            (st, failure 401 "Incorrect password")
          else
            let token :=
              jwt_sign
                [ ("userId", JStr (id u)); ("email", JStr (email u));
                  ("role", JStr (role_name (role u))) ]
                JWT_SECRET JWT_EXPIRES_IN (now e) in
            let userData := omit "password" (user_object u) in
            (st,
             {| status := 200;
                body :=
                  [ ("success", JBool true);
                    ("message", JStr "Login successful");
                    ("token", JStr token);
                    ("user", JObj userData) ] |})
      end
  | _, _ => (st, failure 400 "Email and password are required")
  end.

Definition generic_reset_message : string :=
  "If an account exists with this email, you will receive a reset link.".

Definition requestPasswordReset (e : env) (email0 : option string)
    (st : state) : state * response :=
  match JsString.truthy email0 with
  | None => (st, failure 400 "Email is required")
  | Some email0 =>
      let normalizedEmail := normalize email0 in
      match find_user normalizedEmail (users st) with
      | None => (st, success 200 generic_reset_message)
      | Some u =>
          let resetToken := random_hex e in
          let tokenExpiry := now e + 60 * 60 * 1000 in
          (with_pending
             (<[ reset_key normalizedEmail :=
                   {| token := resetToken; expiry := tokenExpiry;
                      userId := id u |} ]> (pendingVerifications st)) st,
           success 200 generic_reset_message)
      end
  end.

Definition validateResetToken (e : env) (email0 token0 : option string)
    (st : state) : state * response :=
  match JsString.truthy email0, JsString.truthy token0 with
  | Some email0, Some token0 =>
      let normalizedEmail := normalize email0 in
      match pendingVerifications st !! reset_key normalizedEmail with
      | None => (st, failure 400 "Invalid or expired reset link")
      | Some p =>
          if negb (String.eqb (token p) token0) then
            (st, failure 400 "Invalid reset token")
          else if expiry p <? now e then
            (with_pending
               (delete (reset_key normalizedEmail) (pendingVerifications st)) st,
             failure 400 "Reset link has expired")
          else (st, success 200 "Token is valid")
      end
  | _, _ => (st, failure 400 "Email and token are required")
  end.

Definition resetPassword (e : env)
    (email0 token0 newPassword0 : option string) (st : state)
  : state * response :=
  match JsString.truthy email0, JsString.truthy token0,
        JsString.truthy newPassword0 with
  | Some email0, Some token0, Some newPassword0 =>
      if JsString.length newPassword0 <? 6 then
        (st, failure 400 "Password must be at least 6 characters")
      else
        let normalizedEmail := normalize email0 in
        match pendingVerifications st !! reset_key normalizedEmail with
        | None => (st, failure 400 "Invalid or expired reset link")
        | Some p =>
            if negb (String.eqb (token p) token0) then
              (st, failure 400 "Invalid reset token")
            else if expiry p <? now e then
              (with_pending
                 (delete (reset_key normalizedEmail) (pendingVerifications st)) st,
               failure 400 "Reset link has expired")
            else
              let us :=
                match find_user normalizedEmail (users st) with
                | Some _ =>
                    update_found normalizedEmail
                      (set_password (bcrypt_hash newPassword0 12 (salt e)))
                      (users st)
                | None => users st
                end in
              ({| users := us;
                  pendingVerifications :=
                    delete (reset_key normalizedEmail)
                      (pendingVerifications st) |},
               success 200 "Password has been reset successfully")
        end
  | _, _, _ =>
      (st, failure 400 "Email, token and new password are required")
  end.

(** The requests of [auth.routes.js] that reach a handler working on the
    stores ([logout], [getMe] and [verifySession] read nothing from them
    or change nothing in them). *)
Inductive request : Type :=
| Signup (name0 email0 password0 : option string)
| VerifyEmail (email0 token0 : option string)
| ResendVerification (email0 : option string)
| Login (email0 password0 : option string)
| RequestPasswordReset (email0 : option string)
| ValidateResetToken (email0 token0 : option string)
| ResetPassword (email0 token0 newPassword0 : option string).

Definition handle (e : env) (r : request) (st : state) : state * response :=
  match r with
  | Signup name0 email0 password0 => signup e name0 email0 password0 st
  | VerifyEmail email0 token0 => verifyEmail e email0 token0 st
  | ResendVerification email0 => resendVerification e email0 st
  | Login email0 password0 => login e email0 password0 st
  | RequestPasswordReset email0 => requestPasswordReset e email0 st
  | ValidateResetToken email0 token0 => validateResetToken e email0 token0 st
  | ResetPassword email0 token0 newPassword0 =>
      resetPassword e email0 token0 newPassword0 st
  end.

(** The states of a server that handles its requests one after another:
    the state it starts with and every state a sequence of such requests
    leads to.  [Overlap.reachable] adds the states that requests running
    into one another lead to. *)
Inductive reachable : state -> Prop :=
| reachable_initial (s1 s2 s3 : string) : reachable (initial_state s1 s2 s3)
| reachable_step (e : env) (r : request) (st : state) :
    reachable st -> reachable (fst (handle e r st)).

(** The server's state after a sequence of requests, oldest first. *)
Fixpoint run (trace : list (env * request)) (st : state) : state :=
  match trace with
  | [] => st
  | (e, r) :: rest => run rest (fst (handle e r st))
  end.

(** [exports.logout] *)
Definition logout (st : state) : state * response :=
  (st, success 200 "Logged out successfully").

(** [users.find(u => u.id === userId)] *)
Definition find_by_id (userId0 : string) (us : list user) : option user :=
  List.find (fun u => String.eqb (id u) userId0) us.

(** [exports.getMe]: [userId0] is [req.user.userId], the claim the
    [verifyToken] middleware read from the session token. *)
Definition getMe (userId0 : string) (st : state) : state * response :=
  match find_by_id userId0 (users st) with
  | None => (st, failure 404 "User not found")
  | Some u =>
      (st,
       {| status := 200;
          body := [ ("success", JBool true);
                    ("user", JObj (omit "password" (user_object u))) ] |})
  end.

(** [exports.verifySession]: answers with the claims of the token. *)
Definition verifySession (claims : object) (st : state) : state * response :=
  (st,
   {| status := 200;
      body := [ ("success", JBool true); ("message", JStr "Session is valid");
                ("user", JObj claims) ] |}).

(** What no handler ever changes in an account: everything but the
    password hash and the verification flag. *)
Definition identity (u : user) : string * string * string * UserRole
                                   * string * string * string :=
  (id u, email u, name u, role u, department u, title u, createdAt u).

End WithPlatform.
End Backend.

(** ** Requests of the controller that overlap

    A handler that awaits lets other requests run before it goes on.
    [signup] awaits [bcrypt.hash] between its duplicate check and
    [users.push]; [resetPassword] awaits it between [users.find] and the
    assignment of the password.  After the other awaits of the module
    ([bcrypt.compare] in [login], whose arguments are read before it, and
    the mail mock) no store is read or written, so those handlers run as
    in [Backend]. *)

Module Overlap.
Section WithPlatform.
Context `{Platform}.

(** A request waiting for its hash: a [signup] that passed its checks, or
    a [resetPassword] that accepted its token and found the account. *)
Inductive suspended : Type :=
| SignupHashing (name0 email0 password0 : string)
| ResetHashing (normalizedEmail newPassword0 : string).

(** [signup] up to its [await]: its answer, or the suspended request. *)
Definition signup_begin (name0 email0 password0 : option string)
    (st : Backend.state) : Backend.response + suspended :=
  match JsString.truthy name0, JsString.truthy email0,
        JsString.truthy password0 with
  | Some name0, Some email0, Some password0 =>
      if negb (Regex.test emailRegex email0) then
        inl (Backend.failure 400 "Please enter a valid email address")
      else if JsString.length password0 <? 6 then
        inl (Backend.failure 400 "Password must be at least 6 characters")
      else
        match Backend.find_user (normalize email0) (Backend.users st) with
        | Some _ =>
            inl (Backend.failure 409
                   "An account with this email already exists")
        | None => inr (SignupHashing name0 email0 password0)
        end
  | _, _, _ =>
      inl (Backend.failure 400 "Name, email and password are required")
  end.

(** [signup] from its [await] on, run on the stores as they are by then. *)
Definition signup_resume (e : Backend.env) (name0 email0 password0 : string)
    (st : Backend.state) : Backend.state * Backend.response :=
  let normalizedEmail := normalize email0 in
  let hashedPassword := bcrypt_hash password0 12 (Backend.salt e) in
  let verificationToken := Backend.random_hex e in
  let tokenExpiry := Backend.now e + 24 * 60 * 60 * 1000 in
  let newUser :=
    {| Backend.id := Backend.random_id e; Backend.email := normalizedEmail;
       Backend.password := hashedPassword;
       Backend.name := JsString.trim name0; Backend.role := operator;
       Backend.department := "General"; Backend.title := "Team Member";
       Backend.isVerified := false; Backend.createdAt := Backend.now_iso e |} in
  let pv :=
    <[ normalizedEmail :=
         {| Backend.token := verificationToken; Backend.expiry := tokenExpiry;
            Backend.userId := Backend.id newUser |} ]>
      (Backend.pendingVerifications st) in
  ({| Backend.users := Backend.users st ++ [newUser];
      Backend.pendingVerifications := pv |},
   {| Backend.status := 201;
      Backend.body :=
        [ ("success", JBool true);
          ("message",
           JStr "Account created! Please check your email to verify your account.");
          ("requiresVerification", JBool true) ] |}).

(** [resetPassword] up to its [await]; without an account for the email
    it does not await and runs to its end. *)
Definition resetPassword_begin (e : Backend.env)
    (email0 token0 newPassword0 : option string) (st : Backend.state)
  : Backend.state * (Backend.response + suspended) :=
  match JsString.truthy email0, JsString.truthy token0,
        JsString.truthy newPassword0 with
  | Some email0, Some token0, Some newPassword0 =>
      if JsString.length newPassword0 <? 6 then
        (st, inl (Backend.failure 400 "Password must be at least 6 characters"))
      else
        let normalizedEmail := normalize email0 in
        match Backend.pendingVerifications st
                !! Backend.reset_key normalizedEmail with
        | None => (st, inl (Backend.failure 400 "Invalid or expired reset link"))
        | Some p =>
            if negb (String.eqb (Backend.token p) token0) then
              (st, inl (Backend.failure 400 "Invalid reset token"))
            else if Backend.expiry p <? Backend.now e then
              (Backend.with_pending
                 (delete (Backend.reset_key normalizedEmail)
                    (Backend.pendingVerifications st)) st,
               inl (Backend.failure 400 "Reset link has expired"))
            else
              match Backend.find_user normalizedEmail (Backend.users st) with
              | Some _ => (st, inr (ResetHashing normalizedEmail newPassword0))
              | None =>
                  (Backend.with_pending
                     (delete (Backend.reset_key normalizedEmail)
                        (Backend.pendingVerifications st)) st,
                   inl (Backend.success 200
                          "Password has been reset successfully"))
              end
        end
  | _, _, _ =>
      (st, inl (Backend.failure 400
                  "Email, token and new password are required"))
  end.

(** [resetPassword] from its [await] on: the account found before the
    [await] is the first of its email, then as before, since no handler
    removes an account or changes an email. *)
Definition resetPassword_resume (e : Backend.env)
    (normalizedEmail newPassword0 : string) (st : Backend.state)
  : Backend.state * Backend.response :=
  ({| Backend.users :=
        Backend.update_found normalizedEmail
          (Backend.set_password (bcrypt_hash newPassword0 12 (Backend.salt e)))
          (Backend.users st);
      Backend.pendingVerifications :=
        delete (Backend.reset_key normalizedEmail)
          (Backend.pendingVerifications st) |},
   Backend.success 200 "Password has been reset successfully").

Definition resume (e : Backend.env) (k : suspended) (st : Backend.state)
  : Backend.state * Backend.response :=
  match k with
  | SignupHashing name0 email0 password0 =>
      signup_resume e name0 email0 password0 st
  | ResetHashing normalizedEmail newPassword0 =>
      resetPassword_resume e normalizedEmail newPassword0 st
  end.

(** The states of the server together with the requests it has suspended:
    a request runs as a whole, or [signup] or [resetPassword] runs to its
    [await], or a suspended request goes on. *)
Inductive reachable : Backend.state -> list suspended -> Prop :=
| reachable_initial (s1 s2 s3 : string) :
    reachable (Backend.initial_state s1 s2 s3) []
| reachable_handle (e : Backend.env) (r : Backend.request) st waiting :
    reachable st waiting ->
    reachable (fst (Backend.handle e r st)) waiting
| reachable_signup_begin name0 email0 password0 st waiting k :
    reachable st waiting ->
    signup_begin name0 email0 password0 st = inr k ->
    reachable st (k :: waiting)
| reachable_reset_begin (e : Backend.env) email0 token0 newPassword0 st
    waiting k :
    reachable st waiting ->
    snd (resetPassword_begin e email0 token0 newPassword0 st) = inr k ->
    reachable (fst (resetPassword_begin e email0 token0 newPassword0 st))
      (k :: waiting)
| reachable_resume (e : Backend.env) k st before after :
    reachable st (before ++ k :: after)%list ->
    reachable (fst (resume e k st)) (before ++ after)%list.

End WithPlatform.
End Overlap.

(** ** JavaScript objects used as dictionaries

    [DEMO_USERS] and the documents read back from [localStorage] are plain
    objects: a property read that finds no own property continues in
    [Object.prototype]. *)

Module JsObject.

(** The result of [o[k]]: nothing, a member of [Object.prototype] (a
    truthy value none of whose properties the program reads is defined),
    or the own property. *)
Inductive property (A : Type) : Type :=
| Undefined
| Inherited
| Own (a : A).
Arguments Undefined {A}.
Arguments Inherited {A}.
Arguments Own {A} a.

Definition Object_prototype_keys : list string :=
  [ "constructor"; "__defineGetter__"; "__defineSetter__";
    "hasOwnProperty"; "__lookupGetter__"; "__lookupSetter__";
    "isPrototypeOf"; "propertyIsEnumerable"; "toString"; "valueOf";
    "__proto__"; "toLocaleString" ].

Definition in_prototype (k : string) : bool :=
  existsb (String.eqb k) Object_prototype_keys.

(** [o[k]] *)
Definition get {A} (o : gmap string A) (k : string) : property A :=
  match o !! k with
  | Some a => Own a
  | None => if in_prototype k then Inherited else Undefined
  end.

(** [o[k] = v] for an object [v].  Without an own property of that name,
    assigning to ["__proto__"] replaces the prototype and creates no
    property, so nothing of it reaches [JSON.stringify]. *)
Definition set {A} (o : gmap string A) (k : string) (v : A) : gmap string A :=
  match o !! k with
  | None => if String.eqb k "__proto__" then o else <[ k := v ]> o
  | Some _ => <[ k := v ]> o
  end.

(** [!!o[k]] *)
Definition truthy {A} (p : property A) : bool :=
  match p with
  | Undefined => false
  | _ => true
  end.

End JsObject.

(** ** The React authentication context ([AuthContext.tsx])

    The three [localStorage] documents hold what the context writes to
    them: JSON objects keyed by email (a key never written reads as the
    empty object).  The network delays and the [loading] flag of the
    provider are not modelled. *)

Module Client.
Section WithPlatform.
Context `{Platform}.

Import JsObject.

Record User : Type := {
  id : string;
  email : string;
  name : string;
  role : UserRole;
  department : string;
  title : string;
  isVerified : bool;
  createdAt : string;
}.

Record StoredUser : Type := {
  hashedPassword : string;
  user : User;
  verificationToken : option string;
}.

(** Values of the [flowdash_pending_verifications] document. *)
Record PendingVerification : Type := {
  pv_token : string;
  pv_email : string;
  pv_expiresAt : Z;
}.

(** Values of the [flowdash_password_reset_tokens] document. *)
Record ResetToken : Type := {
  rt_token : string;
  rt_expiresAt : Z;
}.

(** The three [localStorage] documents, the session keys of
    [STORAGE_KEYS] and the provider's [user] and [token] state. *)
Record state : Type := {
  registeredUsers : gmap string StoredUser;
  pendingVerifications : gmap string PendingVerification;
  passwordResetTokens : gmap string ResetToken;
  ls_user : option object;
  ls_token : option string;
  ls_role : option string;
  auth_user : option User;
  auth_token : option string;
}.

Record env : Type := {
  now : Z;
  now_iso : string;
  random_token : string;   (* generateVerificationToken() *)
  random_id : string;      (* `usr_${Date.now()}_${Math.random()...}` *)
}.

Record result : Type := {
  success : bool;
  error : option string;
  requiresVerification : option bool;
}.

Definition failed (message : string) : result :=
  {| success := false; error := Some message; requiresVerification := None |}.

Definition succeeded : result :=
  {| success := true; error := None; requiresVerification := None |}.

(** The [catch] branch every operation ends with. *)
Definition unexpected : result := failed "An unexpected error occurred".

(** [hashPassword] where it returns.  [btoa] throws on a code unit above
    255, of which the salt has none: [hashPassword] returns exactly for
    the passwords [JsString.narrow] gives back, and the operations below
    go to their [catch] for the others. *)
Definition hashPassword (password : string) : string :=
  btoa (password ++ "_flowdash_salt_2024").

Definition DEMO_USERS : gmap string StoredUser :=
  list_to_map
    [ ("operator@demo.com",
       {| hashedPassword := hashPassword "demo123";
          user := {| id := "usr_op_001"; email := "operator@demo.com";
                     name := "Alex Thompson"; role := operator;
                     department := "Engineering";
                     title := "Software Developer"; isVerified := true;
                     createdAt := "2024-01-15T10:00:00Z" |};
          verificationToken := None |});
      ("manager@demo.com",
       {| hashedPassword := hashPassword "demo123";
          user := {| id := "usr_mgr_001"; email := "manager@demo.com";
                     name := "Sarah Mitchell"; role := manager;
                     department := "Engineering";
                     title := "Engineering Manager"; isVerified := true;
                     createdAt := "2024-01-10T10:00:00Z" |};
          verificationToken := None |});
      ("director@demo.com",
       {| hashedPassword := hashPassword "demo123";
          user := {| id := "usr_dir_001"; email := "director@demo.com";
                     name := "Michael Chen"; role := director;
                     department := "Technology";
                     title := "VP of Engineering"; isVerified := true;
                     createdAt := "2024-01-01T10:00:00Z" |};
          verificationToken := None |}) ].

(** Nothing stored yet: every [localStorage] key is absent. *)
Definition initial_state : state :=
  {| registeredUsers := ∅; pendingVerifications := ∅;
     passwordResetTokens := ∅; ls_user := None; ls_token := None;
     ls_role := None; auth_user := None; auth_token := None |}.

(** The own properties [JSON.stringify] writes for a [User]. *)
Definition user_object (u : User) : object :=
  [ ("id", JStr (id u)); ("email", JStr (email u));
    ("name", JStr (name u)); ("role", JStr (role_name (role u)));
    ("department", JStr (department u)); ("title", JStr (title u));
    ("isVerified", JBool (isVerified u));
    ("createdAt", JStr (createdAt u)) ].

Definition with_registered (m : gmap string StoredUser) (st : state) : state :=
  {| registeredUsers := m;
     pendingVerifications := pendingVerifications st;
     passwordResetTokens := passwordResetTokens st;
     ls_user := ls_user st; ls_token := ls_token st;
     ls_role := ls_role st; auth_user := auth_user st;
     auth_token := auth_token st |}.

Definition with_pending (m : gmap string PendingVerification) (st : state)
  : state :=
  {| registeredUsers := registeredUsers st;
     pendingVerifications := m;
     passwordResetTokens := passwordResetTokens st;
     ls_user := ls_user st; ls_token := ls_token st;
     ls_role := ls_role st; auth_user := auth_user st;
     auth_token := auth_token st |}.

Definition with_tokens (m : gmap string ResetToken) (st : state) : state :=
  {| registeredUsers := registeredUsers st;
     pendingVerifications := pendingVerifications st;
     passwordResetTokens := m;
     ls_user := ls_user st; ls_token := ls_token st;
     ls_role := ls_role st; auth_user := auth_user st;
     auth_token := auth_token st |}.

Definition generateToken (e : env) (userId : string) (r : UserRole) : string :=
  btoa (JSON_stringify
          (JObj [ ("userId", JStr userId); ("role", JStr (role_name r));
                  ("iat", JNum (now e));
                  ("exp", JNum (now e + 24 * 60 * 60 * 1000)) ])).

Definition signup (e : env) (name0 email0 : string)
    (password0 : JsString.wide) (st : state) : state * result :=
  let normalizedEmail := normalize email0 in
  if truthy (get DEMO_USERS normalizedEmail) then
    (st, failed "An account with this email already exists")
  else if truthy (get (registeredUsers st) normalizedEmail) then
    (st, failed "An account with this email already exists")
  else if JsString.wide_length password0 <? 6 then
    (st, failed "Password must be at least 6 characters")
  else
    let verificationToken0 := random_token e in
    let expiresAt := now e + 24 * 60 * 60 * 1000 in
    let newUser :=
      {| id := random_id e; email := normalizedEmail;
         name := JsString.trim name0; role := operator;
         department := "General"; title := "Team Member";
         isVerified := false; createdAt := now_iso e |} in
    match JsString.narrow password0 with
    | None => (st, unexpected)
    | Some password1 =>
        let st1 :=
          with_registered
            (set (registeredUsers st) normalizedEmail
               {| hashedPassword := hashPassword password1; user := newUser;
                  verificationToken := Some verificationToken0 |}) st in
        let st2 :=
          with_pending
            (set (pendingVerifications st1) normalizedEmail
               {| pv_token := verificationToken0; pv_email := normalizedEmail;
                  pv_expiresAt := expiresAt |}) st1 in
        (st2, {| success := true; error := None;
                 requiresVerification := Some true |})
    end.

Definition mark_verified (su : StoredUser) : StoredUser :=
  {| hashedPassword := hashedPassword su;
     user := {| id := id (user su); email := email (user su);
                name := name (user su); role := role (user su);
                department := department (user su);
                title := title (user su); isVerified := true;
                createdAt := createdAt (user su) |};
     verificationToken := None |}.

Definition verifyEmail (e : env) (email0 token0 : string) (st : state)
  : state * result :=
  let normalizedEmail := normalize email0 in
  match get (pendingVerifications st) normalizedEmail with
  | Undefined => (st, failed "Verification link is invalid or has expired")
  | Inherited => (st, failed "Invalid verification token")
  | Own p =>
      if negb (String.eqb (pv_token p) token0) then
        (st, failed "Invalid verification token")
      else
        let removed := delete normalizedEmail (pendingVerifications st) in
        if pv_expiresAt p <? now e then
          (with_pending removed st,
           failed "Verification link has expired. Please sign up again.")
        else
          match get (registeredUsers st) normalizedEmail with
          | Inherited => (st, unexpected)
          | Undefined => (with_pending removed st, succeeded)
          | Own su =>
              (with_pending removed
                 (with_registered
                    (<[ normalizedEmail := mark_verified su ]>
                       (registeredUsers st)) st),
               succeeded)
          end
  end.

(** The account [login] works on: [DEMO_USERS[k]], and when that is
    falsy [registeredUsers[k]]. *)
Definition find_account (k : string) (st : state) : property StoredUser :=
  match get DEMO_USERS k with
  | Undefined => get (registeredUsers st) k
  | found => found
  end.

Definition login (e : env) (email0 : string) (password0 : JsString.wide)
    (st : state) : state * result :=
  let normalizedEmail := normalize email0 in
  let demoUser := find_account normalizedEmail st in
  match demoUser with
  | Undefined => (st, failed "No account found with this email")
  | Inherited => (st, unexpected)
  | Own su =>
      if negb (isVerified (user su)) then
        (st, {| success := false;
                error := Some "Please verify your email before logging in";
                requiresVerification := Some true |})
      else
        match JsString.narrow password0 with
        | None => (st, unexpected)
        | Some password1 =>
            if negb (String.eqb (hashPassword password1) (hashedPassword su))
            then (st, failed "Incorrect password")
            else
              let newToken :=
                generateToken e (id (user su)) (role (user su)) in
              ({| registeredUsers := registeredUsers st;
                  pendingVerifications := pendingVerifications st;
                  passwordResetTokens := passwordResetTokens st;
                  ls_user := Some (user_object (user su));
                  ls_token := Some newToken;
                  ls_role := Some (role_name (role (user su)));
                  auth_user := Some (user su);
                  auth_token := Some newToken |},
               succeeded)
        end
  end.

Definition requestPasswordReset (e : env) (email0 : string) (st : state)
  : state * result :=
  let normalizedEmail := normalize email0 in
  let userExists :=
    if truthy (get DEMO_USERS normalizedEmail) then true
    else truthy (get (registeredUsers st) normalizedEmail) in
  if negb userExists then (st, failed "No account found with this email")
  else
    let resetToken := random_token e in
    let expiresAt := now e + 60 * 60 * 1000 in
    (with_tokens
       (set (passwordResetTokens st) normalizedEmail
          {| rt_token := resetToken; rt_expiresAt := expiresAt |}) st,
     succeeded).

Definition validateResetToken (e : env) (email0 token0 : string)
    (st : state) : state * result :=
  let normalizedEmail := normalize email0 in
  match get (passwordResetTokens st) normalizedEmail with
  | Undefined => (st, failed "Invalid or expired reset link")
  | Inherited => (st, failed "Invalid reset token")
  | Own stored =>
      if negb (String.eqb (rt_token stored) token0) then
        (st, failed "Invalid reset token")
      else if rt_expiresAt stored <? now e then
        (with_tokens (delete normalizedEmail (passwordResetTokens st)) st,
         failed "Reset link has expired")
      else (st, succeeded)
  end.

Definition set_hashedPassword (h : string) (su : StoredUser) : StoredUser :=
  {| hashedPassword := h; user := user su;
     verificationToken := verificationToken su |}.

(** [registeredUsers[normalizedEmail].hashedPassword =
    hashPassword(newPassword)], run when the entry is truthy: nothing
    when [hashPassword] throws. *)
Definition update_password (normalizedEmail : string)
    (newPassword : JsString.wide) (st1 : state) : option state :=
  match get (registeredUsers st1) normalizedEmail with
  | Undefined => Some st1
  | Inherited =>
      match JsString.narrow newPassword with
      | None => None
      | Some _ => Some st1
      end
  | Own su =>
      match JsString.narrow newPassword with
      | None => None
      | Some newPassword1 =>
          Some (with_registered
                  (<[ normalizedEmail :=
                        set_hashedPassword (hashPassword newPassword1) su ]>
                     (registeredUsers st1)) st1)
      end
  end.

Definition resetPassword (e : env) (email0 token0 : string)
    (newPassword : JsString.wide) (st : state) : state * result :=
  let normalizedEmail := normalize email0 in
  let (st1, tokenValidation) :=
    validateResetToken e normalizedEmail token0 st in
  if negb (success tokenValidation) then
    (st1, {| success := false; error := error tokenValidation;
             requiresVerification := None |})
  else if JsString.wide_length newPassword <? 6 then
    (st1, failed "Password must be at least 6 characters")
  else
    match update_password normalizedEmail newPassword st1 with
    | None => (st1, unexpected)
    | Some st2 =>
        (with_tokens (delete normalizedEmail (passwordResetTokens st2)) st2,
         succeeded)
    end.

Definition logout (st : state) : state :=
  {| registeredUsers := registeredUsers st;
     pendingVerifications := pendingVerifications st;
     passwordResetTokens := passwordResetTokens st;
     ls_user := None; ls_token := None; ls_role := None;
     auth_user := None; auth_token := None |}.

(** [ROLE_PERMISSIONS[user.role]?.includes(permission) ?? false] *)
Definition hasPermission (st : state) (p : Permission) : bool :=
  match auth_user st with
  | None => false
  | Some u => includes_permission (ROLE_PERMISSIONS (role u)) p
  end.

Definition canAccess (st : state) (roles : list UserRole) : bool :=
  match auth_user st with
  | None => false
  | Some u => includes_role roles (role u)
  end.

(** The operations the context offers to the pages ([logout] returns
    nothing; [perform] pairs its state with a bare success). *)
Inductive operation : Type :=
| Signup (name0 email0 : string) (password0 : JsString.wide)
| VerifyEmail (email0 token0 : string)
| Login (email0 : string) (password0 : JsString.wide)
| RequestPasswordReset (email0 : string)
| ValidateResetToken (email0 token0 : string)
| ResetPassword (email0 token0 : string) (newPassword : JsString.wide)
| Logout.

Definition perform (e : env) (o : operation) (st : state) : state * result :=
  match o with
  | Signup name0 email0 password0 => signup e name0 email0 password0 st
  | VerifyEmail email0 token0 => verifyEmail e email0 token0 st
  | Login email0 password0 => login e email0 password0 st
  | RequestPasswordReset email0 => requestPasswordReset e email0 st
  | ValidateResetToken email0 token0 => validateResetToken e email0 token0 st
  | ResetPassword email0 token0 newPassword =>
      resetPassword e email0 token0 newPassword st
  | Logout => (logout st, succeeded)
  end.

(** The states a browser that started with an empty [localStorage] can be
    in. *)
Inductive reachable : state -> Prop :=
| reachable_initial : reachable initial_state
| reachable_step (e : env) (o : operation) (st : state) :
    reachable st -> reachable (fst (perform e o st)).

(** The browser's state after a sequence of operations, oldest first. *)
Fixpoint run (trace : list (env * operation)) (st : state) : state :=
  match trace with
  | [] => st
  | (e, o) :: rest => run rest (fst (perform e o st))
  end.

(** [isAuthenticated: !!user && !!token] *)
Definition isAuthenticated (st : state) : bool :=
  match auth_user st, JsString.truthy (auth_token st) with
  | Some _, Some _ => true
  | _, _ => false
  end.

(** The migration [initializeAuth] applies to the user it read back:
    [if (parsedUser.role === "project_manager") parsedUser.role = "director"]. *)
Definition migrate_role (parsedUser : object) : object :=
  match get_field "role" parsedUser with
  | Some (JStr r) =>
      if String.eqb r "project_manager"
      then set_field "role" (JStr "director") parsedUser
      else parsedUser
  | _ => parsedUser
  end.

(** [initializeAuth], run when the provider mounts: the user and the token
    it hands to [setUser] and [setToken], if it restores a session. *)
Definition initializeAuth (st : state) : option (object * string) :=
  match ls_user st, JsString.truthy (ls_token st) with
  | Some savedUser, Some savedToken => Some (migrate_role savedUser, savedToken)
  | _, _ => None
  end.

End WithPlatform.
End Client.

(** ** Route guards ([ProtectedRoute.tsx]), the route table ([App.tsx]) and
    the navigation of [Sidebar.tsx] *)

Module Routes.

(** What a guard component returns. *)
Inductive rendering : Type :=
| Spinner
| Navigate (to : string)
| Children
| Fallback.

(** [fallbackPath || "/dashboard"] *)
Definition redirectTo (fallbackPath : option string) : string :=
  match JsString.truthy fallbackPath with
  | Some path => path
  | None => "/dashboard"
  end.

(** [ProtectedRoute]; [loading] is the provider's flag.  An array of roles
    is truthy also when it is empty. *)
Definition ProtectedRoute (loading : bool) (st : Client.state)
    (allowedRoles : option (list UserRole))
    (requiredPermission : option Permission) (fallbackPath : option string)
  : rendering :=
  if loading then Spinner
  else if negb (Client.isAuthenticated st)
          || match Client.auth_user st with None => true | Some _ => false end
  then Navigate "/login"
  else if match allowedRoles with
          | Some roles => negb (Client.canAccess st roles)
          | None => false
          end
  then Navigate (redirectTo fallbackPath)
  else if match requiredPermission with
          | Some permission => negb (Client.hasPermission st permission)
          | None => false
          end
  then Navigate (redirectTo fallbackPath)
  else Children.

Definition RoleGate (st : Client.state) (allowedRoles : list UserRole)
  : rendering :=
  if negb (Client.isAuthenticated st) || negb (Client.canAccess st allowedRoles)
  then Fallback else Children.

Definition PermissionGate (st : Client.state) (permission : Permission)
  : rendering :=
  if negb (Client.isAuthenticated st)
     || negb (Client.hasPermission st permission)
  then Fallback else Children.

Definition AuthenticatedOnly (loading : bool) (st : Client.state) : rendering :=
  if loading then Spinner
  else if negb (Client.isAuthenticated st) then Fallback else Children.

(** [GuestOnly] with its [redirectTo] (default "/dashboard"). *)
Definition GuestOnly (loading : bool) (st : Client.state)
    (redirect : option string) : rendering :=
  if loading then Spinner
  else if Client.isAuthenticated st
       then Navigate (match redirect with Some to => to | None => "/dashboard" end)
       else Children.

Inductive page : Type :=
| Auth | ForgotPassword | ResetPassword | Dashboard | Tasks | Performance
| Settings | Profile | Team | Assessment | Reports | NotFound.

(** The [element] of a [Route]. *)
Inductive element : Type :=
| Redirect (to : string)
| Guest (redirect : string) (p : page)
| Protected (allowedRoles : option (list UserRole)) (p : page)
| Plain (p : page).

(** The [Routes] of [App.tsx], in their order. *)
Definition routes : list (string * element) :=
  [ ("/", Redirect "/dashboard");
    ("/auth", Guest "/dashboard" Auth);
    ("/login", Redirect "/auth");
    ("/forgot-password", Guest "/dashboard" ForgotPassword);
    ("/reset-password", Guest "/dashboard" ResetPassword);
    ("/dashboard", Protected None Dashboard);
    ("/tasks", Protected None Tasks);
    ("/performance", Protected None Performance);
    ("/settings", Protected None Settings);
    ("/profile", Protected None Profile);
    ("/team", Protected (Some [manager; director]) Team);
    ("/assessment", Protected (Some [manager; director]) Assessment);
    ("/reports", Protected (Some [manager; director]) Reports);
    ("/operator", Redirect "/dashboard");
    ("/manager", Redirect "/dashboard");
    ("/project_manager", Redirect "/dashboard");
    ("*", Plain NotFound) ].

(** What the router shows for an element: a page, the spinner, a
    navigation to another path, or nothing. *)
Inductive view : Type :=
| Shows (p : page)
| Loading
| GoesTo (path : string)
| Blank.

(** A guard around page [p]; the fallback of a guard is nothing unless
    one is given. *)
Definition of_rendering (r : rendering) (p : page) : view :=
  match r with
  | Spinner => Loading
  | Navigate to => GoesTo to
  | Children => Shows p
  | Fallback => Blank
  end.

Definition render (loading : bool) (st : Client.state) (el : element) : view :=
  match el with
  | Redirect to => GoesTo to
  | Guest redirect p => of_rendering (GuestOnly loading st (Some redirect)) p
  | Protected allowedRoles p =>
      of_rendering (ProtectedRoute loading st allowedRoles None None) p
  | Plain p => Shows p
  end.

(** The element a [Navigate] or a link of the application lands on.
    Every such target is, letter for letter, the path of one route of the
    table, which is all this lookup is used for: how the router matches a
    URL typed by hand (regardless of case, with a trailing slash) is not
    modelled. *)
Fixpoint lookup_route (path : string) (table : list (string * element))
  : element :=
  match table with
  | [] => Plain NotFound
  | (p, el) :: rest => if String.eqb p path then el else lookup_route path rest
  end.

Definition target (path : string) : element := lookup_route path routes.

(** Following navigations, at most [hops] of them, until something is
    shown. *)
Fixpoint settle (hops : nat) (loading : bool) (st : Client.state)
    (el : element) : option view :=
  match render loading st el with
  | GoesTo path =>
      match hops with
      | O => None
      | S hops' => settle hops' loading st (target path)
      end
  | shown => Some shown
  end.

(** [NAV_ITEMS] of the sidebar: label, path, roles. *)
Definition NAV_ITEMS : list (string * string * list UserRole) :=
  [ ("Dashboard", "/dashboard", [operator; manager; director]);
    ("Tasks", "/tasks", [operator; manager; director]);
    ("Team", "/team", [manager; director]);
    ("Performance", "/performance", [operator; manager; director]);
    ("Assessment", "/assessment", [manager; director]);
    ("Reports", "/reports", [manager; director]);
    ("Settings", "/settings", [operator; manager; director]) ].

(** [NAV_ITEMS.filter((item) => canAccess(item.roles))] *)
Definition filteredNavItems (st : Client.state)
  : list (string * string * list UserRole) :=
  List.filter (fun item => Client.canAccess st (snd item)) NAV_ITEMS.

(** [pathname === item.path || pathname.startsWith(item.path + "/")] *)
Definition isActive (pathname path : string) : bool :=
  String.eqb pathname path || String.prefix (path ++ "/") pathname.

End Routes.

(** ** The role views of the pages ([Dashboard.tsx], [Performance.tsx]) *)

Module Pages.

(** The [allowedRoles] of the [RoleGate]s around the views of the
    dashboard, in their order. *)
Definition Dashboard_views : list (list UserRole) :=
  [ [operator]; [manager]; [director] ].

(** The same for the performance page. *)
Definition Performance_views : list (list UserRole) :=
  [ [operator]; [manager; director] ].

(** The views whose gate renders its children. *)
Definition rendered (st : Client.state) (views : list (list UserRole))
  : list (list UserRole) :=
  List.filter
    (fun allowedRoles =>
       match Routes.RoleGate st allowedRoles with
       | Routes.Children => true
       | _ => false
       end)
    views.

(** The role views [Dashboard] shows.  Its own [loading] flag is true for
    the first 500 ms after it mounts: it then returns the skeleton, which
    has no role view. *)
Definition Dashboard (loading : bool) (st : Client.state)
  : list (list UserRole) :=
  if loading then [] else rendered st Dashboard_views.

(** The role views [Performance] shows. *)
Definition Performance (st : Client.state) : list (list UserRole) :=
  rendered st Performance_views.

End Pages.

(** ** The password strength meter ([Auth.tsx], [ResetPassword.tsx]) *)

Module PasswordStrength.

Definition in_range (lo hi : N) (c : ascii) : bool :=
  ((lo <=? N_of_ascii c) && (N_of_ascii c <=? hi))%N.

(** The code units of the class of special characters: exclamation mark,
    at sign, hash, dollar, percent, caret, ampersand, asterisk, both round
    brackets, comma, full stop, question mark, double quote, colon, both
    curly brackets, vertical bar, less-than and greater-than. *)
Definition special_codes : list N :=
  [ 33; 64; 35; 36; 37; 94; 38; 42; 40; 41; 44; 46; 63; 34; 58; 123; 125;
    124; 60; 62 ]%N.

Definition is_special (c : ascii) : bool :=
  existsb (N.eqb (N_of_ascii c)) special_codes.

(** [/[class]/.test(s)]: some code unit of [s] is in the class. *)
Fixpoint contains (class : ascii -> bool) (s : string) : bool :=
  match s with
  | EmptyString => false
  | String c rest => class c || contains class rest
  end.

Record Checks : Type := {
  has_length : bool;
  has_uppercase : bool;
  has_lowercase : bool;
  has_number : bool;
  has_special : bool;
}.

Record Strength : Type := {
  score : Z;
  label : string;
  color : string;
  checks : Checks;
}.

Definition check (password : string) : Checks :=
  {| has_length := 8 <=? JsString.length password;
     has_uppercase := contains (in_range 65 90) password;
     has_lowercase := contains (in_range 97 122) password;
     has_number := contains (in_range 48 57) password;
     has_special := contains is_special password |}.

(** [Object.values(checks).filter(Boolean).length] *)
Definition passed (c : Checks) : Z :=
  Z.of_nat
    (List.length
       (List.filter (fun b : bool => b)
          [ has_length c; has_uppercase c; has_lowercase c; has_number c;
            has_special c ])).

Definition calculatePasswordStrength (password : string) : Strength :=
  let c := check password in
  let s := passed c * 20 in
  if 100 <=? s then
    {| score := s; label := "Very Strong"; color := "bg-green-500"; checks := c |}
  else if 80 <=? s then
    {| score := s; label := "Strong"; color := "bg-green-400"; checks := c |}
  else if 60 <=? s then
    {| score := s; label := "Medium"; color := "bg-yellow-500"; checks := c |}
  else if 40 <=? s then
    {| score := s; label := "Weak"; color := "bg-orange-500"; checks := c |}
  else
    {| score := s; label := "Very Weak"; color := "bg-red-500"; checks := c |}.

End PasswordStrength.

(** ** Pagination of [DataTable.tsx]

    Array lengths and page sizes are integers far below 2^53, where the
    quotient of the source and its [Math.ceil] are exact. *)

Module DataTable.

(** [Math.ceil(a / b)]; nothing when [b] is 0 (the quotient is then
    infinite or not a number). *)
Definition ceil_div (a b : Z) : option Z :=
  if b =? 0 then None else Some (- ((- a) / b)).

(** An index argument of [Array.prototype.slice] brought into range. *)
Definition relative_index (len i : Z) : Z :=
  if i <? 0 then Z.max (len + i) 0 else Z.min i len.

(** [l.slice(start, end)] *)
Definition slice {A : Type} (l : list A) (start end_ : Z) : list A :=
  let len := Z.of_nat (List.length l) in
  let k := relative_index len start in
  let final := relative_index len end_ in
  firstn (Z.to_nat (final - k)) (skipn (Z.to_nat k) l).

Definition totalPages {A : Type} (filteredData : list A) (itemsPerPage : Z)
  : option Z :=
  ceil_div (Z.of_nat (List.length filteredData)) itemsPerPage.

Definition startIndex (currentPage itemsPerPage : Z) : Z :=
  (currentPage - 1) * itemsPerPage.

Definition paginatedData {A : Type} (showPagination : bool)
    (filteredData : list A) (currentPage itemsPerPage : Z) : list A :=
  if showPagination
  then slice filteredData (startIndex currentPage itemsPerPage)
         (startIndex currentPage itemsPerPage + itemsPerPage)
  else filteredData.

(** "Showing [first]-[last] of n results" *)
Definition showing {A : Type} (filteredData : list A)
    (currentPage itemsPerPage : Z) : Z * Z :=
  (startIndex currentPage itemsPerPage + 1,
   Z.min (startIndex currentPage itemsPerPage + itemsPerPage)
     (Z.of_nat (List.length filteredData))).

(** The two page buttons. *)
Definition previous (currentPage : Z) : Z := Z.max 1 (currentPage - 1).
Definition next (pages currentPage : Z) : Z := Z.min pages (currentPage + 1).

End DataTable.

(** ** An executable platform

    Stand-ins for the library functions, used to run the model on concrete
    requests. *)

Definition ends_with (suffix s : string) : bool :=
  String.eqb suffix
    (substring (String.length s - String.length suffix)%nat
       (String.length suffix) s).

Definition sample_platform : Platform :=
  {| bcrypt_hash := fun password _ salt => "$2a$" ++ salt ++ "$" ++ password;
     bcrypt_compare := fun password hash => ends_with ("$" ++ password) hash;
     jwt_sign := fun payload secret expiresIn iat =>
       match get_field "userId" payload with
       | Some (JStr u) => "jwt." ++ u ++ "." ++ secret
       | _ => "jwt.." ++ secret
       end;
     btoa := fun s => "b64:" ++ s;
     JSON_stringify := fun v =>
       match v with
       | JObj o =>
           match get_field "userId" o with
           | Some (JStr u) => "{userId:" ++ u ++ "}"
           | _ => "{}"
           end
       | _ => "null"
       end;
     env_JWT_SECRET := None |}.

(** ** Sample runs

    The scenario of the specification on both implementations: Jane signs
    up, verifies her address, asks for a password reset and completes it. *)

Module Sample.

Definition hex : string :=
  "9f2c4e6a8b0d1f3557799bbddff0022446688aacceef1133557799bbddff0011".

Definition day : Z := 24 * 60 * 60 * 1000.

Definition b_env (t : Z) : Backend.env :=
  {| Backend.now := t; Backend.now_iso := "2023-11-14T22:13:20.000Z";
     Backend.random_hex := hex;
     Backend.random_id := "usr_1700000000000_k3j9x2m1q";
     Backend.salt := "N9qo8uLOickgx2ZMRZoMye" |}.

Definition b_now : Backend.env := b_env 1700000000000.
Definition b_late : Backend.env := b_env (1700000000000 + 2 * day).

Definition b0 : Backend.state :=
  @Backend.initial_state sample_platform "s1" "s2" "s3".
Definition b1 : Backend.state :=
  fst (@Backend.signup sample_platform b_now (Some "Jane")
         (Some "Jane@X.com") (Some "secret1") b0).
Definition b2 : Backend.state :=
  fst (Backend.verifyEmail b_now (Some "jane@x.com") (Some hex) b1).
Definition b3 : Backend.state :=
  fst (Backend.requestPasswordReset b_now (Some "jane@x.com") b2).
Definition b4 : Backend.state :=
  fst (@Backend.resetPassword sample_platform b_now (Some "jane@x.com")
         (Some hex) (Some "newpass1") b3).

(** Jane's pending entries in [b1] and [b3]. *)
Definition b_pending : Backend.pending :=
  {| Backend.token := hex; Backend.expiry := 1700000000000 + day;
     Backend.userId := "usr_1700000000000_k3j9x2m1q" |}.
Definition b_reset : Backend.pending :=
  {| Backend.token := hex; Backend.expiry := 1700000000000 + 60 * 60 * 1000;
     Backend.userId := "usr_1700000000000_k3j9x2m1q" |}.

(** A token store holding a reset entry for an address without account. *)
Definition b_orphan : Backend.state :=
  {| Backend.users := [];
     Backend.pendingVerifications := {[ "reset_ghost@x.com" := b_reset ]} |}.

Definition c_env (t : Z) : Client.env :=
  {| Client.now := t; Client.now_iso := "2023-11-14T22:13:20.000Z";
     Client.random_token := "MC5rM2o5eDJtMXFsb2Y=";
     Client.random_id := "usr_1700000000000_k3j9x2m1q" |}.

Definition c_now : Client.env := c_env 1700000000000.
Definition c_late : Client.env := c_env (1700000000000 + 2 * day).

Definition c0 : Client.state := Client.initial_state.
Definition c1 : Client.state :=
  fst (@Client.signup sample_platform c_now "Jane" "Jane@X.com" "secret1" c0).
Definition c2 : Client.state :=
  fst (Client.verifyEmail c_now "jane@x.com" "MC5rM2o5eDJtMXFsb2Y=" c1).
Definition c3 : Client.state :=
  fst (@Client.requestPasswordReset sample_platform c_now "jane@x.com" c2).

(** The manager of [DEMO_USERS] asks for a reset. *)
Definition c_demo : Client.state :=
  fst (@Client.requestPasswordReset sample_platform c_now
         "manager@demo.com" c0).

Definition c_pending : Client.PendingVerification :=
  {| Client.pv_token := "MC5rM2o5eDJtMXFsb2Y=";
     Client.pv_email := "jane@x.com";
     Client.pv_expiresAt := 1700000000000 + day |}.
Definition c_reset : Client.ResetToken :=
  {| Client.rt_token := "MC5rM2o5eDJtMXFsb2Y=";
     Client.rt_expiresAt := 1700000000000 + 60 * 60 * 1000 |}.

(** Jane's account in [b1] and the manager's account. *)
Definition b_jane : Backend.user :=
  {| Backend.id := "usr_1700000000000_k3j9x2m1q"; Backend.email := "jane@x.com";
     Backend.password := "$2a$N9qo8uLOickgx2ZMRZoMye$secret1";
     Backend.name := "Jane"; Backend.role := operator;
     Backend.department := "General"; Backend.title := "Team Member";
     Backend.isVerified := false;
     Backend.createdAt := "2023-11-14T22:13:20.000Z" |}.

Definition b_manager : Backend.user :=
  {| Backend.id := "2"; Backend.email := "manager@demo.com";
     Backend.password := "$2a$s2$demo123";
     Backend.name := "Sarah Manager"; Backend.role := manager;
     Backend.department := "Management"; Backend.title := "Team Manager";
     Backend.isVerified := true;
     Backend.createdAt := "2024-01-10T00:00:00.000Z" |}.

Definition c_jane : Client.StoredUser :=
  {| Client.hashedPassword := "b64:secret1_flowdash_salt_2024";
     Client.user :=
       {| Client.id := "usr_1700000000000_k3j9x2m1q";
          Client.email := "jane@x.com"; Client.name := "Jane";
          Client.role := operator; Client.department := "General";
          Client.title := "Team Member"; Client.isVerified := false;
          Client.createdAt := "2023-11-14T22:13:20.000Z" |};
     Client.verificationToken := Some "MC5rM2o5eDJtMXFsb2Y=" |}.

Definition c_manager : Client.StoredUser :=
  {| Client.hashedPassword := "b64:demo123_flowdash_salt_2024";
     Client.user :=
       {| Client.id := "usr_mgr_001"; Client.email := "manager@demo.com";
          Client.name := "Sarah Mitchell"; Client.role := manager;
          Client.department := "Engineering";
          Client.title := "Engineering Manager"; Client.isVerified := true;
          Client.createdAt := "2024-01-10T10:00:00Z" |};
     Client.verificationToken := None |}.

(** A later draw of the random source. *)
Definition hex2 : string :=
  "00112233445566778899aabbccddeeff00112233445566778899aabbccddeeff".

Definition b_again : Backend.env :=
  {| Backend.now := 1700000000000 + 1000;
     Backend.now_iso := "2023-11-14T22:13:21.000Z";
     Backend.random_hex := hex2;
     Backend.random_id := "usr_1700000001000_p0o9i8u7y";
     Backend.salt := "N9qo8uLOickgx2ZMRZoMye" |}.

(** The operator the server starts with, and Jane once verified. *)
Definition b_operator : Backend.user :=
  {| Backend.id := "1"; Backend.email := "operator@demo.com";
     Backend.password := "$2a$s1$demo123";
     Backend.name := "Alex Operator"; Backend.role := operator;
     Backend.department := "Operations";
     Backend.title := "Operations Specialist";
     Backend.isVerified := true;
     Backend.createdAt := "2024-01-15T00:00:00.000Z" |}.

Definition b_jane_verified : Backend.user :=
  Backend.set_isVerified true b_jane.

(** The manager of [DEMO_USERS] logged in. *)
Definition c_session : Client.state :=
  fst (@Client.login sample_platform c_now "manager@demo.com" "demo123" c0).

(** A user object stored before the role was renamed. *)
Definition legacy_user : object :=
  [ ("id", JStr "usr_pm_001"); ("email", JStr "pm@demo.com");
    ("role", JStr "project_manager"); ("isVerified", JBool true) ].

(** A password in Cyrillic letters and a digit, as its code units. *)
Definition wide_password : JsString.wide :=
  [1087; 1072; 1088; 1086; 1083; 1100; 49]%N.

(** Two signups for one address that both passed the duplicate check
    before either went on, then the verification with the token of the
    second; and the account of the second. *)
Definition b_twice : Backend.state :=
  fst (@Overlap.signup_resume sample_platform b_again "Joan"
         "jane@x.com" "secret2"
         (fst (@Overlap.signup_resume sample_platform b_now "Jane"
                 "jane@x.com" "secret1" b0))).

Definition b_race : Backend.state :=
  fst (Backend.verifyEmail b_again (Some "jane@x.com") (Some hex2) b_twice).

Definition b_joan : Backend.user :=
  {| Backend.id := "usr_1700000001000_p0o9i8u7y";
     Backend.email := "jane@x.com";
     Backend.password := "$2a$N9qo8uLOickgx2ZMRZoMye$secret2";
     Backend.name := "Joan"; Backend.role := operator;
     Backend.department := "General"; Backend.title := "Team Member";
     Backend.isVerified := false;
     Backend.createdAt := "2023-11-14T22:13:21.000Z" |}.

(** Seven rows of a table. *)
Definition rows : list Z := [1; 2; 3; 4; 5; 6; 7].

End Sample.

(** * Properties *)

(** ** Normalisation is idempotent *)

Section Normalisation.
Import JsString.

Lemma is_space_lower_char c : is_space (lower_char c) = is_space c.
Proof. destruct c as [[] [] [] [] [] [] [] []]; reflexivity. Qed.

Lemma lower_char_idem c : lower_char (lower_char c) = lower_char c.
Proof. destruct c as [[] [] [] [] [] [] [] []]; reflexivity. Qed.

Lemma toLowerCase_idem s : toLowerCase (toLowerCase s) = toLowerCase s.
Proof.
  induction s as [|c r IH]; simpl; [reflexivity|].
  now rewrite lower_char_idem, IH.
Qed.

Lemma trimStart_toLowerCase s :
  trimStart (toLowerCase s) = toLowerCase (trimStart s).
Proof.
  induction s as [|c r IH]; simpl; [reflexivity|].
  rewrite is_space_lower_char. destruct (is_space c); [exact IH|reflexivity].
Qed.

Lemma trimEnd_toLowerCase s :
  trimEnd (toLowerCase s) = toLowerCase (trimEnd s).
Proof.
  induction s as [|c r IH]; simpl; [reflexivity|].
  rewrite IH, is_space_lower_char.
  destruct (trimEnd r); simpl; [destruct (is_space c)|]; reflexivity.
Qed.

Lemma trimStart_head s :
  trimStart s = EmptyString \/
  exists c r, trimStart s = String c r /\ is_space c = false.
Proof.
  induction s as [|c r IH]; simpl; [now left|].
  destruct (is_space c) eqn:E; [exact IH|]. right. now exists c, r.
Qed.

Lemma trimEnd_idem s : trimEnd (trimEnd s) = trimEnd s.
Proof.
  induction s as [|c r IH]; simpl; [reflexivity|].
  destruct (trimEnd r) as [|a b] eqn:E.
  - destruct (is_space c) eqn:Ec; simpl; [reflexivity|]. now rewrite Ec.
  - change (trimEnd (String c (String a b))) with
      (match trimEnd (String a b) with
       | EmptyString => if is_space c then EmptyString else String c EmptyString
       | r' => String c r'
       end).
    now rewrite IH.
Qed.

Lemma trimStart_trimEnd_trimStart s :
  trimStart (trimEnd (trimStart s)) = trimEnd (trimStart s).
Proof.
  destruct (trimStart_head s) as [E|(c & r & E & Hc)]; rewrite E;
    [reflexivity|].
  simpl. destruct (trimEnd r); rewrite ?Hc; simpl; now rewrite Hc.
Qed.

Lemma trim_idem s : trim (trim s) = trim s.
Proof.
  unfold trim. now rewrite trimStart_trimEnd_trimStart, trimEnd_idem.
Qed.

Lemma trim_toLowerCase s : trim (toLowerCase s) = toLowerCase (trim s).
Proof.
  unfold trim. now rewrite trimStart_toLowerCase, trimEnd_toLowerCase.
Qed.

Lemma normalize_idem email : normalize (normalize email) = normalize email.
Proof.
  unfold normalize.
  now rewrite <- trim_toLowerCase, toLowerCase_idem, trim_idem.
Qed.

End Normalisation.

(** ** A string of code units below 256 as a wide string *)

Lemma narrow_of_string s : JsString.narrow (JsString.of_string s) = Some s.
Proof.
  unfold JsString.of_string. induction s as [|c s IH]; [reflexivity|].
  cbn [list_ascii_of_string map JsString.narrow].
  assert (Hc : (N_of_ascii c <? 256)%N = true).
  { apply N.ltb_lt. apply (N_ascii_bounded c). }
  now rewrite Hc, IH, ascii_N_embedding.
Qed.

Lemma wide_length_of_string s :
  JsString.wide_length (JsString.of_string s) = JsString.length s.
Proof.
  unfold JsString.wide_length, JsString.of_string, JsString.length.
  f_equal. rewrite length_map.
  induction s as [|c s IH]; simpl; congruence.
Qed.

(** ** Reading the conditions of the handlers *)

Lemma truthy_Some_inv v s : JsString.truthy v = Some s -> v = Some s /\ s <> "".
Proof.
  destruct v as [[|c r]|]; simpl; intros E; inversion E; subst.
  split; [reflexivity|discriminate].
Qed.

Lemma truthy_nonempty s : s <> "" -> JsString.truthy (Some s) = Some s.
Proof. destruct s; [congruence|reflexivity]. Qed.

(** Case analysis on the three tests every token check makes: is there an
    entry, is it the submitted token, is it past its expiry. *)
Ltac token_cases :=
  repeat match goal with
    | |- context [String.eqb ?a ?b] =>
        let E := fresh "Etok" in
        destruct (String.eqb a b) eqn:E;
        [apply String.eqb_eq in E|apply String.eqb_neq in E]; simpl
    | |- context [Z.ltb ?a ?b] =>
        let E := fresh "Eexp" in
        destruct (Z.ltb a b) eqn:E;
        [apply Z.ltb_lt in E|apply Z.ltb_ge in E]; simpl
    end.

(** ** Object rest removes one key and keeps the others *)

Lemma get_field_omit_same k (o : object) : get_field k (omit k o) = None.
Proof.
  induction o as [|[k' v] rest IH]; simpl; [reflexivity|].
  destruct (String.eqb k' k) eqn:E; simpl; [exact IH|]. now rewrite E.
Qed.

Lemma get_field_omit_other k k' (o : object) :
  k' <> k -> get_field k' (omit k o) = get_field k' o.
Proof.
  intros Hne. induction o as [|[k0 v] rest IH]; simpl; [reflexivity|].
  destruct (String.eqb k0 k) eqn:E; simpl.
  - apply String.eqb_eq in E. subst k0.
    destruct (String.eqb k k') eqn:E'; [|exact IH].
    apply String.eqb_eq in E'. congruence.
  - now rewrite IH.
Qed.

#[global] Arguments JsObject.in_prototype : simpl never.
#[global] Arguments normalize : simpl never.
#[global] Arguments omit : simpl never.

(** ** Addresses the pattern accepts are not blank *)

Lemma test_Seq_Void r s : Regex.test (Regex.Seq Regex.Void r) s = false.
Proof. induction s as [|c s IH]; simpl; [reflexivity|exact IH]. Qed.

Lemma test_Seq_Seq_Void r1 r2 s :
  Regex.test (Regex.Seq (Regex.Seq Regex.Void r1) r2) s = false.
Proof. induction s as [|c s IH]; simpl; [reflexivity|exact IH]. Qed.

Lemma emailRegex_head c r :
  Regex.test emailRegex (String c r) = true -> JsString.is_space c = false.
Proof.
  unfold emailRegex, Regex.Plus. simpl.
  destruct (not_space_at c) eqn:E.
  - intros _. unfold not_space_at in E.
    apply negb_true_iff, orb_false_iff in E. tauto.
  - now rewrite test_Seq_Seq_Void.
Qed.

Lemma trimEnd_nonempty c r :
  JsString.is_space c = false -> JsString.trimEnd (String c r) <> "".
Proof.
  intros Hc. simpl. destruct (JsString.trimEnd r); [now rewrite Hc|discriminate].
Qed.

Lemma normalize_accepted email :
  Regex.test emailRegex email = true -> normalize email <> "".
Proof.
  destruct email as [|c r]; [discriminate|]. intros Hc%emailRegex_head.
  unfold normalize, JsString.trim. simpl.
  rewrite is_space_lower_char, Hc. apply trimEnd_nonempty.
  now rewrite is_space_lower_char.
Qed.

(** ** Invariants of the reachable states *)

Section Invariants.
Context `{Platform}.

(** The [users] array never holds two accounts with one email, and every
    email in it is normalised and not empty. *)
Definition Backend_wf (st : Backend.state) : Prop :=
  NoDup (map Backend.email (Backend.users st)) /\
  Forall (fun u => normalize (Backend.email u) = Backend.email u /\
                   Backend.email u <> "")
    (Backend.users st).

Lemma find_user_None e us :
  Backend.find_user e us = None -> ~ In e (map Backend.email us).
Proof.
  induction us as [|u us IH]; simpl; [tauto|].
  destruct (String.eqb (Backend.email u) e) eqn:E; [discriminate|].
  apply String.eqb_neq in E. intros Hnone [Heq|Hin]; [congruence|].
  now apply IH.
Qed.

Lemma find_user_In u us :
  NoDup (map Backend.email us) -> In u us ->
  Backend.find_user (Backend.email u) us = Some u.
Proof.
  induction us as [|v us IH]; simpl; [tauto|].
  intros Hnd Hin. apply NoDup_cons_iff in Hnd as [Hv Hnd].
  destruct Hin as [->|Hin]; [now rewrite String.eqb_refl|].
  destruct (String.eqb (Backend.email v) (Backend.email u)) eqn:E.
  - apply String.eqb_eq in E. exfalso. apply Hv. rewrite E.
    now apply in_map.
  - now apply IH.
Qed.

Lemma update_found_emails e f us :
  (forall u, Backend.email (f u) = Backend.email u) ->
  map Backend.email (Backend.update_found e f us) = map Backend.email us.
Proof.
  intros Hf. induction us as [|u us IH]; simpl; [reflexivity|].
  destruct (String.eqb (Backend.email u) e); simpl; [now rewrite Hf|].
  now rewrite IH.
Qed.

Lemma update_found_Forall (P : string -> Prop) e f us :
  (forall u, Backend.email (f u) = Backend.email u) ->
  Forall (fun u => P (Backend.email u)) us ->
  Forall (fun u => P (Backend.email u)) (Backend.update_found e f us).
Proof.
  intros Hf Hall. induction Hall as [|u us Hu Hall IH]; simpl; [constructor|].
  destruct (String.eqb (Backend.email u) e); constructor; auto.
  now rewrite Hf.
Qed.

Lemma Backend_wf_update e f st pv :
  (forall u, Backend.email (f u) = Backend.email u) ->
  Backend_wf st ->
  Backend_wf {| Backend.users := Backend.update_found e f (Backend.users st);
                Backend.pendingVerifications := pv |}.
Proof.
  intros Hf [Hnd Hall]. split; simpl.
  - now rewrite update_found_emails.
  - now apply (update_found_Forall
                 (fun a => normalize a = a /\ a <> "")).
Qed.

Lemma Backend_signup_wf e name0 email0 password0 st :
  Backend_wf st -> Backend_wf (fst (Backend.signup e name0 email0 password0 st)).
Proof.
  intros Hwf. unfold Backend.signup.
  destruct (JsString.truthy name0) as [nm|]; [|exact Hwf].
  destruct (JsString.truthy email0) as [em|]; [|exact Hwf].
  destruct (JsString.truthy password0) as [pw|]; [|exact Hwf].
  destruct (Regex.test emailRegex em) eqn:Ere; simpl; [|exact Hwf].
  destruct (JsString.length pw <? 6); simpl; [exact Hwf|].
  destruct (Backend.find_user (normalize em) (Backend.users st)) eqn:Efind;
    simpl; [exact Hwf|].
  destruct Hwf as [Hnd Hall]. split; simpl.
  - rewrite map_app. simpl. apply NoDup_app.
    + exact Hnd.
    + apply NoDup_cons; [simpl; tauto|constructor].
    + intros a Ha [<-|[]]. now apply (find_user_None _ _ Efind).
  - apply Forall_app. split; [exact Hall|]. constructor; [|constructor].
    simpl. split; [apply normalize_idem|now apply normalize_accepted].
Qed.

Lemma Backend_handle_wf e r st :
  Backend_wf st -> Backend_wf (fst (Backend.handle e r st)).
Proof.
  intros Hwf. destruct r as [n em p|em tk|em|em p|em|em tk|em tk np]; simpl.
  - now apply Backend_signup_wf.
  - unfold Backend.verifyEmail.
    destruct (JsString.truthy em); [|exact Hwf].
    destruct (JsString.truthy tk); [|exact Hwf].
    destruct (Backend.pendingVerifications st !! _); [|exact Hwf].
    destruct (negb _); [exact Hwf|].
    destruct (_ <? _); simpl; [exact Hwf|].
    destruct (Backend.find_user _ _); [|exact Hwf].
    now apply Backend_wf_update.
  - unfold Backend.resendVerification.
    destruct (JsString.truthy em); [|exact Hwf].
    destruct (Backend.find_user _ _) as [u|]; [|exact Hwf].
    destruct (Backend.isVerified u); exact Hwf.
  - unfold Backend.login.
    destruct (JsString.truthy em); [|exact Hwf].
    destruct (JsString.truthy p); [|exact Hwf].
    destruct (Backend.find_user _ _) as [u|]; [|exact Hwf].
    destruct (negb _); [exact Hwf|]. destruct (negb _); exact Hwf.
  - unfold Backend.requestPasswordReset.
    destruct (JsString.truthy em); [|exact Hwf].
    destruct (Backend.find_user _ _) as [u|]; exact Hwf.
  - unfold Backend.validateResetToken.
    destruct (JsString.truthy em); [|exact Hwf].
    destruct (JsString.truthy tk); [|exact Hwf].
    destruct (Backend.pendingVerifications st !! _); [|exact Hwf].
    destruct (negb _); [exact Hwf|]. destruct (_ <? _); exact Hwf.
  - unfold Backend.resetPassword.
    destruct (JsString.truthy em); [|exact Hwf].
    destruct (JsString.truthy tk); [|exact Hwf].
    destruct (JsString.truthy np); [|exact Hwf].
    destruct (_ <? _); [exact Hwf|].
    destruct (Backend.pendingVerifications st !! _); [|exact Hwf].
    destruct (negb _); [exact Hwf|].
    destruct (_ <? _); simpl; [exact Hwf|].
    destruct (Backend.find_user _ _); [|exact Hwf].
    now apply Backend_wf_update.
Qed.

Lemma Backend_reachable_wf st : Backend.reachable st -> Backend_wf st.
Proof.
  induction 1 as [s1 s2 s3|e r st _ IH].
  - split; simpl.
    + repeat (apply NoDup_cons; [simpl; intuition discriminate|]). constructor.
    + repeat (constructor; [split; [reflexivity|discriminate]|]). constructor.
  - now apply Backend_handle_wf.
Qed.

(** Every account of a reachable state is the one [users.find] returns for
    its email, and its email is what a request has to normalise to. *)
Lemma Backend_reachable_account st u :
  Backend.reachable st -> In u (Backend.users st) ->
  Backend.email u <> "" /\
  Backend.find_user (normalize (Backend.email u)) (Backend.users st) = Some u.
Proof.
  intros [Hnd Hall]%Backend_reachable_wf Hin.
  rewrite Forall_forall in Hall. destruct (Hall u Hin) as [Hn Hne].
  split; [exact Hne|]. rewrite Hn. now apply find_user_In.
Qed.

(** No key of [registeredUsers] is a key of [DEMO_USERS] or the name of a
    member of [Object.prototype], and every key is normalised. *)
Definition Client_wf (st : Client.state) : Prop :=
  forall k su,
    Client.registeredUsers st !! k = Some su ->
    JsObject.get Client.DEMO_USERS k = JsObject.Undefined /\ normalize k = k.

Lemma get_falsy {A} (m : gmap string A) k :
  JsObject.truthy (JsObject.get m k) = false ->
  JsObject.get m k = JsObject.Undefined /\
  m !! k = None /\ JsObject.in_prototype k = false.
Proof.
  unfold JsObject.get. destruct (m !! k); [discriminate|].
  destruct (JsObject.in_prototype k); [discriminate|]. tauto.
Qed.

Lemma get_Undefined {A} (m : gmap string A) k :
  JsObject.get m k = JsObject.Undefined ->
  m !! k = None /\ JsObject.in_prototype k = false.
Proof.
  unfold JsObject.get. destruct (m !! k); [discriminate|].
  destruct (JsObject.in_prototype k); [discriminate|]. tauto.
Qed.

Lemma get_Own {A} (m : gmap string A) k a :
  JsObject.get m k = JsObject.Own a <-> m !! k = Some a.
Proof.
  unfold JsObject.get. destruct (m !! k).
  - split; congruence.
  - destruct (JsObject.in_prototype k); split; discriminate.
Qed.

Lemma set_insert {A} (m : gmap string A) k v :
  JsObject.in_prototype k = false -> JsObject.set m k v = <[ k := v ]> m.
Proof.
  intros Hk. unfold JsObject.set. destruct (m !! k); [reflexivity|].
  destruct (String.eqb k "__proto__") eqn:E; [|reflexivity].
  apply String.eqb_eq in E. subst k. discriminate Hk.
Qed.

Lemma DEMO_USERS_keys k su :
  Client.DEMO_USERS !! k = Some su ->
  k = "operator@demo.com" \/ k = "manager@demo.com" \/ k = "director@demo.com".
Proof.
  intros Hk. apply elem_of_list_to_map_2 in Hk.
  repeat (apply elem_of_cons in Hk as [[= -> _]|Hk]; [tauto|]).
  now apply elem_of_nil in Hk.
Qed.

Lemma DEMO_USERS_normalized k su :
  Client.DEMO_USERS !! k = Some su ->
  normalize k = k /\ JsObject.in_prototype k = false.
Proof.
  intros [-> | [-> | ->]]%DEMO_USERS_keys; split; reflexivity.
Qed.

Lemma Client_wf_registered st st' :
  Client.registeredUsers st' = Client.registeredUsers st ->
  Client_wf st -> Client_wf st'.
Proof. unfold Client_wf. now intros ->. Qed.

Lemma Client_wf_update st st' k su f :
  Client.registeredUsers st !! k = Some su ->
  Client.registeredUsers st' = <[ k := f su ]> (Client.registeredUsers st) ->
  Client_wf st -> Client_wf st'.
Proof.
  intros Hk Hst' Hwf k' su'. rewrite Hst'.
  intros [[<- _]|[_ Hk']]%lookup_insert_Some; eauto.
Qed.

Lemma Client_validateResetToken_registered (e : Client.env) email0 token0 st :
  Client.registeredUsers (fst (Client.validateResetToken e email0 token0 st))
  = Client.registeredUsers st.
Proof.
  unfold Client.validateResetToken.
  destruct (JsObject.get _ _) as [| |stored]; try reflexivity.
  destruct (negb _); [reflexivity|]. now destruct (_ <? _).
Qed.

Lemma Client_perform_wf e o st :
  Client_wf st -> Client_wf (fst (Client.perform e o st)).
Proof.
  intros Hwf. destruct o as [n em p|em tk|em p|em|em tk|em tk np|]; simpl.
  - unfold Client.signup.
    destruct (JsObject.truthy (JsObject.get Client.DEMO_USERS _)) eqn:Edemo;
      [exact Hwf|].
    destruct (JsObject.truthy (JsObject.get (Client.registeredUsers st) _))
      eqn:Ereg; [exact Hwf|].
    destruct (_ <? _); [exact Hwf|].
    destruct (JsString.narrow p) as [p1|]; [|exact Hwf]. simpl.
    apply get_falsy in Edemo as (Hdemo & _ & Hproto).
    rewrite !set_insert by exact Hproto.
    intros k su Hk. simpl in Hk.
    apply lookup_insert_Some in Hk as [[<- _]|[_ Hk]]; [|now apply (Hwf k su)].
    split; [exact Hdemo|apply normalize_idem].
  - unfold Client.verifyEmail.
    destruct (JsObject.get (Client.pendingVerifications st) _) as [| |p];
      try exact Hwf.
    destruct (negb _); [exact Hwf|]. destruct (_ <? _); [exact Hwf|].
    destruct (JsObject.get (Client.registeredUsers st) _) as [| |su] eqn:Esu;
      try exact Hwf.
    apply get_Own in Esu.
    now apply (Client_wf_update st _ _ su Client.mark_verified Esu).
  - unfold Client.login.
    destruct (Client.find_account _ _) as [| |su]; try exact Hwf.
    destruct (negb _); [exact Hwf|].
    destruct (JsString.narrow p) as [p1|]; [|exact Hwf].
    destruct (negb _); exact Hwf.
  - unfold Client.requestPasswordReset.
    destruct (negb _); exact Hwf.
  - apply (Client_wf_registered st); [|exact Hwf].
    apply Client_validateResetToken_registered.
  - unfold Client.resetPassword.
    pose proof (Client_validateResetToken_registered e (normalize em) tk st)
      as Hreg.
    destruct (Client.validateResetToken e (normalize em) tk st) as [st1 r1].
    simpl in Hreg.
    assert (Hwf1 : Client_wf st1) by now apply (Client_wf_registered st).
    destruct (negb _); [exact Hwf1|]. destruct (_ <? _); [exact Hwf1|].
    unfold Client.update_password.
    destruct (JsObject.get (Client.registeredUsers st1) _) as [| |su] eqn:Esu;
      try exact Hwf1;
      (destruct (JsString.narrow np) as [np1|]; [|exact Hwf1]);
      [exact Hwf1|].
    apply get_Own in Esu.
    now apply (Client_wf_update st1 _ _ su
                 (Client.set_hashedPassword (Client.hashPassword np1)) Esu).
  - exact Hwf.
Qed.

Lemma Client_reachable_wf st : Client.reachable st -> Client_wf st.
Proof.
  induction 1 as [|e o st _ IH].
  - intros k su Hk. simpl in Hk. now rewrite lookup_empty in Hk.
  - now apply Client_perform_wf.
Qed.

(** In a reachable state the demo accounts have no entry in
    [registeredUsers]. *)
Lemma Client_reachable_demo st k su :
  Client.reachable st -> Client.DEMO_USERS !! k = Some su ->
  Client.registeredUsers st !! k = None.
Proof.
  intros Hwf%Client_reachable_wf Hdemo.
  destruct (Client.registeredUsers st !! k) as [su'|] eqn:Ereg; [|reflexivity].
  destruct (Hwf k su' Ereg) as [[Hnone _]%get_Undefined _]. congruence.
Qed.

(** Every account of a reachable state, demo or registered, is the one
    [login] finds for its key, and its key is normalised. *)
Lemma Client_reachable_account st k su :
  Client.reachable st ->
  Client.DEMO_USERS !! k = Some su \/
  Client.registeredUsers st !! k = Some su ->
  normalize k = k /\ Client.find_account k st = JsObject.Own su.
Proof.
  intros Hwf%Client_reachable_wf [Hdemo|Hreg]; unfold Client.find_account.
  - split; [now apply (DEMO_USERS_normalized k su)|].
    apply get_Own in Hdemo. now rewrite Hdemo.
  - destruct (Hwf k su Hreg) as [Hund Hnorm]. split; [exact Hnorm|].
    rewrite Hund. now apply get_Own.
Qed.

End Invariants.

(** ** Searching an array that grew at its end *)

Lemma find_user_email a us u :
  Backend.find_user a us = Some u -> Backend.email u = a.
Proof.
  induction us as [|v us IH]; simpl; [discriminate|].
  destruct (String.eqb (Backend.email v) a) eqn:E; [|exact IH].
  intros [= <-]. now apply String.eqb_eq.
Qed.

Lemma find_user_app_Some a us l u :
  Backend.find_user a us = Some u -> Backend.find_user a (us ++ l) = Some u.
Proof.
  induction us as [|v us IH]; simpl; [discriminate|].
  now destruct (String.eqb (Backend.email v) a).
Qed.

Lemma find_user_app_None a us l :
  Backend.find_user a us = None ->
  Backend.find_user a (us ++ l) = Backend.find_user a l.
Proof.
  induction us as [|v us IH]; simpl; [reflexivity|].
  now destruct (String.eqb (Backend.email v) a).
Qed.

Lemma update_found_app_None a f us l :
  Backend.find_user a us = None ->
  Backend.update_found a f (us ++ l) = (us ++ Backend.update_found a f l)%list.
Proof.
  induction us as [|v us IH]; simpl; [reflexivity|].
  destruct (String.eqb (Backend.email v) a); [discriminate|].
  intros Hn. now rewrite IH.
Qed.

(** ** Claims *)

Section Claims.
Context `{Platform}.

(** C8. Permission monotonicity of [ROLE_PERMISSIONS]: every permission of
    operator is a permission of manager and of director, and every
    permission of manager is a permission of director. *)
Theorem C8_permission_monotonicity (p : Permission) :
  (In p (ROLE_PERMISSIONS operator) -> In p (ROLE_PERMISSIONS manager)) /\
  (In p (ROLE_PERMISSIONS operator) -> In p (ROLE_PERMISSIONS director)) /\
  (In p (ROLE_PERMISSIONS manager) -> In p (ROLE_PERMISSIONS director)).
Proof.
  repeat split; intros Hin; simpl in Hin;
    repeat (destruct Hin as [<-|Hin]; [simpl; tauto|]); contradiction.
Qed.

(** C2 (amended). [validateResetToken] never changes the credential store.
    It returns the state it was given, except when the reset entry of the
    normalised email holds exactly the submitted token and is past its
    expiry: then that one entry is deleted from the token store, and
    nothing else changes. *)
Theorem C2_validateResetToken_frame :
  (forall (e : Backend.env) email0 token0 (st : Backend.state),
      let st' := fst (Backend.validateResetToken e email0 token0 st) in
      Backend.users st' = Backend.users st /\
      (st' = st \/
       exists em p,
         email0 = Some em /\ token0 = Some (Backend.token p) /\
         Backend.pendingVerifications st
           !! Backend.reset_key (normalize em) = Some p /\
         Backend.expiry p < Backend.now e /\
         st' = Backend.with_pending
                 (delete (Backend.reset_key (normalize em))
                    (Backend.pendingVerifications st)) st)) /\
  (forall (e : Client.env) email0 token0 (st : Client.state),
      let st' := fst (Client.validateResetToken e email0 token0 st) in
      Client.registeredUsers st' = Client.registeredUsers st /\
      Client.pendingVerifications st' = Client.pendingVerifications st /\
      (st' = st \/
       exists stored,
         Client.passwordResetTokens st !! normalize email0 = Some stored /\
         Client.rt_token stored = token0 /\
         Client.rt_expiresAt stored < Client.now e /\
         st' = Client.with_tokens
                 (delete (normalize email0) (Client.passwordResetTokens st))
                 st)).
Proof.
  split.
  - intros e email0 token0 st. unfold Backend.validateResetToken.
    destruct (JsString.truthy email0) as [em|] eqn:Eem; simpl; [|tauto].
    destruct (JsString.truthy token0) as [tk|] eqn:Etk; simpl; [|tauto].
    apply truthy_Some_inv in Eem as [-> _].
    apply truthy_Some_inv in Etk as [-> _].
    destruct (Backend.pendingVerifications st
                !! Backend.reset_key (normalize em)) as [p|] eqn:Ep;
      simpl; [|tauto].
    token_cases; try tauto.
    split; [reflexivity|]. right. exists em, p. subst tk. tauto.
  - intros e email0 token0 st. unfold Client.validateResetToken, JsObject.get.
    destruct (Client.passwordResetTokens st !! normalize email0)
      as [stored|] eqn:Ep; simpl.
    + token_cases; try tauto.
      repeat split; try reflexivity. right. exists stored. tauto.
    + destruct (JsObject.in_prototype (normalize email0)); simpl; tauto.
Qed.

(** C7. [resetPassword] fails on every state, time and request on which
    [validateResetToken] fails, and then leaves every account as it was. *)
Theorem C7_reset_requires_valid_token :
  (forall (e : Backend.env) email0 token0 newPassword0 (st : Backend.state),
      Backend.status (snd (Backend.validateResetToken e email0 token0 st))
        <> 200 ->
      (exists message,
          snd (Backend.resetPassword e email0 token0 newPassword0 st)
          = Backend.failure 400 message) /\
      Backend.users (fst (Backend.resetPassword e email0 token0 newPassword0 st))
      = Backend.users st) /\
  (forall (e : Client.env) email0 token0 newPassword (st : Client.state),
      Client.success (snd (Client.validateResetToken e email0 token0 st))
        = false ->
      Client.success (snd (Client.resetPassword e email0 token0 newPassword st))
        = false /\
      Client.registeredUsers
        (fst (Client.resetPassword e email0 token0 newPassword st))
      = Client.registeredUsers st).
Proof.
  split.
  - intros e email0 token0 newPassword0 st.
    unfold Backend.validateResetToken, Backend.resetPassword.
    destruct (JsString.truthy email0) as [em|]; simpl; [|eauto].
    destruct (JsString.truthy token0) as [tk|]; simpl; [|eauto].
    destruct (JsString.truthy newPassword0) as [np|]; simpl; [|eauto].
    destruct (JsString.length np <? 6); simpl; [eauto|].
    destruct (Backend.pendingVerifications st
                !! Backend.reset_key (normalize em)) as [p|];
      simpl; [|eauto].
    token_cases; eauto. intros Hfail. now contradiction Hfail.
  - intros e email0 token0 newPassword st Hfail.
    unfold Client.resetPassword.
    unfold Client.validateResetToken in *.
    rewrite normalize_idem.
    destruct (JsObject.get (Client.passwordResetTokens st) (normalize email0))
      as [| |stored]; simpl in *; auto.
    revert Hfail. token_cases; auto. discriminate.
Qed.




(** C6 (amended).  Expiry enforcement.  When the stored token is exactly
    the submitted one and its expiry lies before the time of the call,
    [verifyEmail], [validateResetToken] and [resetPassword] refuse the
    request, and but for one case with their expired-link failure,
    deleting the entry.  The case is the controller's [resetPassword],
    which checks the new password before it looks at the token: a request
    whose new password is missing or has fewer than 6 characters it
    answers with the failure of that check and leaves the entry.  (The
    controller reaches the token only in a request that carries an email
    and a token; every other request it answers with status 400 as
    well.) *)
Theorem C6_expiry_enforcement :
  (forall (e : Backend.env) em p (st : Backend.state),
      em <> "" -> Backend.token p <> "" ->
      Backend.pendingVerifications st !! normalize em = Some p ->
      Backend.expiry p < Backend.now e ->
      Backend.verifyEmail e (Some em) (Some (Backend.token p)) st
      = (Backend.with_pending
           (delete (normalize em) (Backend.pendingVerifications st)) st,
         Backend.failure 400
           "Verification link has expired. Please sign up again.")) /\
  (forall (e : Backend.env) em p (st : Backend.state),
      em <> "" -> Backend.token p <> "" ->
      Backend.pendingVerifications st !! Backend.reset_key (normalize em)
        = Some p ->
      Backend.expiry p < Backend.now e ->
      Backend.validateResetToken e (Some em) (Some (Backend.token p)) st
      = (Backend.with_pending
           (delete (Backend.reset_key (normalize em))
              (Backend.pendingVerifications st)) st,
         Backend.failure 400 "Reset link has expired")) /\
  (forall (e : Backend.env) em p np (st : Backend.state),
      em <> "" -> Backend.token p <> "" -> 6 <= JsString.length np ->
      Backend.pendingVerifications st !! Backend.reset_key (normalize em)
        = Some p ->
      Backend.expiry p < Backend.now e ->
      Backend.resetPassword e (Some em) (Some (Backend.token p)) (Some np) st
      = (Backend.with_pending
           (delete (Backend.reset_key (normalize em))
              (Backend.pendingVerifications st)) st,
         Backend.failure 400 "Reset link has expired")) /\
  (forall (e : Backend.env) em tk newPassword0 (st : Backend.state),
      em <> "" -> tk <> "" ->
      (JsString.truthy newPassword0 = None ->
       Backend.resetPassword e (Some em) (Some tk) newPassword0 st
       = (st, Backend.failure 400
                "Email, token and new password are required")) /\
      (forall np,
          newPassword0 = Some np -> np <> "" -> JsString.length np < 6 ->
          Backend.resetPassword e (Some em) (Some tk) newPassword0 st
          = (st, Backend.failure 400
                   "Password must be at least 6 characters"))) /\
  (forall (e : Backend.env) em p newPassword0 (st : Backend.state),
      (Backend.pendingVerifications st !! normalize em = Some p ->
       Backend.expiry p < Backend.now e ->
       Backend.status
         (snd (Backend.verifyEmail e (Some em) (Some (Backend.token p)) st))
       = 400) /\
      (Backend.pendingVerifications st !! Backend.reset_key (normalize em)
         = Some p ->
       Backend.expiry p < Backend.now e ->
       Backend.status
         (snd (Backend.validateResetToken e (Some em)
                 (Some (Backend.token p)) st)) = 400 /\
       Backend.status
         (snd (Backend.resetPassword e (Some em) (Some (Backend.token p))
                 newPassword0 st)) = 400)) /\
  (forall (e : Client.env) email0 p (st : Client.state),
      Client.pendingVerifications st !! normalize email0 = Some p ->
      Client.pv_expiresAt p < Client.now e ->
      Client.verifyEmail e email0 (Client.pv_token p) st
      = (Client.with_pending
           (delete (normalize email0) (Client.pendingVerifications st)) st,
         Client.failed
           "Verification link has expired. Please sign up again.")) /\
  (forall (e : Client.env) email0 stored newPassword (st : Client.state),
      Client.passwordResetTokens st !! normalize email0 = Some stored ->
      Client.rt_expiresAt stored < Client.now e ->
      Client.validateResetToken e email0 (Client.rt_token stored) st
      = (Client.with_tokens
           (delete (normalize email0) (Client.passwordResetTokens st)) st,
         Client.failed "Reset link has expired") /\
      Client.resetPassword e email0 (Client.rt_token stored) newPassword st
      = (Client.with_tokens
           (delete (normalize email0) (Client.passwordResetTokens st)) st,
         Client.failed "Reset link has expired")).
Proof.
  repeat apply conj.
  - intros e em p st Hem Htk Hp Hexp. unfold Backend.verifyEmail.
    rewrite !truthy_nonempty by assumption. simpl. rewrite Hp.
    rewrite String.eqb_refl. simpl.
    apply Z.ltb_lt in Hexp. now rewrite Hexp.
  - intros e em p st Hem Htk Hp Hexp. unfold Backend.validateResetToken.
    rewrite !truthy_nonempty by assumption. simpl. rewrite Hp.
    rewrite String.eqb_refl. simpl.
    apply Z.ltb_lt in Hexp. now rewrite Hexp.
  - intros e em p np st Hem Htk Hnp Hp Hexp. unfold Backend.resetPassword.
    assert (np <> "") by (intros ->; unfold JsString.length in Hnp; simpl in Hnp; lia).
    rewrite !truthy_nonempty by assumption. simpl.
    apply Z.ltb_ge in Hnp. rewrite Hnp, Hp.
    rewrite String.eqb_refl. simpl.
    apply Z.ltb_lt in Hexp. now rewrite Hexp.
  - intros e em tk newPassword0 st Hem Htk. unfold Backend.resetPassword.
    rewrite !truthy_nonempty by assumption. split.
    + intros Hnp. now rewrite Hnp.
    + intros np -> Hnp Hlen. rewrite truthy_nonempty by assumption.
      apply Z.ltb_lt in Hlen. now rewrite Hlen.
  - intros e em p newPassword0 st. split.
    + intros Hp Hexp. unfold Backend.verifyEmail.
      destruct (JsString.truthy (Some em)) as [em'|] eqn:Eem; [|reflexivity].
      apply truthy_Some_inv in Eem as [[= <-] _].
      destruct (JsString.truthy (Some (Backend.token p))) as [tk|] eqn:Etk;
        [|reflexivity].
      apply truthy_Some_inv in Etk as [[= <-] _].
      simpl. rewrite Hp, String.eqb_refl. simpl.
      apply Z.ltb_lt in Hexp. now rewrite Hexp.
    + intros Hp Hexp.
      unfold Backend.validateResetToken, Backend.resetPassword.
      destruct (JsString.truthy (Some em)) as [em'|] eqn:Eem;
        [|split; reflexivity].
      apply truthy_Some_inv in Eem as [[= <-] _].
      destruct (JsString.truthy (Some (Backend.token p))) as [tk|] eqn:Etk;
        [|split; reflexivity].
      apply truthy_Some_inv in Etk as [[= <-] _].
      simpl. rewrite Hp, String.eqb_refl. simpl.
      apply Z.ltb_lt in Hexp. rewrite Hexp. split; [reflexivity|].
      destruct (JsString.truthy newPassword0); [|reflexivity].
      now destruct (JsString.length _ <? 6).
  - intros e email0 p st Hp Hexp. unfold Client.verifyEmail, JsObject.get.
    rewrite Hp, String.eqb_refl. simpl.
    apply Z.ltb_lt in Hexp. now rewrite Hexp.
  - intros e email0 stored newPassword st Hp Hexp.
    assert (Hv : Client.validateResetToken e email0 (Client.rt_token stored) st
                 = (Client.with_tokens
                      (delete (normalize email0) (Client.passwordResetTokens st)) st,
                    Client.failed "Reset link has expired")).
    { unfold Client.validateResetToken, JsObject.get.
      rewrite Hp, String.eqb_refl. simpl.
      apply Z.ltb_lt in Hexp. now rewrite Hexp. }
    split; [exact Hv|].
    unfold Client.resetPassword.
    unfold Client.validateResetToken in *. rewrite normalize_idem, Hv.
    reflexivity.
Qed.

(** C4. Verification gating holds for the account a store finds for the
    submitted email: while it is unverified [login] answers with the
    not-verified failure whatever password is submitted, the correct one
    included; once it is verified, [login] with a correct password
    succeeds and issues the session token ([jwt.sign] of the account's id,
    email and role in the controller, [btoa] of the JSON text of id, role
    and the two times in the client).  (The controller first requires
    both fields to be present.)  In the client, and in a controller that
    handles its requests one after another, this covers every account.
    It does not cover every account of the controller as it runs: of two
    signups for one address that both pass the duplicate check before
    either pushes, both accounts are stored; after the address is
    verified the second account is still unverified, and [login] with its
    own password answers 401, incorrect password, not 403. *)
Theorem C4_verification_gating :
  (forall (e : Backend.env) em pw u (st : Backend.state),
      em <> "" -> pw <> "" ->
      Backend.find_user (normalize em) (Backend.users st) = Some u ->
      (Backend.isVerified u = false ->
       Backend.login e (Some em) (Some pw) st
       = (st,
          {| Backend.status := 403;
             Backend.body :=
               [ ("success", JBool false);
                 ("message", JStr "Please verify your email before logging in");
                 ("requiresVerification", JBool true) ] |})) /\
      (Backend.isVerified u = true ->
       bcrypt_compare pw (Backend.password u) = true ->
       Backend.login e (Some em) (Some pw) st
       = (st,
          {| Backend.status := 200;
             Backend.body :=
               [ ("success", JBool true);
                 ("message", JStr "Login successful");
                 ("token",
                  JStr (jwt_sign
                          [ ("userId", JStr (Backend.id u));
                            ("email", JStr (Backend.email u));
                            ("role", JStr (role_name (Backend.role u))) ]
                          Backend.JWT_SECRET "24h" (Backend.now e)));
                 ("user", JObj (omit "password" (Backend.user_object u))) ] |}))) /\
  (forall (e : Client.env) email0 (pw : JsString.wide) su (st : Client.state),
      Client.find_account (normalize email0) st = JsObject.Own su ->
      (Client.isVerified (Client.user su) = false ->
       Client.login e email0 pw st
       = (st,
          {| Client.success := false;
             Client.error := Some "Please verify your email before logging in";
             Client.requiresVerification := Some true |})) /\
      (Client.isVerified (Client.user su) = true ->
       forall password1,
         JsString.narrow pw = Some password1 ->
         btoa (password1 ++ "_flowdash_salt_2024") = Client.hashedPassword su ->
         let session :=
           btoa (JSON_stringify
                   (JObj [ ("userId", JStr (Client.id (Client.user su)));
                           ("role",
                            JStr (role_name (Client.role (Client.user su))));
                           ("iat", JNum (Client.now e));
                           ("exp",
                            JNum (Client.now e + 24 * 60 * 60 * 1000)) ])) in
         snd (Client.login e email0 pw st) = Client.succeeded /\
         Client.auth_token (fst (Client.login e email0 pw st)) = Some session /\
         Client.ls_token (fst (Client.login e email0 pw st)) = Some session /\
         Client.auth_user (fst (Client.login e email0 pw st))
         = Some (Client.user su))) /\
  (forall (st : Backend.state) u,
      Backend.reachable st -> In u (Backend.users st) ->
      Backend.email u <> "" /\
      Backend.find_user (normalize (Backend.email u)) (Backend.users st)
      = Some u) /\
  (forall (st : Client.state) k su,
      Client.reachable st ->
      Client.DEMO_USERS !! k = Some su \/
      Client.registeredUsers st !! k = Some su ->
      normalize k = k /\ Client.find_account k st = JsObject.Own su) /\
  (forall (e1 e2 e3 e4 : Backend.env) nm1 nm2 em pw1 pw2
          (st : Backend.state) waiting,
      Overlap.reachable st waiting ->
      Overlap.signup_begin (Some nm1) (Some em) (Some pw1) st
      = inr (Overlap.SignupHashing nm1 em pw1) ->
      Overlap.signup_begin (Some nm2) (Some em) (Some pw2) st
      = inr (Overlap.SignupHashing nm2 em pw2) ->
      Backend.random_hex e2 <> "" ->
      Backend.now e3 <= Backend.now e2 + 24 * 60 * 60 * 1000 ->
      bcrypt_compare pw2 (bcrypt_hash pw2 12 (Backend.salt e2)) = true ->
      bcrypt_compare pw2 (bcrypt_hash pw1 12 (Backend.salt e1)) = false ->
      let st1 := fst (Overlap.signup_resume e1 nm1 em pw1 st) in
      let st2 := fst (Overlap.signup_resume e2 nm2 em pw2 st1) in
      let st3 :=
        fst (Backend.verifyEmail e3 (Some em) (Some (Backend.random_hex e2))
               st2) in
      Overlap.reachable st3 waiting /\
      exists u,
        In u (Backend.users st3) /\
        Backend.email u = normalize em /\
        Backend.isVerified u = false /\
        bcrypt_compare pw2 (Backend.password u) = true /\
        Backend.login e4 (Some em) (Some pw2) st3
        = (st3, Backend.failure 401 "Incorrect password")).
Proof.
  split; [|split; [|split; [|split]]];
    [| |exact Backend_reachable_account|exact Client_reachable_account|].
  - intros e em pw u st Hem Hpw Hu. unfold Backend.login.
    rewrite !truthy_nonempty by assumption. simpl. rewrite Hu.
    split.
    + intros Hv. now rewrite Hv.
    + intros Hv Hc. now rewrite Hv, Hc.
  - intros e email0 pw su st Hsu. unfold Client.login. rewrite Hsu.
    split.
    + intros Hv. now rewrite Hv.
    + intros Hv password1 Hpw Hc. rewrite Hv, Hpw. simpl.
      unfold Client.hashPassword, Client.generateToken.
      rewrite Hc, String.eqb_refl. simpl. tauto.
  - intros e1 e2 e3 e4 nm1 nm2 em pw1 pw2 st waiting Hst Hb1 Hb2 Hhex Hlive
      Hown Hother st1 st2 st3.
    assert (Hem : em <> "").
    { intros ->. unfold Overlap.signup_begin in Hb1.
      destruct (JsString.truthy (Some nm1)); discriminate Hb1. }
    assert (Hpw2 : pw2 <> "").
    { intros ->. unfold Overlap.signup_begin in Hb2.
      destruct (JsString.truthy (Some nm2)); [|discriminate Hb2].
      destruct (JsString.truthy (Some em)); discriminate Hb2. }
    assert (Hfree : Backend.find_user (normalize em) (Backend.users st) = None).
    { unfold Overlap.signup_begin in Hb1.
      destruct (JsString.truthy (Some nm1)); [|discriminate Hb1].
      rewrite truthy_nonempty in Hb1 by exact Hem.
      destruct (JsString.truthy (Some pw1)); [|discriminate Hb1].
      destruct (negb _); [discriminate Hb1|].
      destruct (_ <? _); [discriminate Hb1|].
      now destruct (Backend.find_user _ _). }
    set (a1 := {| Backend.id := Backend.random_id e1;
                  Backend.email := normalize em;
                  Backend.password := bcrypt_hash pw1 12 (Backend.salt e1);
                  Backend.name := JsString.trim nm1; Backend.role := operator;
                  Backend.department := "General";
                  Backend.title := "Team Member"; Backend.isVerified := false;
                  Backend.createdAt := Backend.now_iso e1 |}).
    set (a2 := {| Backend.id := Backend.random_id e2;
                  Backend.email := normalize em;
                  Backend.password := bcrypt_hash pw2 12 (Backend.salt e2);
                  Backend.name := JsString.trim nm2; Backend.role := operator;
                  Backend.department := "General";
                  Backend.title := "Team Member"; Backend.isVerified := false;
                  Backend.createdAt := Backend.now_iso e2 |}).
    assert (Hfind : forall rest,
               Backend.find_user (normalize em)
                 (Backend.users st ++ rest)
               = Backend.find_user (normalize em) rest)
      by (intros rest; now apply find_user_app_None).
    assert (E3 : Backend.users st3
                 = ((Backend.users st
                     ++ [Backend.set_isVerified true a1]) ++ [a2])%list).
    { subst st3 st2 st1. unfold Backend.verifyEmail.
      rewrite !truthy_nonempty by assumption. simpl.
      rewrite lookup_insert_eq. simpl. rewrite String.eqb_refl. simpl.
      apply Z.ltb_ge in Hlive. rewrite Hlive.
      rewrite <- app_assoc, Hfind. simpl. rewrite String.eqb_refl. simpl.
      rewrite update_found_app_None by exact Hfree. simpl.
      rewrite String.eqb_refl. now rewrite <- app_assoc. }
    split.
    + subst st3. apply Overlap.reachable_handle
        with (r := Backend.VerifyEmail (Some em) (Some (Backend.random_hex e2))).
      subst st2.
      apply (Overlap.reachable_resume e2 (Overlap.SignupHashing nm2 em pw2)
               st1 [] waiting).
      subst st1.
      apply (Overlap.reachable_resume e1 (Overlap.SignupHashing nm1 em pw1)
               st [Overlap.SignupHashing nm2 em pw2] waiting).
      simpl.
      apply (Overlap.reachable_signup_begin (Some nm2) (Some em) (Some pw2));
        [|exact Hb2].
      now apply (Overlap.reachable_signup_begin (Some nm1) (Some em) (Some pw1)).
    + exists a2. repeat apply conj.
      * rewrite E3. apply in_or_app. right. now left.
      * reflexivity.
      * reflexivity.
      * exact Hown.
      * unfold Backend.login. rewrite !truthy_nonempty by assumption. simpl.
        rewrite E3, <- app_assoc, Hfind. simpl.
        rewrite String.eqb_refl. simpl. now rewrite Hother.
Qed.

(** C9. A successful [login] never hands out the password hash.  The
    controller's response carries the token and the account object
    without its [password] property, every other property intact; the
    client returns a bare success and stores the [User] part of the
    account, which has neither a [hashedPassword] nor a [password]
    property. *)
Theorem C9_login_omits_password_hash :
  (forall (e : Backend.env) email0 password0 (st : Backend.state),
      Backend.status (snd (Backend.login e email0 password0 st)) = 200 ->
      exists em u token userData,
        email0 = Some em /\
        Backend.find_user (normalize em) (Backend.users st) = Some u /\
        Backend.body (snd (Backend.login e email0 password0 st))
        = [ ("success", JBool true); ("message", JStr "Login successful");
            ("token", JStr token); ("user", JObj userData) ] /\
        token = jwt_sign
                  [ ("userId", JStr (Backend.id u));
                    ("email", JStr (Backend.email u));
                    ("role", JStr (role_name (Backend.role u))) ]
                  Backend.JWT_SECRET "24h" (Backend.now e) /\
        map fst userData
        = [ "id"; "email"; "name"; "role"; "department"; "title";
            "isVerified"; "createdAt" ] /\
        get_field "password" userData = None /\
        forall k, k <> "password" ->
                  get_field k userData = get_field k (Backend.user_object u)) /\
  (forall (e : Client.env) email0 pw (st : Client.state),
      Client.success (snd (Client.login e email0 pw st)) = true ->
      exists su,
        Client.find_account (normalize email0) st = JsObject.Own su /\
        snd (Client.login e email0 pw st) = Client.succeeded /\
        Client.auth_user (fst (Client.login e email0 pw st))
        = Some (Client.user su) /\
        Client.ls_user (fst (Client.login e email0 pw st))
        = Some (Client.user_object (Client.user su)) /\
        get_field "hashedPassword" (Client.user_object (Client.user su)) = None /\
        get_field "password" (Client.user_object (Client.user su)) = None).
Proof.
  split.
  - intros e email0 password0 st. unfold Backend.login.
    destruct (JsString.truthy email0) as [em|] eqn:Eem; simpl;
      [|discriminate].
    destruct (JsString.truthy password0) as [pw|] eqn:Epw; simpl;
      [|discriminate].
    apply truthy_Some_inv in Eem as [-> _].
    destruct (Backend.find_user (normalize em) (Backend.users st))
      as [u|] eqn:Eu; simpl; [|discriminate].
    destruct (Backend.isVerified u); simpl; [|discriminate].
    destruct (bcrypt_compare pw (Backend.password u)); simpl; [|discriminate].
    intros _. eexists em, u, _, _.
    split; [reflexivity|]. split; [exact Eu|].
    split; [reflexivity|]. split; [reflexivity|].
    split; [reflexivity|]. split; [apply get_field_omit_same|].
    intros k Hk. now apply get_field_omit_other.
  - intros e email0 pw st. unfold Client.login.
    destruct (Client.find_account (normalize email0) st) as [| |su];
      simpl; try discriminate.
    destruct (Client.isVerified (Client.user su)); simpl; [|discriminate].
    destruct (JsString.narrow pw) as [password1|]; simpl; [|discriminate].
    destruct (String.eqb _ _); simpl; [|discriminate].
    intros _. exists su. repeat split; reflexivity.
Qed.

(** C10. [resetPassword] can succeed without changing any password hash.
    With a live matching reset token for an email that has no entry in
    the mutable user store (in the client, [registeredUsers]; in the
    controller, the [users] array), the update is skipped, the token is
    deleted and the call reports success.  In every reachable state of the
    client that is the case of every demo account: the accounts of the
    constant [DEMO_USERS] never have an entry in [registeredUsers]. *)
Theorem C10_reset_succeeds_without_hash_change :
  (forall (e : Client.env) email0 stored newPassword (st : Client.state),
      Client.registeredUsers st !! normalize email0 = None ->
      Client.passwordResetTokens st !! normalize email0 = Some stored ->
      Client.now e <= Client.rt_expiresAt stored ->
      6 <= JsString.length newPassword ->
      let r := Client.resetPassword e email0 (Client.rt_token stored)
                 newPassword st in
      snd r = Client.succeeded /\
      Client.registeredUsers (fst r) = Client.registeredUsers st /\
      Client.passwordResetTokens (fst r)
      = delete (normalize email0) (Client.passwordResetTokens st)) /\
  (forall (e : Backend.env) em p np (st : Backend.state),
      em <> "" -> Backend.token p <> "" ->
      Backend.find_user (normalize em) (Backend.users st) = None ->
      Backend.pendingVerifications st !! Backend.reset_key (normalize em)
        = Some p ->
      Backend.now e <= Backend.expiry p ->
      6 <= JsString.length np ->
      let r := Backend.resetPassword e (Some em) (Some (Backend.token p))
                 (Some np) st in
      snd r = Backend.success 200 "Password has been reset successfully" /\
      Backend.users (fst r) = Backend.users st /\
      Backend.pendingVerifications (fst r)
      = delete (Backend.reset_key (normalize em))
          (Backend.pendingVerifications st)) /\
  (forall (st : Client.state) k su,
      Client.reachable st -> Client.DEMO_USERS !! k = Some su ->
      Client.registeredUsers st !! k = None).
Proof.
  split; [|split; [|exact Client_reachable_demo]].
  - intros e email0 stored newPassword st Hreg Htok Hlive Hlen.
    unfold Client.resetPassword, Client.validateResetToken,
      Client.update_password, JsObject.get.
    rewrite normalize_idem, Htok, String.eqb_refl. simpl.
    apply Z.ltb_ge in Hlive, Hlen. rewrite Hlive. simpl.
    rewrite wide_length_of_string, narrow_of_string, Hlen, Hreg.
    now destruct (JsObject.in_prototype (normalize email0)).
  - intros e em p np st Hem Htk Hnone Hp Hlive Hlen.
    unfold Backend.resetPassword.
    assert (np <> "")
      by (intros ->; unfold JsString.length in Hlen; simpl in Hlen; lia).
    rewrite !truthy_nonempty by assumption. simpl.
    apply Z.ltb_ge in Hlive, Hlen.
    rewrite Hlen, Hp, String.eqb_refl. simpl. rewrite Hlive, Hnone.
    now simpl.
Qed.

(** C3 (amended).  The controller's [signup] answers 400 and changes
    nothing when the name, the email or the password is missing, when
    the email does not match the address pattern or when the password
    has fewer than 6 characters; a request that passes these checks is
    answered 409 when an account exists for the normalised email.  The
    client's [signup] checks neither the name nor the email: it fails
    with the duplicate message when [DEMO_USERS] or [registeredUsers] has
    the normalised email, and otherwise with the password message when
    the password has fewer than 6 characters. *)
Theorem C3_signup_errors :
  (forall (e : Backend.env) name0 email0 password0 (st : Backend.state),
      JsString.truthy name0 = None \/ JsString.truthy email0 = None \/
      JsString.truthy password0 = None \/
      (exists em, email0 = Some em /\ Regex.test emailRegex em = false) \/
      (exists pw, password0 = Some pw /\ JsString.length pw < 6) ->
      exists message,
        Backend.signup e name0 email0 password0 st
        = (st, Backend.failure 400 message)) /\
  (forall (e : Backend.env) nm em pw u (st : Backend.state),
      nm <> "" -> Regex.test emailRegex em = true ->
      6 <= JsString.length pw ->
      Backend.find_user (normalize em) (Backend.users st) = Some u ->
      Backend.signup e (Some nm) (Some em) (Some pw) st
      = (st, Backend.failure 409 "An account with this email already exists")) /\
  (forall (e : Client.env) name0 email0 (pw : JsString.wide)
          (st : Client.state),
      JsObject.truthy (JsObject.get Client.DEMO_USERS (normalize email0))
        = true \/
      JsObject.truthy (JsObject.get (Client.registeredUsers st) (normalize email0))
        = true ->
      Client.signup e name0 email0 pw st
      = (st, Client.failed "An account with this email already exists")) /\
  (forall (e : Client.env) name0 email0 (pw : JsString.wide)
          (st : Client.state),
      JsObject.truthy (JsObject.get Client.DEMO_USERS (normalize email0))
        = false ->
      JsObject.truthy (JsObject.get (Client.registeredUsers st) (normalize email0))
        = false ->
      JsString.wide_length pw < 6 ->
      Client.signup e name0 email0 pw st
      = (st, Client.failed "Password must be at least 6 characters")).
Proof.
  repeat apply conj.
  - intros e name0 email0 password0 st Hbad. unfold Backend.signup.
    destruct (JsString.truthy name0) as [nm|] eqn:Enm; [|eauto].
    destruct (JsString.truthy email0) as [em|] eqn:Eem; [|eauto].
    destruct (JsString.truthy password0) as [pw|] eqn:Epw; [|eauto].
    apply truthy_Some_inv in Eem as [-> _].
    apply truthy_Some_inv in Epw as [-> _].
    destruct Hbad as [Hb|[Hb|[Hb|[(em' & [= <-] & Hb)|(pw' & [= <-] & Hb)]]]];
      try discriminate.
    + rewrite Hb. simpl. eauto.
    + destruct (Regex.test emailRegex em); simpl; [|eauto].
      apply Z.ltb_lt in Hb. rewrite Hb. eauto.
  - intros e nm em pw u st Hnm Hre Hlen Hu. unfold Backend.signup.
    assert (em <> "") by (intros ->; discriminate Hre).
    assert (pw <> "")
      by (intros ->; unfold JsString.length in Hlen; simpl in Hlen; lia).
    rewrite !truthy_nonempty by assumption.
    apply Z.ltb_ge in Hlen. rewrite Hre, Hlen. simpl. now rewrite Hu.
  - intros e name0 email0 pw st Hex. unfold Client.signup.
    destruct (JsObject.truthy (JsObject.get Client.DEMO_USERS _));
      [reflexivity|].
    destruct Hex as [Hex|Hex]; [discriminate|]. now rewrite Hex.
  - intros e name0 email0 pw st Hdemo Hreg Hlen. unfold Client.signup.
    rewrite Hdemo, Hreg. apply Z.ltb_lt in Hlen. now rewrite Hlen.
Qed.

(** C1.  The controller answers every request that carries an email with
    one and the same generic success, whether or not an account exists.
    The client does not: its answer is a success exactly when
    [DEMO_USERS] or [registeredUsers] has the normalised email, and says
    that no account was found otherwise; so in a fresh browser it reports
    no account for nobody@example.com and success for operator@demo.com. *)
Theorem C1_client_reveals_account_existence :
  (forall (e : Backend.env) email0 (st : Backend.state),
      snd (Backend.requestPasswordReset e email0 st)
      = match JsString.truthy email0 with
        | Some _ => Backend.success 200 Backend.generic_reset_message
        | None => Backend.failure 400 "Email is required"
        end) /\
  (forall (e : Client.env) email0 (st : Client.state),
      snd (Client.requestPasswordReset e email0 st)
      = if JsObject.truthy (JsObject.get Client.DEMO_USERS (normalize email0))
           || JsObject.truthy
                (JsObject.get (Client.registeredUsers st) (normalize email0))
        then Client.succeeded
        else Client.failed "No account found with this email") /\
  (forall e : Client.env,
      Client.requestPasswordReset e "nobody@example.com" Client.initial_state
      = (Client.initial_state,
         Client.failed "No account found with this email") /\
      snd (Client.requestPasswordReset e "operator@demo.com"
             Client.initial_state)
      = Client.succeeded).
Proof.
  split; [|split].
  - intros e email0 st. unfold Backend.requestPasswordReset.
    destruct (JsString.truthy email0) as [em|]; [|reflexivity].
    now destruct (Backend.find_user _ _).
  - intros e email0 st. unfold Client.requestPasswordReset.
    destruct (JsObject.truthy (JsObject.get Client.DEMO_USERS _)); simpl;
      [reflexivity|].
    now destruct (JsObject.truthy (JsObject.get (Client.registeredUsers st) _)).
  - intros e. split; vm_compute; reflexivity.
Qed.

End Claims.

(** ** The accounts of the controller over sequences of requests *)

Section BackendSteps.
Context `{Platform}.

Lemma find_user_update_found a b f us :
  (forall u, Backend.email (f u) = Backend.email u) ->
  Backend.find_user a (Backend.update_found b f us)
  = option_map (fun u => if String.eqb a b then f u else u)
      (Backend.find_user a us).
Proof.
  intros Hf. induction us as [|v us IH]; simpl; [reflexivity|].
  destruct (String.eqb (Backend.email v) b) eqn:Eb; simpl.
  - rewrite Hf. apply String.eqb_eq in Eb.
    destruct (String.eqb (Backend.email v) a) eqn:Ea; simpl.
    + apply String.eqb_eq in Ea. rewrite <- Ea, <- Eb.
      now rewrite String.eqb_refl.
    + destruct (Backend.find_user a us) as [u|] eqn:Eu; simpl; [|reflexivity].
      apply find_user_email in Eu.
      destruct (String.eqb a b) eqn:Eab; [|reflexivity].
      apply String.eqb_eq in Eab. apply String.eqb_neq in Ea. congruence.
  - destruct (String.eqb (Backend.email v) a) eqn:Ea; simpl; [|exact IH].
    apply String.eqb_eq in Ea.
    destruct (String.eqb a b) eqn:Eab; [|reflexivity].
    apply String.eqb_eq in Eab. apply String.eqb_neq in Eb. congruence.
Qed.

Lemma In_update_found a f us x :
  In x (Backend.update_found a f us) ->
  In x us \/ exists u, In u us /\ x = f u.
Proof.
  induction us as [|v us IH]; simpl; [tauto|].
  destruct (String.eqb (Backend.email v) a); simpl.
  - intros [<-|Hin]; [right; eauto|tauto].
  - intros [<-|Hin]; [tauto|].
    destruct (IH Hin) as [?|(u & ? & ?)]; [tauto|right; eauto].
Qed.

Lemma map_identity_update_found a f us :
  (forall u, Backend.identity (f u) = Backend.identity u) ->
  map Backend.identity (Backend.update_found a f us)
  = map Backend.identity us.
Proof.
  intros Hf. induction us as [|v us IH]; simpl; [reflexivity|].
  destruct (String.eqb (Backend.email v) a); simpl; [now rewrite Hf|].
  now rewrite IH.
Qed.

(** The four ways a request can leave the [users] array. *)
Inductive users_step (us : list Backend.user) : list Backend.user -> Prop :=
| users_same : users_step us us
| users_pushed n :
    Backend.find_user (Backend.email n) us = None ->
    Backend.role n = operator -> Backend.isVerified n = false ->
    users_step us (us ++ [n])%list
| users_verified a :
    users_step us (Backend.update_found a (Backend.set_isVerified true) us)
| users_rehashed a h :
    users_step us (Backend.update_found a (Backend.set_password h) us).

Lemma Backend_handle_users e r st :
  users_step (Backend.users st) (Backend.users (fst (Backend.handle e r st))).
Proof.
  destruct r as [n em p|em tk|em|em p|em|em tk|em tk np]; simpl.
  - unfold Backend.signup.
    destruct (JsString.truthy n); [|constructor].
    destruct (JsString.truthy em); [|constructor].
    destruct (JsString.truthy p); [|constructor].
    destruct (negb _); [constructor|].
    destruct (_ <? _); [constructor|].
    destruct (Backend.find_user _ _) eqn:E; [constructor|].
    simpl. now apply users_pushed.
  - unfold Backend.verifyEmail.
    destruct (JsString.truthy em); [|constructor].
    destruct (JsString.truthy tk); [|constructor].
    destruct (Backend.pendingVerifications st !! _); [|constructor].
    destruct (negb _); [constructor|].
    destruct (_ <? _); simpl; [constructor|].
    destruct (Backend.find_user _ _); constructor.
  - unfold Backend.resendVerification.
    destruct (JsString.truthy em); [|constructor].
    destruct (Backend.find_user _ _) as [u|]; [|constructor].
    destruct (Backend.isVerified u); constructor.
  - unfold Backend.login.
    destruct (JsString.truthy em); [|constructor].
    destruct (JsString.truthy p); [|constructor].
    destruct (Backend.find_user _ _) as [u|]; [|constructor].
    destruct (negb _); [constructor|]. destruct (negb _); constructor.
  - unfold Backend.requestPasswordReset.
    destruct (JsString.truthy em); [|constructor].
    destruct (Backend.find_user _ _) as [u|]; constructor.
  - unfold Backend.validateResetToken.
    destruct (JsString.truthy em); [|constructor].
    destruct (JsString.truthy tk); [|constructor].
    destruct (Backend.pendingVerifications st !! _); [|constructor].
    destruct (negb _); [constructor|]. destruct (_ <? _); constructor.
  - unfold Backend.resetPassword.
    destruct (JsString.truthy em); [|constructor].
    destruct (JsString.truthy tk); [|constructor].
    destruct (JsString.truthy np); [|constructor].
    destruct (_ <? _); [constructor|].
    destruct (Backend.pendingVerifications st !! _); [|constructor].
    destruct (negb _); [constructor|].
    destruct (_ <? _); simpl; [constructor|].
    destruct (Backend.find_user _ _); constructor.
Qed.

Lemma users_step_find us us' a u :
  users_step us us' -> Backend.find_user a us = Some u ->
  exists u', Backend.find_user a us' = Some u' /\
             Backend.identity u' = Backend.identity u /\
             (Backend.isVerified u = true -> Backend.isVerified u' = true).
Proof.
  intros [|n Hn Hr Hv|b|b h] Hu.
  - eauto.
  - exists u. split; [now apply find_user_app_Some|tauto].
  - rewrite find_user_update_found by reflexivity. rewrite Hu. simpl.
    destruct (String.eqb a b); eauto.
  - rewrite find_user_update_found by reflexivity. rewrite Hu. simpl.
    destruct (String.eqb a b); eauto.
Qed.

Lemma users_step_identity us us' :
  users_step us us' ->
  exists added, map Backend.identity us' = map Backend.identity (us ++ added)%list /\
                Forall (fun n => Backend.role n = operator) added.
Proof.
  intros [|n Hn Hr Hv|b|b h].
  - exists []. now rewrite app_nil_r.
  - exists [n]. split; [reflexivity|]. now repeat constructor.
  - exists []. rewrite app_nil_r. split; [|constructor].
    now apply map_identity_update_found.
  - exists []. rewrite app_nil_r. split; [|constructor].
    now apply map_identity_update_found.
Qed.

Lemma run_find trace : forall st a u,
  Backend.find_user a (Backend.users st) = Some u ->
  exists u', Backend.find_user a (Backend.users (Backend.run trace st)) = Some u' /\
             Backend.identity u' = Backend.identity u /\
             (Backend.isVerified u = true -> Backend.isVerified u' = true).
Proof.
  induction trace as [|[e r] trace IH]; intros st a u Hu; simpl; [eauto|].
  destruct (users_step_find _ _ a u (Backend_handle_users e r st) Hu)
    as (u1 & Hu1 & Hid1 & Hv1).
  destruct (IH _ a u1 Hu1) as (u2 & Hu2 & Hid2 & Hv2).
  exists u2. split; [exact Hu2|]. split; [congruence|tauto].
Qed.

End BackendSteps.

Section BackendAccounts.
Context `{Platform}.

(** The account [signup] pushes. *)
Definition Backend_new_user (e : Backend.env) (nm em pw : string) : Backend.user :=
  {| Backend.id := Backend.random_id e; Backend.email := normalize em;
     Backend.password := bcrypt_hash pw 12 (Backend.salt e);
     Backend.name := JsString.trim nm; Backend.role := operator;
     Backend.department := "General"; Backend.title := "Team Member";
     Backend.isVerified := false; Backend.createdAt := Backend.now_iso e |}.

Lemma length_nonempty s : 6 <= JsString.length s -> s <> "".
Proof. intros Hl ->. unfold JsString.length in Hl. simpl in Hl. lia. Qed.

Lemma accepted_nonempty em : Regex.test emailRegex em = true -> em <> "".
Proof. intros Hre ->. discriminate Hre. Qed.

Lemma Backend_signup_accepts e nm em pw st :
  nm <> "" -> Regex.test emailRegex em = true -> 6 <= JsString.length pw ->
  Backend.find_user (normalize em) (Backend.users st) = None ->
  Backend.signup e (Some nm) (Some em) (Some pw) st
  = ({| Backend.users := (Backend.users st ++ [Backend_new_user e nm em pw])%list;
        Backend.pendingVerifications :=
          <[ normalize em :=
               {| Backend.token := Backend.random_hex e;
                  Backend.expiry := Backend.now e + 24 * 60 * 60 * 1000;
                  Backend.userId := Backend.random_id e |} ]>
            (Backend.pendingVerifications st) |},
     {| Backend.status := 201;
        Backend.body :=
          [ ("success", JBool true);
            ("message",
             JStr "Account created! Please check your email to verify your account.");
            ("requiresVerification", JBool true) ] |}).
Proof.
  intros Hnm Hre Hlen Hnone. unfold Backend.signup.
  pose proof (accepted_nonempty _ Hre). pose proof (length_nonempty _ Hlen).
  rewrite !truthy_nonempty by assumption.
  apply Z.ltb_ge in Hlen. rewrite Hre, Hlen. simpl. now rewrite Hnone.
Qed.

(** What an answer 201 of [signup] tells about the request. *)
Lemma Backend_signup_201 e name0 email0 password0 st :
  Backend.status (snd (Backend.signup e name0 email0 password0 st)) = 201 ->
  exists nm em pw,
    name0 = Some nm /\ email0 = Some em /\ password0 = Some pw /\
    nm <> "" /\ Regex.test emailRegex em = true /\ 6 <= JsString.length pw /\
    Backend.find_user (normalize em) (Backend.users st) = None.
Proof.
  unfold Backend.signup.
  destruct (JsString.truthy name0) as [nm|] eqn:En; [|discriminate].
  destruct (JsString.truthy email0) as [em|] eqn:Ee; [|discriminate].
  destruct (JsString.truthy password0) as [pw|] eqn:Ep; [|discriminate].
  apply truthy_Some_inv in En as [-> Hnm].
  apply truthy_Some_inv in Ee as [-> _].
  apply truthy_Some_inv in Ep as [-> _].
  destruct (Regex.test emailRegex em) eqn:Ere; simpl; [|discriminate].
  destruct (JsString.length pw <? 6) eqn:El; simpl; [discriminate|].
  destruct (Backend.find_user _ _) eqn:Ef; simpl; [discriminate|].
  intros _. apply Z.ltb_ge in El. exists nm, em, pw. tauto.
Qed.

Lemma Backend_signup_duplicate e nm em pw u st :
  nm <> "" -> Regex.test emailRegex em = true -> 6 <= JsString.length pw ->
  Backend.find_user (normalize em) (Backend.users st) = Some u ->
  Backend.signup e (Some nm) (Some em) (Some pw) st
  = (st, Backend.failure 409 "An account with this email already exists").
Proof.
  intros Hnm Hre Hlen Hu. unfold Backend.signup.
  pose proof (accepted_nonempty _ Hre). pose proof (length_nonempty _ Hlen).
  rewrite !truthy_nonempty by assumption.
  apply Z.ltb_ge in Hlen. rewrite Hre, Hlen. simpl. now rewrite Hu.
Qed.

(** An email as the array holds it. *)
Definition stored_email_ok (u : Backend.user) : Prop :=
  normalize (Backend.email u) = Backend.email u /\ Backend.email u <> "".

(** A suspended [signup] passed the address pattern. *)
Definition suspended_ok (k : Overlap.suspended) : Prop :=
  match k with
  | Overlap.SignupHashing _ email0 _ => Regex.test emailRegex email0 = true
  | Overlap.ResetHashing _ _ => True
  end.

(** The split handlers put together are the handlers of [Backend]. *)
Lemma Overlap_signup_split e name0 email0 password0 st :
  Backend.signup e name0 email0 password0 st
  = match Overlap.signup_begin name0 email0 password0 st with
    | inl answer => (st, answer)
    | inr k => Overlap.resume e k st
    end.
Proof.
  unfold Backend.signup, Overlap.signup_begin.
  destruct (JsString.truthy name0); [|reflexivity].
  destruct (JsString.truthy email0); [|reflexivity].
  destruct (JsString.truthy password0); [|reflexivity].
  destruct (negb _); [reflexivity|]. destruct (_ <? _); [reflexivity|].
  now destruct (Backend.find_user _ _).
Qed.

Lemma Overlap_resetPassword_split e email0 token0 newPassword0 st :
  Backend.resetPassword e email0 token0 newPassword0 st
  = match Overlap.resetPassword_begin e email0 token0 newPassword0 st with
    | (st1, inl answer) => (st1, answer)
    | (st1, inr k) => Overlap.resume e k st1
    end.
Proof.
  unfold Backend.resetPassword, Overlap.resetPassword_begin.
  destruct (JsString.truthy email0); [|reflexivity].
  destruct (JsString.truthy token0); [|reflexivity].
  destruct (JsString.truthy newPassword0); [|reflexivity].
  destruct (_ <? _); [reflexivity|].
  destruct (Backend.pendingVerifications st !! _); [|reflexivity].
  destruct (negb _); [reflexivity|]. destruct (_ <? _); [reflexivity|].
  now destruct (Backend.find_user _ _).
Qed.

Lemma Overlap_reachable_sequential st :
  Backend.reachable st -> Overlap.reachable st [].
Proof.
  induction 1 as [s1 s2 s3|e r st _ IH].
  - apply Overlap.reachable_initial.
  - now apply Overlap.reachable_handle.
Qed.

Lemma Backend_handle_stored_emails e r st :
  Forall stored_email_ok (Backend.users st) ->
  Forall stored_email_ok (Backend.users (fst (Backend.handle e r st))).
Proof.
  intros Hok.
  assert (Hupd : forall a f,
             (forall u, Backend.email (f u) = Backend.email u) ->
             Forall stored_email_ok (Backend.update_found a f (Backend.users st))).
  { intros a f Hf.
    apply (update_found_Forall
             (fun m => normalize m = m /\ m <> "") a f _ Hf Hok). }
  destruct r as [n em p|em tk|em|em p|em|em tk|em tk np]; simpl.
  - unfold Backend.signup.
    destruct (JsString.truthy n); [|exact Hok].
    destruct (JsString.truthy em) as [em'|]; [|exact Hok].
    destruct (JsString.truthy p); [|exact Hok].
    destruct (Regex.test emailRegex em') eqn:Hre; simpl; [|exact Hok].
    destruct (_ <? _); [exact Hok|].
    destruct (Backend.find_user _ _); [exact Hok|]. simpl.
    apply Forall_app. split; [exact Hok|]. constructor; [|constructor].
    split; simpl; [apply normalize_idem|now apply normalize_accepted].
  - unfold Backend.verifyEmail.
    destruct (JsString.truthy em); [|exact Hok].
    destruct (JsString.truthy tk); [|exact Hok].
    destruct (Backend.pendingVerifications st !! _); [|exact Hok].
    destruct (negb _); [exact Hok|]. destruct (_ <? _); simpl; [exact Hok|].
    destruct (Backend.find_user _ _); [|exact Hok]. now apply Hupd.
  - unfold Backend.resendVerification.
    destruct (JsString.truthy em); [|exact Hok].
    destruct (Backend.find_user _ _) as [u|]; [|exact Hok].
    destruct (Backend.isVerified u); exact Hok.
  - unfold Backend.login.
    destruct (JsString.truthy em); [|exact Hok].
    destruct (JsString.truthy p); [|exact Hok].
    destruct (Backend.find_user _ _) as [u|]; [|exact Hok].
    destruct (negb _); [exact Hok|]. destruct (negb _); exact Hok.
  - unfold Backend.requestPasswordReset.
    destruct (JsString.truthy em); [|exact Hok].
    destruct (Backend.find_user _ _) as [u|]; exact Hok.
  - unfold Backend.validateResetToken.
    destruct (JsString.truthy em); [|exact Hok].
    destruct (JsString.truthy tk); [|exact Hok].
    destruct (Backend.pendingVerifications st !! _); [|exact Hok].
    destruct (negb _); [exact Hok|]. destruct (_ <? _); exact Hok.
  - unfold Backend.resetPassword.
    destruct (JsString.truthy em); [|exact Hok].
    destruct (JsString.truthy tk); [|exact Hok].
    destruct (JsString.truthy np); [|exact Hok].
    destruct (_ <? _); [exact Hok|].
    destruct (Backend.pendingVerifications st !! _); [|exact Hok].
    destruct (negb _); [exact Hok|]. destruct (_ <? _); simpl; [exact Hok|].
    destruct (Backend.find_user _ _); [|exact Hok]. now apply Hupd.
Qed.

Lemma signup_begin_suspended name0 email0 password0 st k :
  Overlap.signup_begin name0 email0 password0 st = inr k ->
  exists nm em pw,
    k = Overlap.SignupHashing nm em pw /\ name0 = Some nm /\
    email0 = Some em /\ password0 = Some pw /\
    Regex.test emailRegex em = true /\
    Backend.find_user (normalize em) (Backend.users st) = None.
Proof.
  unfold Overlap.signup_begin.
  destruct (JsString.truthy name0) as [nm|] eqn:En; [|discriminate].
  destruct (JsString.truthy email0) as [em|] eqn:Ee; [|discriminate].
  destruct (JsString.truthy password0) as [pw|] eqn:Ep; [|discriminate].
  apply truthy_Some_inv in En as [-> _].
  apply truthy_Some_inv in Ee as [-> _].
  apply truthy_Some_inv in Ep as [-> _].
  destruct (Regex.test emailRegex em) eqn:Hre; simpl; [|discriminate].
  destruct (_ <? _); [discriminate|].
  destruct (Backend.find_user _ _) eqn:Hf; [discriminate|].
  intros [= <-]. exists nm, em, pw. tauto.
Qed.

Lemma resetPassword_begin_users e email0 token0 newPassword0 st :
  Backend.users (fst (Overlap.resetPassword_begin e email0 token0 newPassword0 st))
  = Backend.users st.
Proof.
  unfold Overlap.resetPassword_begin.
  destruct (JsString.truthy email0); [|reflexivity].
  destruct (JsString.truthy token0); [|reflexivity].
  destruct (JsString.truthy newPassword0); [|reflexivity].
  destruct (_ <? _); [reflexivity|].
  destruct (Backend.pendingVerifications st !! _); [|reflexivity].
  destruct (negb _); [reflexivity|]. destruct (_ <? _); [reflexivity|].
  now destruct (Backend.find_user _ _).
Qed.

Lemma resetPassword_begin_suspended e email0 token0 newPassword0 st k :
  snd (Overlap.resetPassword_begin e email0 token0 newPassword0 st) = inr k ->
  suspended_ok k.
Proof.
  unfold Overlap.resetPassword_begin.
  destruct (JsString.truthy email0); [|discriminate].
  destruct (JsString.truthy token0); [|discriminate].
  destruct (JsString.truthy newPassword0); [|discriminate].
  destruct (_ <? _); [discriminate|].
  destruct (Backend.pendingVerifications st !! _); [|discriminate].
  destruct (negb _); [discriminate|]. destruct (_ <? _); [discriminate|].
  destruct (Backend.find_user _ _); [|discriminate].
  now intros [= <-].
Qed.

Lemma Overlap_reachable_stored_emails st waiting :
  Overlap.reachable st waiting ->
  Forall stored_email_ok (Backend.users st) /\ Forall suspended_ok waiting.
Proof.
  induction 1 as [s1 s2 s3|e r st waiting _ [IHu IHw]
                 |name0 email0 password0 st waiting k _ [IHu IHw] Hk
                 |e email0 token0 newPassword0 st waiting k _ [IHu IHw] Hk
                 |e k st before after _ [IHu IHw]].
  - split; [|constructor].
    apply (Backend_reachable_wf _ (Backend.reachable_initial s1 s2 s3)).
  - split; [now apply Backend_handle_stored_emails|exact IHw].
  - split; [exact IHu|]. constructor; [|exact IHw].
    apply signup_begin_suspended in Hk as (nm & em & pw & -> & _ & _ & _ & Hre & _).
    exact Hre.
  - split; [now rewrite resetPassword_begin_users|].
    constructor; [|exact IHw]. now apply resetPassword_begin_suspended in Hk.
  - apply Forall_app in IHw as [Hb Hka].
    apply Forall_cons_iff in Hka as [Hk Ha].
    split; [|apply Forall_app; now split].
    destruct k as [nm em pw|a np]; simpl.
    + apply Forall_app. split; [exact IHu|]. constructor; [|constructor].
      split; simpl; [apply normalize_idem|now apply normalize_accepted].
    + apply (update_found_Forall
               (fun m => normalize m = m /\ m <> "") a
               (Backend.set_password (bcrypt_hash np 12 (Backend.salt e)))
               _ (fun u => eq_refl) IHu).
Qed.

(** X1. The emails of the [users] array.  In every state the server can
    reach, requests running into one another included, every stored email
    is normalised and not empty.  While the server handles its requests
    one after another no two accounts have the same email.  That is not
    so in general: [signup] awaits the hash between its duplicate check
    and [users.push], so two signups for one address that both pass the
    check before either goes on are both stored. *)
Theorem X1_emails_normalised_and_unique_in_sequence :
  (forall st waiting,
      Overlap.reachable st waiting ->
      Forall (fun u => normalize (Backend.email u) = Backend.email u /\
                       Backend.email u <> "")
        (Backend.users st)) /\
  (forall st,
      Backend.reachable st ->
      NoDup (map Backend.email (Backend.users st))) /\
  (forall (e1 e2 : Backend.env) nm1 nm2 em pw1 pw2 st waiting,
      Overlap.reachable st waiting ->
      Overlap.signup_begin (Some nm1) (Some em) (Some pw1) st
      = inr (Overlap.SignupHashing nm1 em pw1) ->
      Overlap.signup_begin (Some nm2) (Some em) (Some pw2) st
      = inr (Overlap.SignupHashing nm2 em pw2) ->
      let st1 := fst (Overlap.signup_resume e1 nm1 em pw1 st) in
      let st2 := fst (Overlap.signup_resume e2 nm2 em pw2 st1) in
      Overlap.reachable st2 waiting /\
      ~ NoDup (map Backend.email (Backend.users st2))).
Proof.
  repeat apply conj.
  - intros st waiting Hst.
    exact (proj1 (Overlap_reachable_stored_emails _ _ Hst)).
  - intros st Hst. exact (proj1 (Backend_reachable_wf _ Hst)).
  - intros e1 e2 nm1 nm2 em pw1 pw2 st waiting Hst Hb1 Hb2 st1 st2. split.
    + subst st2.
      apply (Overlap.reachable_resume e2 (Overlap.SignupHashing nm2 em pw2)
               st1 [] waiting).
      subst st1.
      apply (Overlap.reachable_resume e1 (Overlap.SignupHashing nm1 em pw1)
               st [Overlap.SignupHashing nm2 em pw2] waiting).
      simpl.
      apply (Overlap.reachable_signup_begin (Some nm2) (Some em) (Some pw2));
        [|exact Hb2].
      now apply (Overlap.reachable_signup_begin (Some nm1) (Some em) (Some pw1)).
    + subst st2 st1. simpl. rewrite !map_app. simpl.
      rewrite <- app_assoc. simpl. intros Hnd.
      apply NoDup_remove_2 in Hnd. apply Hnd.
      apply in_or_app. right. now left.
Qed.

(** X2. Once [signup] has created an account, every later [signup] whose
    email normalises to the same address is answered 409 and changes
    nothing, whatever requests came in between and however the address
    is capitalised. *)
Theorem X2_signup_stays_unique e1 e2 name1 em1 password1 trace nm2 em2 pw2 st :
  Backend.status (snd (Backend.signup e1 name1 (Some em1) password1 st)) = 201 ->
  nm2 <> "" -> Regex.test emailRegex em2 = true -> 6 <= JsString.length pw2 ->
  normalize em2 = normalize em1 ->
  let st' := Backend.run trace
               (fst (Backend.signup e1 name1 (Some em1) password1 st)) in
  Backend.signup e2 (Some nm2) (Some em2) (Some pw2) st'
  = (st', Backend.failure 409 "An account with this email already exists").
Proof.
  intros H201 Hnm Hre Hlen Hsame st'.
  destruct (Backend_signup_201 _ _ _ _ _ H201)
    as (nm & em & pw & -> & [= <-] & -> & Hnm1 & Hre1 & Hlen1 & Hnone).
  assert (Hnew : Backend.find_user (normalize em1)
                   (Backend.users
                      (fst (Backend.signup e1 (Some nm) (Some em1) (Some pw) st)))
                 = Some (Backend_new_user e1 nm em1 pw)).
  { rewrite Backend_signup_accepts by assumption. simpl.
    rewrite find_user_app_None by assumption. simpl.
    now rewrite String.eqb_refl. }
  destruct (run_find trace _ _ _ Hnew) as (u' & Hu' & _).
  apply (Backend_signup_duplicate e2 nm2 em2 pw2 u'); try assumption.
  now rewrite Hsame.
Qed.

(** X3. No sequence of requests deletes or reorders an account or changes
    the id, email, name, role, department, title or creation date of one:
    the array only grows at its end, and every account added is an
    operator. *)
Theorem X3_accounts_append_only trace st :
  exists added,
    map Backend.identity (Backend.users (Backend.run trace st))
    = map Backend.identity (Backend.users st ++ added)%list /\
    Forall (fun n => Backend.role n = operator) added.
Proof.
  revert st. induction trace as [|[e r] trace IH]; intros st; simpl.
  - exists []. now rewrite app_nil_r.
  - destruct (users_step_identity _ _ (Backend_handle_users e r st))
      as (a1 & H1 & F1).
    destruct (IH (fst (Backend.handle e r st))) as (a2 & H2 & F2).
    exists (a1 ++ a2)%list. split; [|now apply Forall_app].
    rewrite H2, !map_app, H1, !map_app. now rewrite app_assoc.
Qed.

(** X4. No privilege escalation: in every reachable state the only
    accounts that are not operators are the manager and the director the
    array was created with. *)
Theorem X4_no_privilege_escalation st u :
  Backend.reachable st -> In u (Backend.users st) ->
  Backend.role u <> operator ->
  (Backend.id u = "2" /\ Backend.email u = "manager@demo.com" /\
   Backend.role u = manager) \/
  (Backend.id u = "3" /\ Backend.email u = "director@demo.com" /\
   Backend.role u = director).
Proof.
  intros Hreach. revert u.
  induction Hreach as [s1 s2 s3|e r st _ IH]; intros u Hin Hrole.
  - simpl in Hin. destruct Hin as [<-|[<-|[<-|[]]]]; simpl in *; tauto.
  - destruct (Backend_handle_users e r st) as [|n Hn Hr Hv|b|b h].
    + now apply IH.
    + apply in_app_or in Hin as [Hin|[<-|[]]]; [now apply IH|congruence].
    + apply In_update_found in Hin as [Hin|(v & Hin & ->)];
        [now apply IH|].
      simpl in *. now apply (IH v).
    + apply In_update_found in Hin as [Hin|(v & Hin & ->)];
        [now apply IH|].
      simpl in *. now apply (IH v).
Qed.

(** X5. An account is never lost and never loses its verification: the
    account the array holds for an email is still found after any sequence
    of requests, with the same identity, and once verified it stays
    verified. *)
Theorem X5_accounts_persist trace st a u :
  Backend.find_user a (Backend.users st) = Some u ->
  exists u',
    Backend.find_user a (Backend.users (Backend.run trace st)) = Some u' /\
    Backend.identity u' = Backend.identity u /\
    (Backend.isVerified u = true -> Backend.isVerified u' = true).
Proof. apply run_find. Qed.

End BackendAccounts.

(** ** Flows through the controller *)

Section BackendFlows.
Context `{Platform}.

Lemma find_user_pushed a us n :
  Backend.find_user a us = None -> Backend.email n = a ->
  Backend.find_user a (us ++ [n]) = Some n.
Proof.
  intros Hn He. rewrite find_user_app_None by exact Hn. simpl.
  now rewrite He, String.eqb_refl.
Qed.

Lemma update_found_pushed a f us n :
  Backend.find_user a us = None -> Backend.email n = a ->
  Backend.update_found a f (us ++ [n]) = (us ++ [f n])%list.
Proof.
  intros Hn He. rewrite update_found_app_None by exact Hn. simpl.
  now rewrite He, String.eqb_refl.
Qed.

(** X6. Sign up, verify, log in.  A request [signup] accepts creates an
    account that cannot log in yet (403, with the right password too);
    [verifyEmail] with the token minted for it succeeds at every time up
    to 24 hours after the signup, the last millisecond included, and from
    then on [login] with the password signed up with succeeds; after the
    24 hours the token is refused and the account stays locked. *)
Theorem X6_signup_verify_login e1 e2 e3 nm em pw em' st :
  nm <> "" -> Regex.test emailRegex em = true -> 6 <= JsString.length pw ->
  Backend.find_user (normalize em) (Backend.users st) = None ->
  Backend.random_hex e1 <> "" ->
  em' <> "" -> normalize em' = normalize em ->
  bcrypt_compare pw (bcrypt_hash pw 12 (Backend.salt e1)) = true ->
  let st1 := fst (Backend.signup e1 (Some nm) (Some em) (Some pw) st) in
  let token := Some (Backend.random_hex e1) in
  let st2 := fst (Backend.verifyEmail e2 (Some em') token st1) in
  Backend.status (snd (Backend.login e2 (Some em') (Some pw) st1)) = 403 /\
  (Backend.now e2 <= Backend.now e1 + 24 * 60 * 60 * 1000 ->
   Backend.status (snd (Backend.verifyEmail e2 (Some em') token st1)) = 200 /\
   Backend.status (snd (Backend.login e3 (Some em') (Some pw) st2)) = 200 /\
   get_field "user" (Backend.body (snd (Backend.login e3 (Some em') (Some pw) st2)))
   = Some (JObj (omit "password"
                   (Backend.user_object
                      (Backend.set_isVerified true
                         (Backend_new_user e1 nm em pw)))))) /\
  (Backend.now e1 + 24 * 60 * 60 * 1000 < Backend.now e2 ->
   Backend.status (snd (Backend.verifyEmail e2 (Some em') token st1)) = 400 /\
   Backend.status (snd (Backend.login e3 (Some em') (Some pw) st2)) = 403).
Proof.
  intros Hnm Hre Hlen Hnone Htok Hem' Hsame Hcmp st1 token st2.
  pose proof (length_nonempty _ Hlen) as Hpw.
  subst st1 st2 token. rewrite Backend_signup_accepts by assumption. simpl.
  set (n := Backend_new_user e1 nm em pw).
  assert (Hn : Backend.email n = normalize em) by reflexivity.
  repeat split.
  - unfold Backend.login. rewrite !truthy_nonempty by assumption. simpl.
    rewrite Hsame, (find_user_pushed _ _ n Hnone Hn). reflexivity.
  - unfold Backend.verifyEmail. rewrite !truthy_nonempty by assumption. simpl.
    rewrite Hsame, lookup_insert_eq. simpl. rewrite String.eqb_refl. simpl.
    apply Z.ltb_ge in H0. now rewrite H0.
  - unfold Backend.verifyEmail. rewrite !truthy_nonempty by assumption. simpl.
    rewrite Hsame, lookup_insert_eq. simpl. rewrite String.eqb_refl. simpl.
    apply Z.ltb_ge in H0. rewrite H0.
    rewrite (find_user_pushed _ _ n Hnone Hn). simpl.
    rewrite (update_found_pushed _ _ _ n Hnone Hn).
    unfold Backend.login. rewrite !truthy_nonempty by assumption. simpl.
    rewrite Hsame, (find_user_pushed _ _ _ Hnone) by reflexivity. simpl.
    now rewrite Hcmp.
  - unfold Backend.verifyEmail. rewrite !truthy_nonempty by assumption. simpl.
    rewrite Hsame, lookup_insert_eq. simpl. rewrite String.eqb_refl. simpl.
    apply Z.ltb_ge in H0. rewrite H0.
    rewrite (find_user_pushed _ _ n Hnone Hn). simpl.
    rewrite (update_found_pushed _ _ _ n Hnone Hn).
    unfold Backend.login. rewrite !truthy_nonempty by assumption. simpl.
    rewrite Hsame, (find_user_pushed _ _ _ Hnone) by reflexivity. simpl.
    now rewrite Hcmp.
  - unfold Backend.verifyEmail. rewrite !truthy_nonempty by assumption. simpl.
    rewrite Hsame, lookup_insert_eq. simpl. rewrite String.eqb_refl. simpl.
    apply Z.ltb_lt in H0. now rewrite H0.
  - unfold Backend.verifyEmail. rewrite !truthy_nonempty by assumption. simpl.
    rewrite Hsame, lookup_insert_eq. simpl. rewrite String.eqb_refl. simpl.
    apply Z.ltb_lt in H0. rewrite H0. simpl.
    unfold Backend.login. rewrite !truthy_nonempty by assumption. simpl.
    rewrite Hsame, (find_user_pushed _ _ n Hnone Hn). reflexivity.
Qed.

(** X7. [resendVerification] answers 404 for an unknown address and 400 for
    a verified account, changing nothing; for an unverified account it
    replaces the pending token: from then on every other token, the
    earlier one included, is refused for that address, and the new one
    verifies the account during the next 24 hours. *)
Theorem X7_resend_replaces_token e1 e2 em st :
  em <> "" ->
  (Backend.find_user (normalize em) (Backend.users st) = None ->
   Backend.resendVerification e1 (Some em) st
   = (st, Backend.failure 404 "No account found with this email")) /\
  (forall u,
      Backend.find_user (normalize em) (Backend.users st) = Some u ->
      Backend.isVerified u = true ->
      Backend.resendVerification e1 (Some em) st
      = (st, Backend.failure 400 "This email is already verified")) /\
  (forall u,
      Backend.find_user (normalize em) (Backend.users st) = Some u ->
      Backend.isVerified u = false ->
      let st1 := fst (Backend.resendVerification e1 (Some em) st) in
      Backend.status (snd (Backend.resendVerification e1 (Some em) st)) = 200 /\
      Backend.users st1 = Backend.users st /\
      (forall t, t <> "" -> t <> Backend.random_hex e1 ->
                 Backend.verifyEmail e2 (Some em) (Some t) st1
                 = (st1, Backend.failure 400 "Invalid verification token")) /\
      (Backend.random_hex e1 <> "" ->
       Backend.now e2 <= Backend.now e1 + 24 * 60 * 60 * 1000 ->
       Backend.status
         (snd (Backend.verifyEmail e2 (Some em)
                 (Some (Backend.random_hex e1)) st1)) = 200 /\
       Backend.find_user (normalize em)
         (Backend.users
            (fst (Backend.verifyEmail e2 (Some em)
                    (Some (Backend.random_hex e1)) st1)))
       = Some (Backend.set_isVerified true u))).
Proof.
  intros Hem. unfold Backend.resendVerification.
  rewrite truthy_nonempty by assumption. repeat apply conj.
  - now intros ->.
  - intros u -> Hv. now rewrite Hv.
  - intros u Hu Hv. rewrite Hu, Hv. simpl. repeat apply conj; try reflexivity.
    + intros t Ht Hne. unfold Backend.verifyEmail.
      rewrite !truthy_nonempty by assumption. simpl.
      rewrite lookup_insert_eq. simpl.
      destruct (String.eqb (Backend.random_hex e1) t) eqn:E; [|reflexivity].
      apply String.eqb_eq in E. congruence.
    + intros Htok Hlive. unfold Backend.verifyEmail.
      rewrite !truthy_nonempty by assumption. simpl.
      rewrite lookup_insert_eq. simpl. rewrite String.eqb_refl. simpl.
      apply Z.ltb_ge in Hlive. rewrite Hlive, Hu. simpl. split; [reflexivity|].
      rewrite find_user_update_found by reflexivity.
      now rewrite Hu, String.eqb_refl.
Qed.

(** X8. Request a reset, complete it, log in.  For an existing account the
    token minted by [requestPasswordReset] is accepted by [resetPassword]
    at every time up to one hour later; the account then carries the hash
    of the new password and nothing else of it changed, every other
    account is found as before, and a verified account logs in with the
    new password. *)
Theorem X8_reset_round_trip e1 e2 e3 em np u st :
  em <> "" ->
  Backend.find_user (normalize em) (Backend.users st) = Some u ->
  Backend.random_hex e1 <> "" -> 6 <= JsString.length np ->
  Backend.now e2 <= Backend.now e1 + 60 * 60 * 1000 ->
  let st1 := fst (Backend.requestPasswordReset e1 (Some em) st) in
  let r := Backend.resetPassword e2 (Some em)
             (Some (Backend.random_hex e1)) (Some np) st1 in
  let u' := Backend.set_password (bcrypt_hash np 12 (Backend.salt e2)) u in
  snd r = Backend.success 200 "Password has been reset successfully" /\
  Backend.find_user (normalize em) (Backend.users (fst r)) = Some u' /\
  (forall a, a <> normalize em ->
             Backend.find_user a (Backend.users (fst r))
             = Backend.find_user a (Backend.users st)) /\
  Backend.pendingVerifications (fst r) !! Backend.reset_key (normalize em)
  = None /\
  (Backend.isVerified u = true ->
   bcrypt_compare np (bcrypt_hash np 12 (Backend.salt e2)) = true ->
   Backend.status (snd (Backend.login e3 (Some em) (Some np) (fst r))) = 200).
Proof.
  intros Hem Hu Htok Hlen Hlive st1 r u'.
  pose proof (length_nonempty _ Hlen) as Hnp.
  assert (Hr : r = ({| Backend.users :=
                         Backend.update_found (normalize em)
                           (Backend.set_password
                              (bcrypt_hash np 12 (Backend.salt e2)))
                           (Backend.users st);
                       Backend.pendingVerifications :=
                         delete (Backend.reset_key (normalize em))
                           (Backend.pendingVerifications st1) |},
                    Backend.success 200 "Password has been reset successfully")).
  { subst r st1. unfold Backend.requestPasswordReset, Backend.resetPassword.
    rewrite !truthy_nonempty by assumption. rewrite Hu. simpl.
    apply Z.ltb_ge in Hlen, Hlive. rewrite Hlen, lookup_insert_eq. simpl.
    rewrite String.eqb_refl. simpl. now rewrite Hlive, Hu. }
  rewrite Hr. simpl.
  assert (Hfind : Backend.find_user (normalize em)
                    (Backend.update_found (normalize em)
                       (Backend.set_password
                          (bcrypt_hash np 12 (Backend.salt e2)))
                       (Backend.users st)) = Some u').
  { rewrite find_user_update_found by reflexivity.
    now rewrite Hu, String.eqb_refl. }
  repeat apply conj; try reflexivity.
  - exact Hfind.
  - intros a Ha. rewrite find_user_update_found by reflexivity.
    apply String.eqb_neq in Ha. rewrite Ha.
    now destruct (Backend.find_user a (Backend.users st)).
  - apply lookup_delete_eq.
  - intros Hv Hcmp. unfold Backend.login.
    rewrite !truthy_nonempty by assumption. simpl. rewrite Hfind.
    subst u'. simpl. now rewrite Hv, Hcmp.
Qed.

(** X9. A new reset request replaces the one before it: after
    [requestPasswordReset] for an existing account, every token but the
    new one is refused for that address by [validateResetToken] and by
    [resetPassword], and no account changes. *)
Theorem X9_reset_request_replaces_token e1 e2 em u t np st :
  em <> "" ->
  Backend.find_user (normalize em) (Backend.users st) = Some u ->
  t <> "" -> t <> Backend.random_hex e1 -> 6 <= JsString.length np ->
  let st1 := fst (Backend.requestPasswordReset e1 (Some em) st) in
  Backend.users st1 = Backend.users st /\
  Backend.validateResetToken e2 (Some em) (Some t) st1
  = (st1, Backend.failure 400 "Invalid reset token") /\
  Backend.resetPassword e2 (Some em) (Some t) (Some np) st1
  = (st1, Backend.failure 400 "Invalid reset token").
Proof.
  intros Hem Hu Ht Hne Hlen st1.
  pose proof (length_nonempty _ Hlen) as Hnp.
  subst st1. unfold Backend.requestPasswordReset.
  rewrite truthy_nonempty by assumption. rewrite Hu. simpl.
  assert (E : String.eqb (Backend.random_hex e1) t = false)
    by (apply String.eqb_neq; congruence).
  repeat apply conj; try reflexivity.
  - unfold Backend.validateResetToken.
    rewrite !truthy_nonempty by assumption. simpl.
    rewrite lookup_insert_eq. simpl. now rewrite E.
  - unfold Backend.resetPassword.
    rewrite !truthy_nonempty by assumption. simpl.
    apply Z.ltb_ge in Hlen. rewrite Hlen, lookup_insert_eq. simpl.
    now rewrite E.
Qed.

(** X10. The verification and the reset entries of the controller live in
    one map, under the email and under "reset_" followed by the email.
    So the verification token [signup] mints for an address that
    normalises to "reset_" followed by another account's email is, for 24
    hours, a reset token of that account: [resetPassword] accepts it for
    the other account and replaces that account's password hash. *)
Theorem X10_signup_token_resets_other_account e1 e2 nm ea pw ev np victim st :
  nm <> "" -> Regex.test emailRegex ea = true -> 6 <= JsString.length pw ->
  Backend.find_user (normalize ea) (Backend.users st) = None ->
  Backend.random_hex e1 <> "" ->
  ev <> "" -> 6 <= JsString.length np ->
  Backend.find_user (normalize ev) (Backend.users st) = Some victim ->
  normalize ea = Backend.reset_key (normalize ev) ->
  Backend.now e2 <= Backend.now e1 + 24 * 60 * 60 * 1000 ->
  let st1 := fst (Backend.signup e1 (Some nm) (Some ea) (Some pw) st) in
  let r := Backend.resetPassword e2 (Some ev)
             (Some (Backend.random_hex e1)) (Some np) st1 in
  Backend.status (snd (Backend.signup e1 (Some nm) (Some ea) (Some pw) st))
    = 201 /\
  snd r = Backend.success 200 "Password has been reset successfully" /\
  Backend.find_user (normalize ev) (Backend.users (fst r))
  = Some (Backend.set_password (bcrypt_hash np 12 (Backend.salt e2)) victim).
Proof.
  intros Hnm Hre Hlen Hnone Htok Hev Hlnp Hvictim Hkey Hlive st1 r.
  pose proof (length_nonempty _ Hlnp) as Hnp.
  subst r st1. rewrite Backend_signup_accepts by assumption. simpl.
  split; [reflexivity|].
  unfold Backend.resetPassword. rewrite !truthy_nonempty by assumption.
  simpl. apply Z.ltb_ge in Hlnp, Hlive.
  rewrite Hlnp, <- Hkey, lookup_insert_eq. simpl.
  rewrite String.eqb_refl. simpl. rewrite Hlive.
  rewrite (find_user_app_Some _ _ _ _ Hvictim). simpl.
  split; [reflexivity|].
  rewrite find_user_update_found by reflexivity.
  now rewrite (find_user_app_Some _ _ _ _ Hvictim), String.eqb_refl.
Qed.

Lemma find_by_id_In u us :
  NoDup (map Backend.id us) -> In u us ->
  Backend.find_by_id (Backend.id u) us = Some u.
Proof.
  induction us as [|v us IH]; simpl; [tauto|].
  intros Hnd Hin. apply NoDup_cons_iff in Hnd as [Hv Hnd].
  destruct Hin as [->|Hin]; [now rewrite String.eqb_refl|].
  destruct (String.eqb (Backend.id v) (Backend.id u)) eqn:E.
  - apply String.eqb_eq in E. exfalso. apply Hv. rewrite E. now apply in_map.
  - now apply IH.
Qed.

Lemma find_user_In_users a us u : Backend.find_user a us = Some u -> In u us.
Proof.
  induction us as [|v us IH]; simpl; [discriminate|].
  destruct (String.eqb (Backend.email v) a); [intros [= <-]|]; tauto.
Qed.

(** X11. [getMe] answers 404 when no account has the id of the token and
    never sends a password hash; while ids are distinct, [getMe] with the
    id [login] put in the session token returns the user object that
    [login] returned. *)
Theorem X11_getMe_returns_the_login_user e email0 password0 st :
  (forall userId0,
      Backend.find_by_id userId0 (Backend.users st) = None ->
      Backend.getMe userId0 st = (st, Backend.failure 404 "User not found")) /\
  (forall userId0 userData,
      get_field "user" (Backend.body (snd (Backend.getMe userId0 st)))
      = Some (JObj userData) ->
      get_field "password" userData = None) /\
  (Backend.status (snd (Backend.login e email0 password0 st)) = 200 ->
   NoDup (map Backend.id (Backend.users st)) ->
   exists u userData,
     get_field "token" (Backend.body (snd (Backend.login e email0 password0 st)))
     = Some (JStr (jwt_sign
                     [ ("userId", JStr (Backend.id u));
                       ("email", JStr (Backend.email u));
                       ("role", JStr (role_name (Backend.role u))) ]
                     Backend.JWT_SECRET "24h" (Backend.now e))) /\
     get_field "user" (Backend.body (snd (Backend.login e email0 password0 st)))
     = Some (JObj userData) /\
     Backend.getMe (Backend.id u) st
     = (st, {| Backend.status := 200;
               Backend.body := [ ("success", JBool true);
                                 ("user", JObj userData) ] |})).
Proof.
  repeat apply conj.
  - intros userId0 Hnone. unfold Backend.getMe. now rewrite Hnone.
  - intros userId0 userData. unfold Backend.getMe.
    destruct (Backend.find_by_id _ _) as [u|]; simpl; [|discriminate].
    intros [= <-]. apply get_field_omit_same.
  - unfold Backend.login.
    destruct (JsString.truthy email0) as [em|]; simpl; [|discriminate].
    destruct (JsString.truthy password0) as [pw|]; simpl; [|discriminate].
    destruct (Backend.find_user _ _) as [u|] eqn:Eu; simpl; [|discriminate].
    destruct (negb (Backend.isVerified u)); simpl; [discriminate|].
    destruct (negb (bcrypt_compare pw (Backend.password u))); simpl;
      [discriminate|].
    intros _ Hnd. exists u, (omit "password" (Backend.user_object u)).
    split; [reflexivity|]. split; [reflexivity|].
    unfold Backend.getMe.
    now rewrite (find_by_id_In u _ Hnd (find_user_In_users _ _ _ Eu)).
Qed.

End BackendFlows.

(** ** The session and the accounts of the context over sequences of
    operations *)

Section ClientSteps.
Context `{Platform}.

(** The session: the three [localStorage] keys and the provider's state. *)
Definition Client_session (st : Client.state)
  : option object * option string * option string
    * option Client.User * option string :=
  (Client.ls_user st, Client.ls_token st, Client.ls_role st,
   Client.auth_user st, Client.auth_token st).

(** The session [login] sets for account [su] at the time of [e]. *)
Definition Client_logged_in (e : Client.env) (su : Client.StoredUser)
  : option object * option string * option string
    * option Client.User * option string :=
  let token := Client.generateToken e (Client.id (Client.user su))
                 (Client.role (Client.user su)) in
  (Some (Client.user_object (Client.user su)), Some token,
   Some (role_name (Client.role (Client.user su))),
   Some (Client.user su), Some token).

(** The four ways an operation can leave [registeredUsers]. *)
Inductive registered_step (m : gmap string Client.StoredUser)
  : gmap string Client.StoredUser -> Prop :=
| registered_same : registered_step m m
| registered_added k su :
    JsObject.get Client.DEMO_USERS k = JsObject.Undefined ->
    m !! k = None -> normalize k = k ->
    Client.isVerified (Client.user su) = false ->
    Client.role (Client.user su) = operator ->
    Client.email (Client.user su) = k ->
    registered_step m (<[ k := su ]> m)
| registered_verified k su :
    m !! k = Some su -> registered_step m (<[ k := Client.mark_verified su ]> m)
| registered_rehashed k su h :
    m !! k = Some su ->
    registered_step m (<[ k := Client.set_hashedPassword h su ]> m).

Inductive client_step (e : Client.env) (st st' : Client.state) : Prop :=
| step_accounts :
    Client_session st' = Client_session st ->
    registered_step (Client.registeredUsers st) (Client.registeredUsers st') ->
    client_step e st st'
| step_login k su :
    Client.registeredUsers st' = Client.registeredUsers st ->
    Client.find_account k st = JsObject.Own su ->
    Client.isVerified (Client.user su) = true ->
    Client_session st' = Client_logged_in e su ->
    client_step e st st'
| step_logout :
    Client.registeredUsers st' = Client.registeredUsers st ->
    Client_session st' = (None, None, None, None, None) ->
    client_step e st st'.

Lemma Client_validateResetToken_session (e : Client.env) email0 token0 st :
  Client_session (fst (Client.validateResetToken e email0 token0 st))
  = Client_session st.
Proof.
  unfold Client.validateResetToken.
  destruct (JsObject.get _ _) as [| |stored]; try reflexivity.
  destruct (negb _); [reflexivity|]. now destruct (_ <? _).
Qed.

Lemma Client_perform_step e o st :
  client_step e st (fst (Client.perform e o st)).
Proof.
  destruct o as [n em p|em tk|em p|em|em tk|em tk np|]; simpl.
  - unfold Client.signup.
    destruct (JsObject.truthy (JsObject.get Client.DEMO_USERS _)) eqn:Edemo;
      [now apply step_accounts; [|apply registered_same]|].
    destruct (JsObject.truthy (JsObject.get (Client.registeredUsers st) _))
      eqn:Ereg; [now apply step_accounts; [|apply registered_same]|].
    destruct (_ <? _); [now apply step_accounts; [|apply registered_same]|].
    destruct (JsString.narrow p) as [p1|];
      [|now apply step_accounts; [|apply registered_same]].
    simpl.
    apply get_falsy in Edemo as (Hdemo & _ & Hproto).
    apply get_falsy in Ereg as (_ & Hreg & _).
    rewrite !set_insert by exact Hproto.
    apply step_accounts; [reflexivity|]. simpl.
    apply registered_added; try reflexivity; try assumption.
    apply normalize_idem.
  - unfold Client.verifyEmail.
    destruct (JsObject.get (Client.pendingVerifications st) _) as [| |p];
      try (now apply step_accounts; [|apply registered_same]).
    destruct (negb _); [now apply step_accounts; [|apply registered_same]|].
    destruct (_ <? _); [now apply step_accounts; [|apply registered_same]|].
    destruct (JsObject.get (Client.registeredUsers st) _) as [| |su] eqn:Esu;
      try (now apply step_accounts; [|apply registered_same]).
    apply get_Own in Esu. apply step_accounts; [reflexivity|]. simpl.
    now apply registered_verified.
  - unfold Client.login.
    destruct (Client.find_account _ _) as [| |su] eqn:Esu;
      try (now apply step_accounts; [|apply registered_same]).
    destruct (negb (Client.isVerified _)) eqn:Ev;
      [now apply step_accounts; [|apply registered_same]|].
    destruct (JsString.narrow p) as [p1|];
      [|now apply step_accounts; [|apply registered_same]].
    destruct (negb (String.eqb _ _));
      [now apply step_accounts; [|apply registered_same]|].
    apply negb_false_iff in Ev.
    now apply (step_login e st _ (normalize em) su).
  - unfold Client.requestPasswordReset.
    destruct (negb _); now apply step_accounts; [|apply registered_same].
  - apply step_accounts; [apply Client_validateResetToken_session|].
    rewrite Client_validateResetToken_registered. constructor.
  - unfold Client.resetPassword.
    pose proof (Client_validateResetToken_registered e (normalize em) tk st)
      as Hreg.
    pose proof (Client_validateResetToken_session e (normalize em) tk st)
      as Hses.
    destruct (Client.validateResetToken e (normalize em) tk st) as [st1 r1].
    simpl in Hreg, Hses.
    destruct (negb _);
      [apply step_accounts; [exact Hses|simpl; rewrite Hreg; apply registered_same]|].
    destruct (_ <? _);
      [apply step_accounts; [exact Hses|simpl; rewrite Hreg; apply registered_same]|].
    unfold Client.update_password.
    destruct (JsObject.get (Client.registeredUsers st1) _) as [| |su] eqn:Esu;
      [apply step_accounts; [exact Hses|simpl; rewrite Hreg; apply registered_same]
      |destruct (JsString.narrow np);
       (apply step_accounts; [exact Hses|simpl; rewrite Hreg; apply registered_same])
      |].
    destruct (JsString.narrow np) as [np1|];
      [|apply step_accounts; [exact Hses|simpl; rewrite Hreg; apply registered_same]].
    apply get_Own in Esu. apply step_accounts; [exact Hses|]. simpl.
    rewrite Hreg in *. now apply registered_rehashed.
  - now apply step_logout.
Qed.

End ClientSteps.

Section ClientInvariants.
Context `{Platform}.

(** What holds of every entry of [registeredUsers]. *)
Definition Client_accounts_ok (st : Client.state) : Prop :=
  forall k su,
    Client.registeredUsers st !! k = Some su ->
    JsObject.get Client.DEMO_USERS k = JsObject.Undefined /\
    normalize k = k /\
    Client.role (Client.user su) = operator /\
    Client.email (Client.user su) = k.

(** What holds of the session. *)
Definition Client_session_ok (st : Client.state) : Prop :=
  match Client.auth_user st with
  | None => Client_session st = (None, None, None, None, None)
  | Some u =>
      exists e k su,
        Client.find_account k st = JsObject.Own su /\
        Client.user su = u /\ Client.isVerified u = true /\
        Client_session st = Client_logged_in e su
  end.

Lemma mark_verified_user su :
  Client.isVerified (Client.user su) = true ->
  Client.user (Client.mark_verified su) = Client.user su.
Proof. destruct su as [h [] v]; simpl. now intros ->. Qed.

Lemma registered_step_entries m m' k su :
  registered_step m m' ->
  (forall k su,
      m !! k = Some su ->
      JsObject.get Client.DEMO_USERS k = JsObject.Undefined /\
      normalize k = k /\
      Client.role (Client.user su) = operator /\
      Client.email (Client.user su) = k) ->
  m' !! k = Some su ->
  JsObject.get Client.DEMO_USERS k = JsObject.Undefined /\
  normalize k = k /\
  Client.role (Client.user su) = operator /\
  Client.email (Client.user su) = k.
Proof.
  intros Hstep Hok. destruct Hstep as [|k0 su0 ? ? ? ? ? ?|k0 su0 Hk0|k0 su0 h Hk0].
  - apply Hok.
  - intros [[<- <-]|[_ Hk]]%lookup_insert_Some; [tauto|now apply Hok].
  - intros [[<- <-]|[_ Hk]]%lookup_insert_Some; [|now apply Hok].
    destruct (Hok _ _ Hk0) as (? & ? & ? & ?). simpl. tauto.
  - intros [[<- <-]|[_ Hk]]%lookup_insert_Some; [|now apply Hok].
    destruct (Hok _ _ Hk0) as (? & ? & ? & ?). simpl. tauto.
Qed.

Lemma registered_step_accounts st st' :
  registered_step (Client.registeredUsers st) (Client.registeredUsers st') ->
  Client_accounts_ok st -> Client_accounts_ok st'.
Proof.
  intros Hstep Hok k su. now apply (registered_step_entries _ _ k su Hstep).
Qed.

Lemma client_step_accounts e st st' :
  client_step e st st' -> Client_accounts_ok st -> Client_accounts_ok st'.
Proof.
  intros [Hs Hr|k su Hr _ _ _|Hr _] Hok.
  - now apply (registered_step_accounts st).
  - unfold Client_accounts_ok. now rewrite Hr.
  - unfold Client_accounts_ok. now rewrite Hr.
Qed.

Lemma find_account_registered k st st' :
  Client.registeredUsers st' = Client.registeredUsers st ->
  Client.find_account k st' = Client.find_account k st.
Proof. unfold Client.find_account. now intros ->. Qed.

Lemma registered_step_lookup m m' k su :
  registered_step m m' -> m !! k = Some su ->
  Client.isVerified (Client.user su) = true ->
  exists su', m' !! k = Some su' /\ Client.user su' = Client.user su.
Proof.
  intros Hstep Hfind Hv.
  destruct Hstep as [|k0 su0 ? Hnone ? ? ? ?|k0 su0 Hk0|k0 su0 h Hk0].
  - eauto.
  - exists su. split; [|reflexivity].
    rewrite lookup_insert_ne; [exact Hfind|congruence].
  - destruct (decide (k0 = k)) as [->|Hne].
    + exists (Client.mark_verified su0). split; [apply lookup_insert_eq|].
      assert (su0 = su) by congruence. subst su0.
      now apply mark_verified_user.
    + exists su. split; [|reflexivity]. now rewrite lookup_insert_ne.
  - destruct (decide (k0 = k)) as [->|Hne].
    + exists (Client.set_hashedPassword h su0). split; [apply lookup_insert_eq|].
      assert (su0 = su) by congruence. now subst su0.
    + exists su. split; [|reflexivity]. now rewrite lookup_insert_ne.
Qed.

Lemma registered_step_find k su st st' :
  registered_step (Client.registeredUsers st) (Client.registeredUsers st') ->
  Client.find_account k st = JsObject.Own su ->
  Client.isVerified (Client.user su) = true ->
  exists su', Client.find_account k st' = JsObject.Own su' /\
              Client.user su' = Client.user su.
Proof.
  unfold Client.find_account. intros Hstep Hfind Hv.
  destruct (JsObject.get Client.DEMO_USERS k) as [| |d] eqn:Hdemo;
    [|discriminate|eauto].
  apply get_Own in Hfind.
  destruct (registered_step_lookup _ _ k su Hstep Hfind Hv) as (su' & Hl & Hu).
  exists su'. split; [now apply get_Own|exact Hu].
Qed.

Lemma Client_logged_in_user e su su' :
  Client.user su' = Client.user su ->
  Client_logged_in e su' = Client_logged_in e su.
Proof. unfold Client_logged_in. now intros ->. Qed.

Lemma Client_session_auth_user st st' :
  Client_session st' = Client_session st ->
  Client.auth_user st' = Client.auth_user st.
Proof. unfold Client_session. congruence. Qed.

Lemma client_step_session e st st' :
  client_step e st st' -> Client_session_ok st -> Client_session_ok st'.
Proof.
  intros [Hs Hr|k su Hr Hfind Hv Hs|Hr Hs]; unfold Client_session_ok.
  - rewrite (Client_session_auth_user _ _ Hs).
    destruct (Client.auth_user st) as [u|]; [|congruence].
    intros (e0 & k & su & Hfind & Hu & Hv & Hses).
    subst u.
    destruct (registered_step_find k su st st' Hr Hfind Hv) as (su' & Hf' & Hu').
    exists e0, k, su'. rewrite Hu'. repeat split; try assumption.
    rewrite Hs, Hses. symmetry. now apply Client_logged_in_user.
  - intros _.
    assert (Ha : Client.auth_user st' = Some (Client.user su)).
    { unfold Client_session, Client_logged_in in Hs. congruence. }
    rewrite Ha. exists e, k, su.
    rewrite (find_account_registered _ _ _ Hr). tauto.
  - intros _.
    assert (Ha : Client.auth_user st' = None).
    { unfold Client_session in Hs. congruence. }
    now rewrite Ha.
Qed.

Lemma Client_reachable_ok st :
  Client.reachable st -> Client_accounts_ok st /\ Client_session_ok st.
Proof.
  induction 1 as [|e o st _ [IHa IHs]].
  - split; [|reflexivity]. intros k su Hk. simpl in Hk.
    now rewrite lookup_empty in Hk.
  - pose proof (Client_perform_step e o st) as Hstep. split.
    + now apply (client_step_accounts e st).
    + now apply (client_step_session e st).
Qed.

(** X12. In every state the browser can reach, the session is either
    absent everywhere or that of one verified account that still exists:
    the provider's user is the user of an account [login] finds, it is
    verified, and the three [localStorage] keys hold its JSON object, its
    role and the token the provider holds.  No sequence of operations logs
    an unverified account in. *)
Theorem X12_session_is_a_verified_account st :
  Client.reachable st ->
  match Client.auth_user st with
  | None =>
      Client.auth_token st = None /\ Client.ls_user st = None /\
      Client.ls_token st = None /\ Client.ls_role st = None
  | Some u =>
      Client.isVerified u = true /\
      (exists k su, Client.find_account k st = JsObject.Own su /\
                    Client.user su = u) /\
      Client.ls_user st = Some (Client.user_object u) /\
      Client.ls_role st = Some (role_name (Client.role u)) /\
      Client.ls_token st = Client.auth_token st /\
      exists e, Client.auth_token st
                = Some (Client.generateToken e (Client.id u) (Client.role u))
  end.
Proof.
  intros [_ Hs]%Client_reachable_ok. unfold Client_session_ok in Hs.
  destruct (Client.auth_user st) as [u|] eqn:Hu.
  - destruct Hs as (e & k & su & Hfind & <- & Hv & Hses).
    unfold Client_session, Client_logged_in in Hses.
    injection Hses as H1 H2 H3 H4 H5.
    repeat split; try assumption; eauto. congruence.
  - unfold Client_session in Hs. injection Hs as H1 H2 H3 H4 H5. tauto.
Qed.

(** X13. No privilege escalation in the browser: in every reachable state
    each account of [registeredUsers] is an operator stored under its own
    normalised email, and a session whose role is not operator is the
    session of the manager or of the director of [DEMO_USERS]. *)
Theorem X13_client_roles st :
  Client.reachable st ->
  (forall k su,
      Client.registeredUsers st !! k = Some su ->
      Client.role (Client.user su) = operator /\
      Client.email (Client.user su) = k /\ normalize k = k) /\
  (forall u,
      Client.auth_user st = Some u -> Client.role u <> operator ->
      (Client.email u = "manager@demo.com" /\ Client.role u = manager) \/
      (Client.email u = "director@demo.com" /\ Client.role u = director)).
Proof.
  intros [Ha Hs]%Client_reachable_ok. split.
  - intros k su Hk. destruct (Ha k su Hk) as (_ & ? & ? & ?). tauto.
  - intros u Hu Hrole. unfold Client_session_ok in Hs. rewrite Hu in Hs.
    destruct Hs as (e & k & su & Hfind & <- & _ & _).
    unfold Client.find_account in Hfind.
    destruct (JsObject.get Client.DEMO_USERS k) as [| |d] eqn:Hdemo;
      [|discriminate|].
    + apply get_Own in Hfind. destruct (Ha k su Hfind) as (_ & _ & Hr & _).
      congruence.
    + injection Hfind as ->. apply get_Own in Hdemo.
      apply elem_of_list_to_map_2 in Hdemo.
      repeat (apply elem_of_cons in Hdemo as [[= -> ->]|Hdemo];
              [simpl in *; first [tauto|congruence]|]).
      now apply elem_of_nil in Hdemo.
Qed.

End ClientInvariants.

(** ** Flows through the context *)

Section ClientFlows.
Context `{Platform}.

Lemma get_field_set_field_same k v (o : object) :
  get_field k (set_field k v o) = Some v.
Proof.
  induction o as [|[k' v'] rest IH]; simpl; [now rewrite String.eqb_refl|].
  destruct (String.eqb k' k) eqn:E; simpl;
    [now rewrite String.eqb_refl|now rewrite E].
Qed.

Lemma get_field_set_field_other k k' v (o : object) :
  k' <> k -> get_field k' (set_field k v o) = get_field k' o.
Proof.
  intros Hne. induction o as [|[k0 v0] rest IH]; simpl.
  - destruct (String.eqb k k') eqn:E; [|reflexivity].
    apply String.eqb_eq in E. congruence.
  - destruct (String.eqb k0 k) eqn:E; simpl.
    + apply String.eqb_eq in E. subst k0.
      destruct (String.eqb k k') eqn:E'; [|reflexivity].
      apply String.eqb_eq in E'. congruence.
    + now rewrite IH.
Qed.

Lemma set_field_keys k v v0 (o : object) :
  get_field k o = Some v0 -> map fst (set_field k v o) = map fst o.
Proof.
  induction o as [|[k' v'] rest IH]; simpl; [discriminate|].
  destruct (String.eqb k' k) eqn:E; simpl.
  - apply String.eqb_eq in E. now subst.
  - intros Hk. now rewrite IH.
Qed.

Lemma role_name_not_legacy r : String.eqb (role_name r) "project_manager" = false.
Proof. now destruct r. Qed.

Lemma migrate_role_user u :
  Client.migrate_role (Client.user_object u) = Client.user_object u.
Proof.
  unfold Client.migrate_role. simpl. now rewrite role_name_not_legacy.
Qed.

(** X14. [logout] ends the session and nothing else: afterwards nobody is
    authenticated, every permission and every role check fails, a reload
    restores no session, the accounts and both token stores are as before,
    and a later [login] is answered and sets the session exactly as it
    would have been without the logout. *)
Theorem X14_logout_clears_only_the_session (st : Client.state) :
  let st' := Client.logout st in
  Client.isAuthenticated st' = false /\
  (forall p, Client.hasPermission st' p = false) /\
  (forall roles, Client.canAccess st' roles = false) /\
  Client.initializeAuth st' = None /\
  Client.registeredUsers st' = Client.registeredUsers st /\
  Client.pendingVerifications st' = Client.pendingVerifications st /\
  Client.passwordResetTokens st' = Client.passwordResetTokens st /\
  (forall e email0 pw,
      snd (Client.login e email0 pw st') = snd (Client.login e email0 pw st) /\
      (Client.success (snd (Client.login e email0 pw st)) = true ->
       fst (Client.login e email0 pw st') = fst (Client.login e email0 pw st))).
Proof.
  repeat apply conj; try reflexivity.
  intros e email0 pw. unfold Client.login.
  rewrite (find_account_registered (normalize email0) st (Client.logout st)) by reflexivity.
  destruct (Client.find_account _ st) as [| |su]; simpl;
    try (split; [reflexivity|discriminate]).
  destruct (negb (Client.isVerified _)); simpl;
    [split; [reflexivity|discriminate]|].
  destruct (JsString.narrow pw) as [password1|]; simpl;
    [|split; [reflexivity|discriminate]].
  destruct (negb (String.eqb _ _)); simpl;
    [split; [reflexivity|discriminate]|].
  split; reflexivity.
Qed.

(** X15. Reloading the page.  The migration of [initializeAuth] turns the
    role "project_manager" of a stored user into "director", keeps every
    other property and the order of the properties, and changes nothing
    when applied again.  In every reachable state [initializeAuth]
    restores exactly the session the provider holds: the JSON object of
    its user, unchanged by the migration, and its token; and no session
    when there is none. *)
Theorem X15_reload_restores_the_session :
  (forall o : object,
      get_field "role" o = Some (JStr "project_manager") ->
      get_field "role" (Client.migrate_role o) = Some (JStr "director") /\
      (forall k, k <> "role" ->
                 get_field k (Client.migrate_role o) = get_field k o) /\
      map fst (Client.migrate_role o) = map fst o) /\
  (forall o : object,
      Client.migrate_role (Client.migrate_role o) = Client.migrate_role o) /\
  (forall st,
      Client.reachable st ->
      Client.initializeAuth st
      = match Client.auth_user st, JsString.truthy (Client.auth_token st) with
        | Some u, Some token => Some (Client.user_object u, token)
        | _, _ => None
        end).
Proof.
  repeat apply conj.
  - intros o Hrole. unfold Client.migrate_role. rewrite Hrole. simpl.
    repeat apply conj.
    + apply get_field_set_field_same.
    + intros k Hk. now apply get_field_set_field_other.
    + now apply (set_field_keys _ _ (JStr "project_manager")).
  - intros o. unfold Client.migrate_role.
    destruct (get_field "role" o) as [j|] eqn:Hrole; [|now rewrite Hrole].
    destruct j as [|b|z|r|f]; try (now rewrite Hrole).
    destruct (String.eqb r "project_manager") eqn:E.
    + now rewrite get_field_set_field_same.
    + now rewrite Hrole, E.
  - intros st [_ Hs]%Client_reachable_ok. unfold Client_session_ok in Hs.
    unfold Client.initializeAuth.
    destruct (Client.auth_user st) as [u|] eqn:Hu.
    + destruct Hs as (e & k & su & _ & <- & _ & Hses).
      unfold Client_session, Client_logged_in in Hses.
      injection Hses as -> -> _ _ ->.
      destruct (JsString.truthy _); [|reflexivity].
      now rewrite migrate_role_user.
    + unfold Client_session in Hs. injection Hs as -> _ _ _ _. reflexivity.
Qed.

Lemma get_insert_eq {A} (m : gmap string A) k v :
  JsObject.get (<[ k := v ]> m) k = JsObject.Own v.
Proof. apply get_Own. apply lookup_insert_eq. Qed.

(** The account the client's [signup] stores. *)
Definition Client_new_user (e : Client.env) (nm em pw : string)
  : Client.StoredUser :=
  {| Client.hashedPassword := Client.hashPassword pw;
     Client.user :=
       {| Client.id := Client.random_id e; Client.email := normalize em;
          Client.name := JsString.trim nm; Client.role := operator;
          Client.department := "General"; Client.title := "Team Member";
          Client.isVerified := false; Client.createdAt := Client.now_iso e |};
     Client.verificationToken := Some (Client.random_token e) |}.

Lemma Client_signup_accepts e nm em (pw : JsString.wide) password1 st :
  JsObject.truthy (JsObject.get Client.DEMO_USERS (normalize em)) = false ->
  JsObject.truthy (JsObject.get (Client.registeredUsers st) (normalize em))
    = false ->
  6 <= JsString.wide_length pw ->
  JsString.narrow pw = Some password1 ->
  fst (Client.signup e nm em pw st)
  = Client.with_pending
      (<[ normalize em :=
            {| Client.pv_token := Client.random_token e;
               Client.pv_email := normalize em;
               Client.pv_expiresAt := Client.now e + 24 * 60 * 60 * 1000 |} ]>
         (Client.pendingVerifications st))
      (Client.with_registered
         (<[ normalize em := Client_new_user e nm em password1 ]>
            (Client.registeredUsers st)) st).
Proof.
  intros Hdemo Hreg Hlen Hpw. unfold Client.signup.
  rewrite Hdemo, Hreg, Hpw. apply Z.ltb_ge in Hlen. rewrite Hlen.
  apply get_falsy in Hdemo as (_ & _ & Hproto).
  simpl. now rewrite !set_insert by exact Hproto.
Qed.

(** X16. Sign up, verify, log in, in the browser.  For an address that is
    neither a demo nor a registered account and a password of at least 6
    code units.  When a code unit of the password exceeds 255,
    [hashPassword] throws: [signup] answers with the unexpected-error
    failure and stores nothing.  Otherwise the new account cannot log in
    before it is verified; [verifyEmail] with the token minted for it
    succeeds at every time up to 24 hours after the signup; afterwards
    [login] with the password signed up with succeeds and opens an
    operator session with exactly the operator permissions. *)
Theorem X16_client_signup_verify_login e1 e2 e3 nm em (pw : JsString.wide) st :
  JsObject.truthy (JsObject.get Client.DEMO_USERS (normalize em)) = false ->
  JsObject.truthy (JsObject.get (Client.registeredUsers st) (normalize em))
    = false ->
  6 <= JsString.wide_length pw ->
  (JsString.narrow pw = None ->
   Client.signup e1 nm em pw st = (st, Client.unexpected)) /\
  (forall password1,
      JsString.narrow pw = Some password1 ->
      Client.now e2 <= Client.now e1 + 24 * 60 * 60 * 1000 ->
      let st1 := fst (Client.signup e1 nm em pw st) in
      let st2 := fst (Client.verifyEmail e2 em (Client.random_token e1) st1) in
      let st3 := fst (Client.login e3 em pw st2) in
      snd (Client.signup e1 nm em pw st)
      = {| Client.success := true; Client.error := None;
           Client.requiresVerification := Some true |} /\
      Client.requiresVerification (snd (Client.login e2 em pw st1))
      = Some true /\
      snd (Client.verifyEmail e2 em (Client.random_token e1) st1)
      = Client.succeeded /\
      snd (Client.login e3 em pw st2) = Client.succeeded /\
      Client.auth_user st3
      = Some (Client.user
                (Client.mark_verified (Client_new_user e1 nm em password1))) /\
      forall p, Client.hasPermission st3 p
                = includes_permission (ROLE_PERMISSIONS operator) p).
Proof.
  intros Hdemo Hreg Hlen. split.
  { intros Hpw. unfold Client.signup. rewrite Hdemo, Hreg, Hpw.
    apply Z.ltb_ge in Hlen. now rewrite Hlen. }
  intros password1 Hpw Hlive st1 st2 st3.
  assert (Hund : JsObject.get Client.DEMO_USERS (normalize em)
                 = JsObject.Undefined) by now apply get_falsy in Hdemo.
  assert (R1 : snd (Client.signup e1 nm em pw st)
               = {| Client.success := true; Client.error := None;
                    Client.requiresVerification := Some true |}).
  { unfold Client.signup. rewrite Hdemo, Hreg, Hpw.
    pose proof Hlen as Hlen'. apply Z.ltb_ge in Hlen'. now rewrite Hlen'. }
  assert (E1 : st1 = Client.with_pending
      (<[ normalize em :=
            {| Client.pv_token := Client.random_token e1;
               Client.pv_email := normalize em;
               Client.pv_expiresAt := Client.now e1 + 24 * 60 * 60 * 1000 |} ]>
         (Client.pendingVerifications st))
      (Client.with_registered
         (<[ normalize em := Client_new_user e1 nm em password1 ]>
            (Client.registeredUsers st)) st))
    by now apply Client_signup_accepts.
  assert (L1 : Client.login e2 em pw st1
               = (st1, {| Client.success := false;
                          Client.error := Some "Please verify your email before logging in";
                          Client.requiresVerification := Some true |})).
  { unfold Client.login, Client.find_account. rewrite Hund, E1. simpl.
    now rewrite get_insert_eq. }
  assert (E2 : Client.verifyEmail e2 em (Client.random_token e1) st1
               = (Client.with_pending
                    (delete (normalize em) (Client.pendingVerifications st1))
                    (Client.with_registered
                       (<[ normalize em :=
                             Client.mark_verified
                               (Client_new_user e1 nm em password1) ]>
                          (Client.registeredUsers st1)) st1),
                  Client.succeeded)).
  { unfold Client.verifyEmail. rewrite E1. simpl.
    rewrite !get_insert_eq. simpl. rewrite String.eqb_refl. simpl.
    apply Z.ltb_ge in Hlive. now rewrite Hlive. }
  assert (L2 : Client.login e3 em pw st2
               = ({| Client.registeredUsers := Client.registeredUsers st2;
                     Client.pendingVerifications := Client.pendingVerifications st2;
                     Client.passwordResetTokens := Client.passwordResetTokens st2;
                     Client.ls_user :=
                       Some (Client.user_object
                               (Client.user
                                  (Client.mark_verified
                                     (Client_new_user e1 nm em password1))));
                     Client.ls_token :=
                       Some (Client.generateToken e3 (Client.random_id e1) operator);
                     Client.ls_role := Some "operator";
                     Client.auth_user :=
                       Some (Client.user
                               (Client.mark_verified
                                  (Client_new_user e1 nm em password1)));
                     Client.auth_token :=
                       Some (Client.generateToken e3 (Client.random_id e1) operator) |},
                  Client.succeeded)).
  { subst st2. rewrite E2. unfold Client.login, Client.find_account.
    rewrite Hund. simpl. rewrite get_insert_eq. simpl.
    now rewrite Hpw, String.eqb_refl. }
  subst st3. rewrite R1, L1, E2, L2. repeat split.
Qed.

(** X17. Request a reset, complete it, log in, in the browser.  For a
    registered account the token minted by [requestPasswordReset] is
    live for one hour.  During that hour [resetPassword] with a new
    password of at least 6 code units accepts it: when a code unit of the
    new password exceeds 255, [hashPassword] throws, the answer is the
    unexpected-error failure, and the accounts and the token stay as they
    were; otherwise the account carries the hash of the new password,
    nothing else of it and no other account changed, the token is gone,
    and if the account is verified it logs in with the new password. *)
Theorem X17_client_reset_round_trip e1 e2 e3 em (np : JsString.wide) su st :
  JsObject.get Client.DEMO_USERS (normalize em) = JsObject.Undefined ->
  Client.registeredUsers st !! normalize em = Some su ->
  6 <= JsString.wide_length np ->
  Client.now e2 <= Client.now e1 + 60 * 60 * 1000 ->
  let st1 := fst (Client.requestPasswordReset e1 em st) in
  let r := Client.resetPassword e2 em (Client.random_token e1) np st1 in
  snd (Client.requestPasswordReset e1 em st) = Client.succeeded /\
  (JsString.narrow np = None -> r = (st1, Client.unexpected)) /\
  (forall newPassword1,
      JsString.narrow np = Some newPassword1 ->
      snd r = Client.succeeded /\
      Client.registeredUsers (fst r)
      = <[ normalize em :=
             Client.set_hashedPassword (Client.hashPassword newPassword1) su ]>
          (Client.registeredUsers st) /\
      Client.passwordResetTokens (fst r) !! normalize em = None /\
      (Client.isVerified (Client.user su) = true ->
       snd (Client.login e3 em np (fst r)) = Client.succeeded /\
       Client.auth_user (fst (Client.login e3 em np (fst r)))
       = Some (Client.user su))).
Proof.
  intros Hund Hsu Hlen Hlive st1 r.
  assert (Hproto : JsObject.in_prototype (normalize em) = false)
    by now apply get_Undefined in Hund.
  assert (E1 : Client.requestPasswordReset e1 em st
               = (Client.with_tokens
                    (<[ normalize em :=
                          {| Client.rt_token := Client.random_token e1;
                             Client.rt_expiresAt :=
                               Client.now e1 + 60 * 60 * 1000 |} ]>
                       (Client.passwordResetTokens st)) st,
                  Client.succeeded)).
  { unfold Client.requestPasswordReset. rewrite Hund. simpl.
    apply get_Own in Hsu. rewrite Hsu. simpl.
    now rewrite set_insert by exact Hproto. }
  assert (E2 : r = match Client.update_password (normalize em) np st1 with
                   | None => (st1, Client.unexpected)
                   | Some st2 =>
                       (Client.with_tokens
                          (delete (normalize em)
                             (Client.passwordResetTokens st2)) st2,
                        Client.succeeded)
                   end).
  { subst r st1. rewrite E1. simpl.
    unfold Client.resetPassword, Client.validateResetToken.
    rewrite normalize_idem. simpl. rewrite get_insert_eq. simpl.
    rewrite String.eqb_refl. simpl.
    apply Z.ltb_ge in Hlive, Hlen. rewrite Hlive. simpl. now rewrite Hlen. }
  assert (Hown : JsObject.get (Client.registeredUsers st1) (normalize em)
                 = JsObject.Own su).
  { subst st1. rewrite E1. simpl. now apply get_Own. }
  split; [now rewrite E1|]. split.
  - intros Hnp. rewrite E2. unfold Client.update_password.
    now rewrite Hown, Hnp.
  - intros newPassword1 Hnp. rewrite E2. unfold Client.update_password.
    rewrite Hown, Hnp. subst st1. rewrite E1. simpl.
    repeat apply conj; try reflexivity.
    + apply lookup_delete_eq.
    + intros Hv. unfold Client.login, Client.find_account. rewrite Hund. simpl.
      rewrite get_insert_eq. simpl. rewrite Hv, Hnp. simpl.
      rewrite String.eqb_refl. simpl. split; reflexivity.
Qed.

(** X18. Each operation of the context changes only its own part of the
    state.  [signup] and [verifyEmail] never touch the reset tokens or the
    session; the three reset operations never touch the pending
    verifications or the session, and only [resetPassword] of them
    touches the accounts; [login] and [logout] touch the session only.
    So, unlike in the controller, a verification token never ends up
    among the reset tokens. *)
Theorem X18_client_frame (e : Client.env) (o : Client.operation) st :
  let st' := fst (Client.perform e o st) in
  match o with
  | Client.Signup _ _ _ | Client.VerifyEmail _ _ =>
      Client.passwordResetTokens st' = Client.passwordResetTokens st /\
      Client_session st' = Client_session st
  | Client.Login _ _ | Client.Logout =>
      Client.registeredUsers st' = Client.registeredUsers st /\
      Client.pendingVerifications st' = Client.pendingVerifications st /\
      Client.passwordResetTokens st' = Client.passwordResetTokens st
  | Client.RequestPasswordReset _ | Client.ValidateResetToken _ _ =>
      Client.registeredUsers st' = Client.registeredUsers st /\
      Client.pendingVerifications st' = Client.pendingVerifications st /\
      Client_session st' = Client_session st
  | Client.ResetPassword _ _ _ =>
      Client.pendingVerifications st' = Client.pendingVerifications st /\
      Client_session st' = Client_session st
  end.
Proof.
  destruct o as [n em p|em tk|em p|em|em tk|em tk np|]; simpl.
  - unfold Client.signup.
    destruct (JsObject.truthy _); [tauto|].
    destruct (JsObject.truthy _); [tauto|].
    destruct (_ <? _); simpl; [tauto|].
    destruct (JsString.narrow p); simpl; tauto.
  - unfold Client.verifyEmail.
    destruct (JsObject.get (Client.pendingVerifications st) _) as [| |p];
      try tauto.
    destruct (negb _); [tauto|]. destruct (_ <? _); [simpl; tauto|].
    destruct (JsObject.get (Client.registeredUsers st) _); simpl; tauto.
  - unfold Client.login.
    destruct (Client.find_account _ _) as [| |su]; try tauto.
    destruct (negb _); [tauto|].
    destruct (JsString.narrow p); simpl; [|tauto].
    destruct (negb _); simpl; tauto.
  - unfold Client.requestPasswordReset. destruct (negb _); simpl; tauto.
  - unfold Client.validateResetToken.
    destruct (JsObject.get _ _) as [| |s]; try tauto.
    destruct (negb _); [tauto|]. destruct (_ <? _); simpl; tauto.
  - unfold Client.resetPassword, Client.validateResetToken.
    destruct (JsObject.get (Client.passwordResetTokens st) _) as [| |s];
      simpl; try tauto.
    destruct (negb (String.eqb _ _)); simpl; [tauto|].
    destruct (Client.rt_expiresAt s <? Client.now e); simpl; [tauto|].
    destruct (_ <? _); simpl; [tauto|].
    unfold Client.update_password. simpl.
    destruct (JsObject.get (Client.registeredUsers st) _); simpl;
      try tauto; destruct (JsString.narrow np); simpl; tauto.
  - tauto.
Qed.

End ClientFlows.

(** ** Guards, routes and navigation *)

Section RouteGuards.
Context `{Platform}.

Lemma isAuthenticated_user st :
  Client.isAuthenticated st = true ->
  exists u, Client.auth_user st = Some u.
Proof.
  unfold Client.isAuthenticated.
  destruct (Client.auth_user st) as [u|]; [eauto|discriminate].
Qed.

Lemma includes_role_In roles r : includes_role roles r = true <-> In r roles.
Proof.
  unfold includes_role. rewrite existsb_exists. split.
  - intros (x & Hx & E). now destruct r, x.
  - intros Hr. exists r. split; [exact Hr|now destruct r].
Qed.

Lemma includes_permission_In l p :
  includes_permission l p = true <-> In p l.
Proof.
  unfold includes_permission. rewrite existsb_exists. split.
  - intros (x & Hx & E). now destruct p, x.
  - intros Hp. exists p. split; [exact Hp|now destruct p].
Qed.

(** X19. The guards fail closed.  Without a session [ProtectedRoute] sends
    to "/login" whatever its properties are, [RoleGate], [PermissionGate]
    and [AuthenticatedOnly] show their fallback, and only [GuestOnly]
    shows its children.  An empty [allowedRoles] lets nobody in.  When
    [ProtectedRoute] does render its children there is a user with a
    token, whose role is among the [allowedRoles] if these are given and
    holds the [requiredPermission] if that is given.  It navigates only
    to "/login", to "/dashboard" or to the given fallback path. *)
Theorem X19_guards_fail_closed (st : Client.state) :
  (Client.isAuthenticated st = false ->
   (forall roles perm fb,
       Routes.ProtectedRoute false st roles perm fb = Routes.Navigate "/login") /\
   (forall roles, Routes.RoleGate st roles = Routes.Fallback) /\
   (forall p, Routes.PermissionGate st p = Routes.Fallback) /\
   Routes.AuthenticatedOnly false st = Routes.Fallback /\
   (forall to, Routes.GuestOnly false st to = Routes.Children)) /\
  (forall loading perm fb,
      Routes.ProtectedRoute loading st (Some []) perm fb <> Routes.Children) /\
  (forall loading roles perm fb,
      Routes.ProtectedRoute loading st roles perm fb = Routes.Children ->
      exists u,
        Client.auth_user st = Some u /\
        Client.isAuthenticated st = true /\
        (forall l, roles = Some l -> In (Client.role u) l) /\
        (forall p, perm = Some p -> In p (ROLE_PERMISSIONS (Client.role u)))) /\
  (forall loading roles perm fb to,
      Routes.ProtectedRoute loading st roles perm fb = Routes.Navigate to ->
      to = "/login" \/ to = "/dashboard" \/ fb = Some to).
Proof.
  repeat apply conj.
  - intros Hno. repeat apply conj.
    + intros roles perm fb. unfold Routes.ProtectedRoute. now rewrite Hno.
    + intros roles. unfold Routes.RoleGate. now rewrite Hno.
    + intros p. unfold Routes.PermissionGate. now rewrite Hno.
    + unfold Routes.AuthenticatedOnly. now rewrite Hno.
    + intros to. unfold Routes.GuestOnly. now rewrite Hno.
  - intros loading perm fb. unfold Routes.ProtectedRoute, Client.canAccess.
    destruct loading; [discriminate|].
    destruct (Client.isAuthenticated st); simpl; [|discriminate].
    destruct (Client.auth_user st); simpl; discriminate.
  - intros loading roles perm fb. unfold Routes.ProtectedRoute.
    destruct loading; [discriminate|].
    destruct (Client.isAuthenticated st) eqn:Hauth; simpl; [|discriminate].
    unfold Client.canAccess, Client.hasPermission.
    destruct (Client.auth_user st) as [u|]; simpl; [|discriminate].
    destruct roles as [l|].
    + destruct (includes_role l (Client.role u)) eqn:Hl; simpl; [|discriminate].
      destruct perm as [p|].
      * destruct (includes_permission _ p) eqn:Hp; simpl; [|discriminate].
        intros _. exists u. repeat split; try reflexivity.
        -- intros ? [= <-]. now apply includes_role_In.
        -- intros ? [= <-]. now apply includes_permission_In.
      * intros _. exists u. repeat split; try reflexivity; [|discriminate].
        intros ? [= <-]. now apply includes_role_In.
    + destruct perm as [p|].
      * destruct (includes_permission _ p) eqn:Hp; simpl; [|discriminate].
        intros _. exists u. repeat split; try reflexivity; [discriminate|].
        intros ? [= <-]. now apply includes_permission_In.
      * intros _. exists u. repeat split; try reflexivity; discriminate.
  - intros loading roles perm fb to. unfold Routes.ProtectedRoute.
    assert (Hfb : Routes.redirectTo fb = "/dashboard" \/
                  fb = Some (Routes.redirectTo fb)).
    { unfold Routes.redirectTo. destruct fb as [[|c s]|]; simpl; auto. }
    destruct loading; [discriminate|].
    destruct (_ || _); [intros [= <-]; auto|].
    destruct (match roles with Some _ => _ | None => _ end).
    { intros [= <-]. destruct Hfb as [-> | Hfb]; auto. }
    destruct (match perm with Some _ => _ | None => _ end); [|discriminate].
    intros [= <-]. destruct Hfb as [-> | Hfb]; auto.
Qed.

(** A page only guests see. *)
Definition guest_page (p : Routes.page) : bool :=
  match p with
  | Routes.Auth | Routes.ForgotPassword | Routes.ResetPassword => true
  | _ => false
  end.

(** A page of the managers and directors. *)
Definition restricted_page (p : Routes.page) : bool :=
  match p with
  | Routes.Team | Routes.Assessment | Routes.Reports => true
  | _ => false
  end.

(** Where a visit must end. *)
Definition settled (st : Client.state) (v : option Routes.view) : Prop :=
  exists p,
    v = Some (Routes.Shows p) /\
    (Client.isAuthenticated st = false ->
     guest_page p = true \/ p = Routes.NotFound) /\
    (Client.isAuthenticated st = true -> guest_page p = false) /\
    (restricted_page p = true ->
     Client.canAccess st [manager; director] = true).

(** The role of the session, if there is one. *)
Definition session_role (st : Client.state) : option UserRole :=
  if Client.isAuthenticated st
  then option_map Client.role (Client.auth_user st)
  else None.

(** What [render] comes to once loading is over, by the session's role. *)
Definition render_as (who : option UserRole) (el : Routes.element)
  : Routes.view :=
  match el, who with
  | Routes.Redirect to, _ => Routes.GoesTo to
  | Routes.Guest redirect _, Some _ => Routes.GoesTo redirect
  | Routes.Guest _ p, None => Routes.Shows p
  | Routes.Protected _ _, None => Routes.GoesTo "/login"
  | Routes.Protected (Some roles) p, Some r =>
      if includes_role roles r then Routes.Shows p
      else Routes.GoesTo "/dashboard"
  | Routes.Protected None p, Some _ => Routes.Shows p
  | Routes.Plain p, _ => Routes.Shows p
  end.

Fixpoint settle_as (who : option UserRole) (hops : nat) (el : Routes.element)
  : option Routes.view :=
  match render_as who el with
  | Routes.GoesTo path =>
      match hops with
      | O => None
      | S hops' => settle_as who hops' (Routes.target path)
      end
  | shown => Some shown
  end.

Lemma render_as_ok st el :
  Routes.render false st el = render_as (session_role st) el.
Proof.
  unfold session_role, Routes.render, Routes.GuestOnly, Routes.ProtectedRoute,
    Client.canAccess.
  destruct (Client.isAuthenticated st) eqn:Hauth.
  - destruct (isAuthenticated_user _ Hauth) as [u ->]. simpl.
    destruct el as [to|to p|[roles|] p|p]; simpl; try reflexivity.
    now destruct (includes_role roles (Client.role u)).
  - now destruct el as [to|to p|[roles|] p|p].
Qed.

Lemma settle_as_ok st hops el :
  Routes.settle hops false st el = settle_as (session_role st) hops el.
Proof.
  revert el. induction hops as [|hops IH]; intros el; simpl;
    rewrite render_as_ok; [reflexivity|].
  destruct (render_as _ el); try reflexivity. apply IH.
Qed.

Lemma canAccess_session_role st roles :
  Client.isAuthenticated st = true ->
  Client.canAccess st roles
  = match session_role st with
    | Some r => includes_role roles r
    | None => false
    end.
Proof.
  intros Hauth. unfold session_role, Client.canAccess. rewrite Hauth.
  now destruct (Client.auth_user st).
Qed.

Lemma settle_element st el :
  In el (Routes.Plain Routes.NotFound :: map snd Routes.routes) ->
  settled st (Routes.settle 3 false st el).
Proof.
  intros Hel. unfold settled. rewrite settle_as_ok.
  destruct (Client.isAuthenticated st) eqn:Hauth.
  - rewrite (canAccess_session_role _ _ Hauth).
    destruct (isAuthenticated_user _ Hauth) as [u Hu].
    assert (Hwho : session_role st = Some (Client.role u))
      by (unfold session_role; now rewrite Hauth, Hu).
    rewrite Hwho. simpl in Hel.
    destruct (Client.role u);
      repeat (destruct Hel as [<- | Hel];
              [ eexists; split; [vm_compute; reflexivity|];
                repeat split; intros; first [reflexivity | discriminate] | ]);
      destruct Hel.
  - assert (Hwho : session_role st = None)
      by (unfold session_role; now rewrite Hauth).
    rewrite Hwho. simpl in Hel.
    repeat (destruct Hel as [<- | Hel];
            [ eexists; split; [vm_compute; reflexivity|];
              repeat split; intros;
              first [ discriminate | (left; reflexivity) | (right; reflexivity) ]
            | ]).
    destruct Hel.
Qed.

(** X20. No redirect loop.  Once the provider has finished loading, a
    visit of any route of [App.tsx] ends after at most three navigations
    on a page: the routes with the guards of [ProtectedRoute.tsx] never
    send a visitor in a circle.  A visitor without a session ends on one
    of the three guest pages or on the 404 page; one with a session never
    on a guest page; and the team, assessment and reports pages are shown
    to managers and directors only. *)
Theorem X20_routes_settle (st : Client.state) (el : Routes.element) :
  In el (map snd Routes.routes) ->
  settled st (Routes.settle 3 false st el).
Proof. intros Hel. apply settle_element. now right. Qed.

(** X21. The sidebar agrees with the routes.  For a session, an item of
    [NAV_ITEMS] is among the [filteredNavItems] exactly if the route of
    its path shows a page instead of navigating away: the sidebar offers
    no link that bounces, and hides no page the router would show. *)
Theorem X21_sidebar_matches_routes (st : Client.state) item :
  Client.isAuthenticated st = true ->
  In item Routes.NAV_ITEMS ->
  (In item (Routes.filteredNavItems st) <->
   exists p, Routes.render false st (Routes.target (snd (fst item)))
             = Routes.Shows p).
Proof.
  intros Hauth Hitem. destruct (isAuthenticated_user _ Hauth) as [u Hu].
  unfold Routes.filteredNavItems. rewrite filter_In.
  unfold Client.canAccess. rewrite Hu.
  simpl in Hitem.
  repeat (destruct Hitem as [<- | Hitem];
          [ simpl; unfold Routes.ProtectedRoute, Client.canAccess; simpl;
            rewrite Hauth, Hu; simpl;
            destruct (Client.role u); simpl;
            (split; [ intros [_ Hr]; first [discriminate | eauto]
                    | intros [p Hp]; first [discriminate | split; [tauto|reflexivity]] ])
          | ]).
  destruct Hitem.
Qed.

(** X22. One view per user.  While the dashboard shows its skeleton, the
    first 500 ms after it mounts, none of its role views renders.  From
    then on, for a signed-in user exactly one of the role views of the
    dashboard renders, and exactly one of the performance page (which has
    no skeleton): the view whose [allowedRoles] contain the user's role.
    Without a session none renders. *)
Theorem X22_one_view_per_role (st : Client.state) :
  Pages.Dashboard true st = [] /\
  match Client.auth_user st, JsString.truthy (Client.auth_token st) with
  | Some u, Some _ =>
      Pages.Dashboard false st = [ [Client.role u] ] /\
      exists roles,
        Pages.Performance st = [ roles ] /\ In (Client.role u) roles
  | _, _ =>
      Pages.Dashboard false st = [] /\ Pages.Performance st = []
  end.
Proof.
  split; [reflexivity|].
  unfold Pages.Dashboard, Pages.Performance, Pages.rendered, Routes.RoleGate,
    Client.isAuthenticated, Client.canAccess.
  destruct (Client.auth_user st) as [u|]; [|split; reflexivity].
  destruct (JsString.truthy _); [|split; reflexivity].
  destruct (Client.role u); simpl; (split; [reflexivity|]);
    eexists; (split; [reflexivity|]); simpl; tauto.
Qed.

End RouteGuards.

(** ** The strength meter and the pagination *)

Section StrengthMeter.

Import PasswordStrength.

Lemma contains_app class s t :
  contains class (s ++ t) = contains class s || contains class t.
Proof.
  induction s as [|c s IH]; simpl; [reflexivity|].
  now rewrite IH, orb_assoc.
Qed.

Lemma JsString_length_app s t :
  JsString.length (s ++ t) = JsString.length s + JsString.length t.
Proof.
  unfold JsString.length.
  induction s as [|c s IH]; [change ("" ++ t) with t|]; simpl; lia.
Qed.

Lemma JsString_length_nonneg s : 0 <= JsString.length s.
Proof. unfold JsString.length. lia. Qed.

Lemma score_passed password :
  score (calculatePasswordStrength password) = passed (check password) * 20.
Proof.
  unfold calculatePasswordStrength.
  repeat (destruct (_ <=? _); [reflexivity|]). reflexivity.
Qed.

Lemma checks_calculate password :
  checks (calculatePasswordStrength password) = check password.
Proof.
  unfold calculatePasswordStrength.
  repeat (destruct (_ <=? _); [reflexivity|]). reflexivity.
Qed.

(** The checks of [c] all hold in [c']. *)
Definition checks_le (c c' : Checks) : Prop :=
  (has_length c = true -> has_length c' = true) /\
  (has_uppercase c = true -> has_uppercase c' = true) /\
  (has_lowercase c = true -> has_lowercase c' = true) /\
  (has_number c = true -> has_number c' = true) /\
  (has_special c = true -> has_special c' = true).

Lemma passed_le c c' : checks_le c c' -> passed c <= passed c'.
Proof.
  unfold checks_le, passed.
  destruct c as [l u w n s], c' as [l' u' w' n' s']; simpl.
  intros (Hl & Hu & Hw & Hn & Hs).
  destruct l; [rewrite (Hl eq_refl)|];
    (destruct u; [rewrite (Hu eq_refl)|]);
    (destruct w; [rewrite (Hw eq_refl)|]);
    (destruct n; [rewrite (Hn eq_refl)|]);
    (destruct s; [rewrite (Hs eq_refl)|]);
    clear; repeat match goal with b : bool |- _ => destruct b end;
    simpl; lia.
Qed.

(** X23. The score of the strength meter is 20 for each check that holds:
    a multiple of 20 between 0 and 100.  It is 100, and the label
    "Very Strong", exactly if all five checks hold, and the label is
    "Very Weak" exactly if at most one holds.  A password with the full
    score has at least 8 characters. *)
Theorem X23_strength_score (password : string) :
  let s := calculatePasswordStrength password in
  let c := checks s in
  0 <= score s <= 100 /\
  score s mod 20 = 0 /\
  (score s = 100 <->
   has_length c = true /\ has_uppercase c = true /\ has_lowercase c = true /\
   has_number c = true /\ has_special c = true) /\
  (label s = "Very Strong" <-> score s = 100) /\
  (label s = "Very Weak" <-> score s <= 20) /\
  (score s = 100 -> 8 <= JsString.length password).
Proof.
  intros s c. subst c s. rewrite checks_calculate.
  assert (Hlen : has_length (check password) = true ->
                 8 <= JsString.length password)
    by (simpl; apply Z.leb_le).
  unfold calculatePasswordStrength, passed.
  destruct (check password) as [l u w n sp]; simpl in *.
  destruct l, u, w, n, sp; simpl; repeat split;
    intros; first [lia | discriminate | tauto | intuition discriminate
                  | (apply Hlen; reflexivity) | intuition lia ].
Qed.

(** X24. Adding characters never lowers the strength: every check a
    password passes, the password with anything put before and after it
    passes too, so its score is at least as high. *)
Theorem X24_strength_monotone (before password after : string) :
  checks_le (checks (calculatePasswordStrength password))
    (checks (calculatePasswordStrength (before ++ password ++ after))) /\
  score (calculatePasswordStrength password)
  <= score (calculatePasswordStrength (before ++ password ++ after)).
Proof.
  assert (Hle : checks_le (check password)
                  (check (before ++ password ++ after))).
  { unfold checks_le, check; simpl.
    rewrite !contains_app, !JsString_length_app.
    pose proof (JsString_length_nonneg before).
    pose proof (JsString_length_nonneg after).
    repeat split; intros Hc; rewrite ?Hc, ?orb_true_r; try reflexivity.
    apply Z.leb_le in Hc. apply Z.leb_le. lia. }
  rewrite !checks_calculate, !score_passed. split; [exact Hle|].
  apply passed_le in Hle. lia.
Qed.

End StrengthMeter.

Section Pagination.

Import DataTable.

Context {A : Type}.

Lemma slice_window (l : list A) (s k : Z) :
  0 <= s -> 0 <= k ->
  slice l s (s + k) = firstn (Z.to_nat k) (skipn (Z.to_nat s) l).
Proof.
  intros Hs Hk. unfold slice, relative_index.
  destruct (Z.ltb_spec s 0); [lia|].
  destruct (Z.ltb_spec (s + k) 0); [lia|].
  destruct (Z_lt_le_dec s (Z.of_nat (List.length l))) as [Hin | Hout].
  - rewrite (Z.min_l s) by lia.
    destruct (Z_le_gt_dec (s + k) (Z.of_nat (List.length l))) as [Hfit | Hcut].
    + rewrite Z.min_l by lia. f_equal. lia.
    + rewrite Z.min_r by lia.
      rewrite !firstn_all2; [reflexivity| |]; rewrite length_skipn; lia.
  - rewrite (Z.min_r s) by lia. rewrite Z.min_r by lia.
    rewrite !skipn_all2 by lia. now rewrite !firstn_nil.
Qed.

Lemma page_window (data : list A) (p ipp : Z) :
  1 <= p -> 0 <= ipp ->
  paginatedData true data p ipp
  = firstn (Z.to_nat ipp) (skipn (Z.to_nat (p - 1) * Z.to_nat ipp) data).
Proof.
  intros Hp Hipp. unfold paginatedData, startIndex.
  rewrite slice_window by nia. do 2 f_equal. nia.
Qed.

Lemma concat_pages (data : list A) (ipp : Z) (n : nat) :
  0 <= ipp ->
  concat (map (fun p => paginatedData true data p ipp)
              (map Z.of_nat (seq 1 n)))
  = firstn (n * Z.to_nat ipp) data.
Proof.
  intros Hipp. induction n as [|n IH]; [reflexivity|].
  rewrite seq_S, !map_app, concat_app, IH. cbn [map concat].
  rewrite app_nil_r, page_window by lia.
  replace (Z.to_nat (Z.of_nat (1 + n) - 1)) with n by lia.
  rewrite take_take_drop. f_equal. lia.
Qed.

Lemma totalPages_spec (data : list A) (ipp : Z) :
  0 < ipp ->
  exists n,
    totalPages data ipp = Some n /\
    (n - 1) * ipp < Z.of_nat (List.length data) <= n * ipp.
Proof.
  intros Hipp. unfold totalPages, ceil_div.
  destruct (Z.eqb_spec ipp 0); [lia|].
  eexists. split; [reflexivity|].
  pose proof (Z.div_mod (- Z.of_nat (List.length data)) ipp ltac:(lia)).
  pose proof (Z.mod_pos_bound (- Z.of_nat (List.length data)) ipp Hipp).
  nia.
Qed.

(** X25. The pages partition the rows.  For a positive page size the
    number of pages is the least [n] with [n * itemsPerPage] at least the
    number of rows (so 0 exactly for no rows), and the pages 1 to [n],
    one after the other, are the filtered rows: every row is on exactly
    one page, in order. *)
Theorem X25_pages_partition (filteredData : list A) (itemsPerPage : Z) :
  0 < itemsPerPage ->
  exists n,
    totalPages filteredData itemsPerPage = Some n /\
    (n - 1) * itemsPerPage < Z.of_nat (List.length filteredData)
      <= n * itemsPerPage /\
    (n = 0 <-> filteredData = []) /\
    concat (map (fun p => paginatedData true filteredData p itemsPerPage)
                (map Z.of_nat (seq 1 (Z.to_nat n))))
    = filteredData.
Proof.
  intros Hipp.
  destruct (totalPages_spec filteredData itemsPerPage Hipp) as (n & Hn & Hb).
  exists n. repeat apply conj; try tauto.
  - intros ->. destruct filteredData; [reflexivity|simpl in Hb; lia].
  - intros ->. simpl in Hb. nia.
  - rewrite concat_pages by lia. apply firstn_all2. nia.
Qed.

(** X26. A page within range.  For a positive page size and a page
    number between 1 and the number of pages: the page is not empty and
    has at most [itemsPerPage] rows, exactly that many unless it is the
    last; it has as many rows as the range of the "Showing" line says,
    and its rows are the rows of these positions; the two page buttons
    lead to page numbers within range again.  Past the last page the
    table is empty. *)
Theorem X26_page_in_range (filteredData : list A)
    (currentPage itemsPerPage n : Z) :
  0 < itemsPerPage ->
  totalPages filteredData itemsPerPage = Some n ->
  let page := paginatedData true filteredData currentPage itemsPerPage in
  let first := fst (showing filteredData currentPage itemsPerPage) in
  let last := snd (showing filteredData currentPage itemsPerPage) in
  (1 <= currentPage <= n ->
   page <> [] /\
   Z.of_nat (List.length page) <= itemsPerPage /\
   (currentPage < n -> Z.of_nat (List.length page) = itemsPerPage) /\
   Z.of_nat (List.length page) = last - first + 1 /\
   (forall i : nat,
       (i < List.length page)%nat ->
       nth_error page i = nth_error filteredData (Z.to_nat (first - 1) + i)) /\
   1 <= previous currentPage <= n /\
   1 <= next n currentPage <= n) /\
  (n < currentPage -> page = []).
Proof.
  intros Hipp Hn page first last.
  destruct (totalPages_spec filteredData itemsPerPage Hipp) as (n' & Hn' & Hb).
  rewrite Hn in Hn'. injection Hn' as <-.
  assert (Hlen : 1 <= currentPage ->
                 Z.of_nat (List.length page)
                 = Z.min itemsPerPage
                     (Z.max 0 (Z.of_nat (List.length filteredData)
                               - (currentPage - 1) * itemsPerPage))).
  { intros Hp. subst page. rewrite page_window by lia.
    rewrite length_firstn, length_skipn. nia. }
  split.
  - intros Hp. specialize (Hlen ltac:(lia)).
    assert (Hstart : (currentPage - 1) * itemsPerPage
                     < Z.of_nat (List.length filteredData)) by nia.
    subst first last. unfold showing, startIndex, previous, next. simpl.
    repeat apply conj; try lia.
    + intros E. rewrite E in Hlen. simpl in Hlen. lia.
    + intros Hlt. nia.
    + intros i Hi. subst page. rewrite page_window by lia.
      rewrite nth_error_firstn.
      destruct (Nat.ltb_spec i (Z.to_nat itemsPerPage)) as [Hlt|Hge].
      * rewrite nth_error_skipn. f_equal. nia.
      * rewrite page_window, length_firstn in Hi by lia. lia.
  - intros Hp. assert (0 <= n) by nia.
    subst page. rewrite page_window by lia.
    rewrite skipn_all2 by nia. apply firstn_nil.
Qed.

End Pagination.

(** ** The claims on the sample runs *)

Section Instances.
Import Sample.

Lemma b1_reachable : @Backend.reachable sample_platform b1.
Proof.
  exact (Backend.reachable_step b_now
           (Backend.Signup (Some "Jane") (Some "Jane@X.com") (Some "secret1"))
           b0 (Backend.reachable_initial "s1" "s2" "s3")).
Qed.

Lemma c1_reachable : @Client.reachable sample_platform c1.
Proof.
  exact (Client.reachable_step c_now
           (Client.Signup "Jane" "Jane@X.com" "secret1") c0
           Client.reachable_initial).
Qed.

Lemma c_demo_reachable : @Client.reachable sample_platform c_demo.
Proof.
  exact (Client.reachable_step c_now
           (Client.RequestPasswordReset "manager@demo.com") c0
           Client.reachable_initial).
Qed.

(** The scenarios of the specification. *)

Example scenario_signup_verify_login :
  Backend.status
    (snd (@Backend.signup sample_platform b_now (Some "Jane")
            (Some "Jane@X.com") (Some "secret1") b0)) = 201 /\
  Backend.status
    (snd (@Backend.login sample_platform b_now (Some "jane@x.com")
            (Some "secret1") b1)) = 403 /\
  Backend.status
    (snd (Backend.verifyEmail b_now (Some "jane@x.com") (Some hex) b1)) = 200 /\
  Backend.status
    (snd (@Backend.login sample_platform b_now (Some "jane@x.com")
            (Some "secret1") b2)) = 200 /\
  Backend.role <$> Backend.find_user "jane@x.com" (Backend.users b2)
  = Some operator.
Proof. repeat split; vm_compute; reflexivity. Qed.

Example scenario_expired_reset :
  snd (@Backend.resetPassword sample_platform b_late (Some "jane@x.com")
         (Some hex) (Some "newpass1") b3)
  = Backend.failure 400 "Reset link has expired" /\
  Backend.status
    (snd (@Backend.login sample_platform b_late (Some "jane@x.com")
            (Some "secret1")
            (fst (@Backend.resetPassword sample_platform b_late
                    (Some "jane@x.com") (Some hex) (Some "newpass1") b3))))
  = 200.
Proof. split; vm_compute; reflexivity. Qed.

Example scenario_demo_accounts :
  let st := fst (@Client.login sample_platform c_now "manager@demo.com"
                   "demo123" c0) in
  snd (@Client.login sample_platform c_now "manager@demo.com" "demo123" c0)
  = Client.succeeded /\
  Client.role <$> Client.auth_user st = Some manager /\
  Client.hasPermission st manage_team = true /\
  includes_permission (ROLE_PERMISSIONS operator) manage_team = false.
Proof. repeat split; vm_compute; reflexivity. Qed.

Lemma C8_witness :
  In view_tasks (ROLE_PERMISSIONS operator) /\
  In view_tasks (ROLE_PERMISSIONS manager) /\
  In view_tasks (ROLE_PERMISSIONS director) /\
  In manage_team (ROLE_PERMISSIONS manager) /\
  In manage_team (ROLE_PERMISSIONS director).
Proof.
  assert (Hop : In view_tasks (ROLE_PERMISSIONS operator)) by (simpl; tauto).
  assert (Hmg : In manage_team (ROLE_PERMISSIONS manager)) by (simpl; tauto).
  destruct (C8_permission_monotonicity view_tasks) as (A & B & _).
  destruct (C8_permission_monotonicity manage_team) as (_ & _ & C).
  exact (conj Hop (conj (A Hop) (conj (B Hop) (conj Hmg (C Hmg))))).
Defined.

(** An expired reset token: the controller and the client both refuse it
    in [validateResetToken], and so does [resetPassword]. *)
Lemma C7_witness :
  (Backend.status
     (snd (Backend.validateResetToken b_late (Some "jane@x.com") (Some hex) b3))
   <> 200 /\
   (exists message,
       snd (@Backend.resetPassword sample_platform b_late (Some "jane@x.com")
              (Some hex) (Some "newpass1") b3)
       = Backend.failure 400 message) /\
   Backend.users
     (fst (@Backend.resetPassword sample_platform b_late (Some "jane@x.com")
             (Some hex) (Some "newpass1") b3))
   = Backend.users b3) /\
  (Client.success
     (snd (Client.validateResetToken c_late "jane@x.com" "wrong" c3)) = false /\
   Client.success
     (snd (@Client.resetPassword sample_platform c_late "jane@x.com" "wrong"
             "newpass1" c3)) = false /\
   Client.registeredUsers
     (fst (@Client.resetPassword sample_platform c_late "jane@x.com" "wrong"
             "newpass1" c3))
   = Client.registeredUsers c3).
Proof.
  destruct (@C7_reset_requires_valid_token sample_platform) as [B C].
  split.
  - assert (Hf : Backend.status
                   (snd (Backend.validateResetToken b_late (Some "jane@x.com")
                           (Some hex) b3)) <> 200)
      by (vm_compute; discriminate).
    exact (conj Hf (B b_late _ _ (Some "newpass1") b3 Hf)).
  - assert (Hf : Client.success
                   (snd (Client.validateResetToken c_late "jane@x.com" "wrong" c3))
                 = false)
      by (vm_compute; reflexivity).
    exact (conj Hf (C c_late _ _ "newpass1" c3 Hf)).
Defined.


(** Jane before her verification and the manager, on both sides; and
    Jane's address signed up twice at once: the second account, Joan's,
    is stored, stays unverified when the address is verified, and is
    refused with its own password as an incorrect one. *)
Lemma C4_witness :
  ("jane@x.com" <> "" /\ "secret1" <> "" /\
   Backend.find_user (normalize "jane@x.com") (Backend.users b1) = Some b_jane /\
   Backend.isVerified b_jane = false /\
   @bcrypt_compare sample_platform "secret1" (Backend.password b_jane) = true /\
   Backend.status
     (snd (@Backend.login sample_platform b_now (Some "jane@x.com")
             (Some "secret1") b1)) = 403) /\
  ("Manager@demo.com " <> "" /\ "demo123" <> "" /\
   Backend.find_user (normalize "Manager@demo.com ") (Backend.users b1)
   = Some b_manager /\
   Backend.isVerified b_manager = true /\
   @bcrypt_compare sample_platform "demo123" (Backend.password b_manager) = true /\
   Backend.status
     (snd (@Backend.login sample_platform b_now (Some "Manager@demo.com ")
             (Some "demo123") b1)) = 200) /\
  (@Client.find_account sample_platform (normalize "jane@x.com") c1
   = JsObject.Own c_jane /\
   Client.isVerified (Client.user c_jane) = false /\
   Client.requiresVerification
     (snd (@Client.login sample_platform c_now "jane@x.com" "secret1" c1))
   = Some true) /\
  (@Client.find_account sample_platform (normalize "manager@demo.com") c1
   = JsObject.Own c_manager /\
   Client.isVerified (Client.user c_manager) = true /\
   JsString.narrow "demo123" = Some "demo123" /\
   @btoa sample_platform ("demo123" ++ "_flowdash_salt_2024")
   = Client.hashedPassword c_manager /\
   snd (@Client.login sample_platform c_now "manager@demo.com" "demo123" c1)
   = Client.succeeded /\
   Client.auth_token
     (fst (@Client.login sample_platform c_now "manager@demo.com" "demo123" c1))
   = Some "b64:{userId:usr_mgr_001}") /\
  (@Backend.reachable sample_platform b1 /\ In b_jane (Backend.users b1) /\
   Backend.find_user (normalize (Backend.email b_jane)) (Backend.users b1)
   = Some b_jane) /\
  (@Client.reachable sample_platform c1 /\
   Client.registeredUsers c1 !! "jane@x.com" = Some c_jane /\
   @Client.find_account sample_platform "jane@x.com" c1 = JsObject.Own c_jane) /\
  (@Overlap.reachable sample_platform b_race [] /\
   exists u,
     In u (Backend.users b_race) /\
     Backend.email u = normalize "jane@x.com" /\
     Backend.isVerified u = false /\
     @bcrypt_compare sample_platform "secret2" (Backend.password u) = true /\
     @Backend.login sample_platform b_again (Some "jane@x.com")
       (Some "secret2") b_race
     = (b_race, Backend.failure 401 "Incorrect password")).
Proof.
  destruct (@C4_verification_gating sample_platform) as (B & C & RB & RC & RO).
  split; [|split; [|split; [|split; [|split; [|split]]]]];
    [| | | |
     assert (Hin : In b_jane (Backend.users b1))
       by (right; right; right; left; reflexivity);
     exact (conj b1_reachable
              (conj Hin (proj2 (RB b1 b_jane b1_reachable Hin))))
    |assert (Hreg : Client.registeredUsers c1 !! "jane@x.com" = Some c_jane)
       by (vm_compute; reflexivity);
     exact (conj c1_reachable
              (conj Hreg
                 (proj2 (RC c1 "jane@x.com" c_jane c1_reachable
                           (or_intror Hreg)))))
    |].
  - assert (H1 : "jane@x.com" <> "") by discriminate.
    assert (H2 : "secret1" <> "") by discriminate.
    assert (H3 : Backend.find_user (normalize "jane@x.com") (Backend.users b1)
                 = Some b_jane) by (vm_compute; reflexivity).
    assert (H4 : Backend.isVerified b_jane = false) by reflexivity.
    repeat (split; [assumption || (vm_compute; reflexivity)|]).
    rewrite (proj1 (B b_now _ _ _ b1 H1 H2 H3) H4). reflexivity.
  - assert (H1 : "Manager@demo.com " <> "") by discriminate.
    assert (H2 : "demo123" <> "") by discriminate.
    assert (H3 : Backend.find_user (normalize "Manager@demo.com ")
                   (Backend.users b1) = Some b_manager)
      by (vm_compute; reflexivity).
    assert (H4 : Backend.isVerified b_manager = true) by reflexivity.
    assert (H5 : @bcrypt_compare sample_platform "demo123"
                   (Backend.password b_manager) = true)
      by (vm_compute; reflexivity).
    repeat (split; [assumption|]).
    rewrite (proj2 (B b_now _ _ _ b1 H1 H2 H3) H4 H5). reflexivity.
  - assert (H3 : @Client.find_account sample_platform (normalize "jane@x.com") c1
                 = JsObject.Own c_jane) by (vm_compute; reflexivity).
    assert (H4 : Client.isVerified (Client.user c_jane) = false) by reflexivity.
    repeat (split; [assumption|]).
    rewrite (proj1 (C c_now _ "secret1" _ c1 H3) H4). reflexivity.
  - assert (H3 : @Client.find_account sample_platform
                   (normalize "manager@demo.com") c1 = JsObject.Own c_manager)
      by (vm_compute; reflexivity).
    assert (H4 : Client.isVerified (Client.user c_manager) = true)
      by reflexivity.
    assert (H5 : JsString.narrow "demo123" = Some "demo123")
      by (vm_compute; reflexivity).
    assert (H6 : @btoa sample_platform ("demo123" ++ "_flowdash_salt_2024")
                 = Client.hashedPassword c_manager)
      by (vm_compute; reflexivity).
    repeat (split; [assumption|]).
    pose proof (proj2 (C c_now _ "demo123" _ c1 H3) H4 "demo123" H5 H6)
      as (R1 & R2 & _).
    split; [exact R1|]. rewrite R2. vm_compute. reflexivity.
  - assert (H1 : Overlap.signup_begin (Some "Jane")
                   (Some "jane@x.com") (Some "secret1") b0
                 = inr (Overlap.SignupHashing "Jane" "jane@x.com" "secret1"))
      by (vm_compute; reflexivity).
    assert (H2 : Overlap.signup_begin (Some "Joan")
                   (Some "jane@x.com") (Some "secret2") b0
                 = inr (Overlap.SignupHashing "Joan" "jane@x.com" "secret2"))
      by (vm_compute; reflexivity).
    assert (H3 : Backend.random_hex b_again <> "") by discriminate.
    assert (H4 : Backend.now b_again
                 <= Backend.now b_again + 24 * 60 * 60 * 1000)
      by (vm_compute; discriminate).
    assert (H5 : @bcrypt_compare sample_platform "secret2"
                   (@bcrypt_hash sample_platform "secret2" 12
                      (Backend.salt b_again)) = true)
      by (vm_compute; reflexivity).
    assert (H6 : @bcrypt_compare sample_platform "secret2"
                   (@bcrypt_hash sample_platform "secret1" 12
                      (Backend.salt b_now)) = false)
      by (vm_compute; reflexivity).
    exact (RO b_now b_again b_again b_again "Jane" "Joan" "jane@x.com"
             "secret1" "secret2" b0 []
             (Overlap.reachable_initial "s1" "s2" "s3") H1 H2 H3 H4 H5 H6).
Defined.

(** Jane's verification link and her reset link, used two days later. *)
Lemma C6_witness :
  ("jane@x.com" <> "" /\ Backend.token b_pending <> "" /\
   Backend.pendingVerifications b1 !! normalize "jane@x.com" = Some b_pending /\
   Backend.expiry b_pending < Backend.now b_late /\
   snd (Backend.verifyEmail b_late (Some "jane@x.com")
          (Some (Backend.token b_pending)) b1)
   = Backend.failure 400 "Verification link has expired. Please sign up again.") /\
  (Backend.pendingVerifications b3 !! Backend.reset_key (normalize "jane@x.com")
   = Some b_reset /\
   Backend.expiry b_reset < Backend.now b_late /\
   6 <= JsString.length "newpass1" /\
   snd (Backend.validateResetToken b_late (Some "jane@x.com")
          (Some (Backend.token b_reset)) b3)
   = Backend.failure 400 "Reset link has expired" /\
   snd (@Backend.resetPassword sample_platform b_late (Some "jane@x.com")
          (Some (Backend.token b_reset)) (Some "newpass1") b3)
   = Backend.failure 400 "Reset link has expired" /\
   Backend.status
     (snd (@Backend.resetPassword sample_platform b_late (Some "jane@x.com")
             (Some (Backend.token b_reset)) (Some "abc") b3)) = 400 /\
   "abc" <> "" /\ JsString.length "abc" < 6 /\
   @Backend.resetPassword sample_platform b_late (Some "jane@x.com")
     (Some (Backend.token b_reset)) (Some "abc") b3
   = (b3, Backend.failure 400 "Password must be at least 6 characters")) /\
  (Client.pendingVerifications c1 !! normalize "jane@x.com" = Some c_pending /\
   Client.pv_expiresAt c_pending < Client.now c_late /\
   snd (Client.verifyEmail c_late "jane@x.com" (Client.pv_token c_pending) c1)
   = Client.failed "Verification link has expired. Please sign up again.") /\
  (Client.passwordResetTokens c3 !! normalize "jane@x.com" = Some c_reset /\
   Client.rt_expiresAt c_reset < Client.now c_late /\
   snd (Client.validateResetToken c_late "jane@x.com"
          (Client.rt_token c_reset) c3)
   = Client.failed "Reset link has expired" /\
   snd (@Client.resetPassword sample_platform c_late "jane@x.com"
          (Client.rt_token c_reset) "newpass1" c3)
   = Client.failed "Reset link has expired").
Proof.
  destruct (@C6_expiry_enforcement sample_platform)
    as (B1 & B2 & B3 & B3' & B4 & C1 & C2).
  assert (Hem : "jane@x.com" <> "") by discriminate.
  assert (Htk : Backend.token b_pending <> "") by discriminate.
  assert (Htk' : Backend.token b_reset <> "") by discriminate.
  split; [|split; [|split]].
  - assert (Hp : Backend.pendingVerifications b1 !! normalize "jane@x.com"
                 = Some b_pending) by (vm_compute; reflexivity).
    assert (Hx : Backend.expiry b_pending < Backend.now b_late)
      by (vm_compute; reflexivity).
    repeat (split; [assumption|]).
    rewrite (B1 b_late _ _ b1 Hem Htk Hp Hx). reflexivity.
  - assert (Hp : Backend.pendingVerifications b3
                   !! Backend.reset_key (normalize "jane@x.com") = Some b_reset)
      by (vm_compute; reflexivity).
    assert (Hx : Backend.expiry b_reset < Backend.now b_late)
      by (vm_compute; reflexivity).
    assert (Hl : 6 <= JsString.length "newpass1") by (vm_compute; discriminate).
    repeat (split; [assumption|]).
    split; [rewrite (B2 b_late _ _ b3 Hem Htk' Hp Hx); reflexivity|].
    split; [rewrite (B3 b_late _ _ _ b3 Hem Htk' Hl Hp Hx); reflexivity|].
    split; [exact (proj2 (proj2 (B4 b_late _ _ (Some "abc") b3) Hp Hx))|].
    assert (Hn : "abc" <> "") by discriminate.
    assert (Hs : JsString.length "abc" < 6) by (vm_compute; reflexivity).
    repeat (split; [assumption|]).
    exact (proj2 (B3' b_late _ _ (Some "abc") b3 Hem Htk') "abc" eq_refl Hn Hs).
  - assert (Hp : Client.pendingVerifications c1 !! normalize "jane@x.com"
                 = Some c_pending) by (vm_compute; reflexivity).
    assert (Hx : Client.pv_expiresAt c_pending < Client.now c_late)
      by (vm_compute; reflexivity).
    repeat (split; [assumption|]).
    rewrite (C1 c_late _ _ c1 Hp Hx). reflexivity.
  - assert (Hp : Client.passwordResetTokens c3 !! normalize "jane@x.com"
                 = Some c_reset) by (vm_compute; reflexivity).
    assert (Hx : Client.rt_expiresAt c_reset < Client.now c_late)
      by (vm_compute; reflexivity).
    repeat (split; [assumption|]).
    destruct (C2 c_late _ _ "newpass1" c3 Hp Hx) as [V R].
    rewrite V, R. split; reflexivity.
Defined.

(** The manager logs in on both implementations. *)
Lemma C9_witness :
  (Backend.status
     (snd (@Backend.login sample_platform b_now (Some "manager@demo.com")
             (Some "demo123") b0)) = 200 /\
   exists userData,
     get_field "user"
       (Backend.body
          (snd (@Backend.login sample_platform b_now (Some "manager@demo.com")
                  (Some "demo123") b0)))
     = Some (JObj userData) /\
     get_field "password" userData = None /\
     get_field "email" userData = Some (JStr "manager@demo.com")) /\
  (Client.success
     (snd (@Client.login sample_platform c_now "manager@demo.com" "demo123" c0))
   = true /\
   exists su,
     Client.ls_user
       (fst (@Client.login sample_platform c_now "manager@demo.com" "demo123" c0))
     = Some (Client.user_object (Client.user su)) /\
     get_field "hashedPassword" (Client.user_object (Client.user su)) = None).
Proof.
  destruct (@C9_login_omits_password_hash sample_platform) as [B C].
  split.
  - assert (Hok : Backend.status
                    (snd (@Backend.login sample_platform b_now
                            (Some "manager@demo.com") (Some "demo123") b0)) = 200)
      by (vm_compute; reflexivity).
    split; [exact Hok|].
    destruct (B b_now _ _ b0 Hok)
      as (em & u & token & userData & Hem & Hu & Hbody & _ & _ & Hpw & Hkeep).
    exists userData. rewrite Hbody. split; [reflexivity|]. split; [exact Hpw|].
    rewrite Hkeep by discriminate.
    injection Hem as <-.
    assert (Hm : Backend.find_user (normalize "manager@demo.com")
                   (Backend.users b0) = Some b_manager)
      by (vm_compute; reflexivity).
    rewrite Hm in Hu. injection Hu as <-. reflexivity.
  - assert (Hok : Client.success
                    (snd (@Client.login sample_platform c_now "manager@demo.com"
                            "demo123" c0)) = true)
      by (vm_compute; reflexivity).
    split; [exact Hok|].
    destruct (C c_now _ _ c0 Hok) as (su & _ & _ & _ & Hls & Hh & _).
    exists su. split; assumption.
Defined.

(** The demo manager resets "their" password: the call succeeds, no hash
    changes, and the old password still logs in. *)
Lemma C10_witness :
  (Client.registeredUsers c_demo !! normalize "manager@demo.com" = None /\
   Client.passwordResetTokens c_demo !! normalize "manager@demo.com"
   = Some c_reset /\
   Client.now c_now <= Client.rt_expiresAt c_reset /\
   6 <= JsString.length "newpass1" /\
   snd (@Client.resetPassword sample_platform c_now "manager@demo.com"
          (Client.rt_token c_reset) "newpass1" c_demo) = Client.succeeded /\
   Client.registeredUsers
     (fst (@Client.resetPassword sample_platform c_now "manager@demo.com"
             (Client.rt_token c_reset) "newpass1" c_demo))
   = Client.registeredUsers c_demo /\
   Client.passwordResetTokens
     (fst (@Client.resetPassword sample_platform c_now "manager@demo.com"
             (Client.rt_token c_reset) "newpass1" c_demo))
   = delete (normalize "manager@demo.com") (Client.passwordResetTokens c_demo)) /\
  ("ghost@x.com" <> "" /\ Backend.token b_reset <> "" /\
   @Backend.find_user (normalize "ghost@x.com") (Backend.users b_orphan) = None /\
   Backend.pendingVerifications b_orphan
     !! Backend.reset_key (normalize "ghost@x.com") = Some b_reset /\
   Backend.now b_now <= Backend.expiry b_reset /\
   snd (@Backend.resetPassword sample_platform b_now (Some "ghost@x.com")
          (Some (Backend.token b_reset)) (Some "newpass1") b_orphan)
   = Backend.success 200 "Password has been reset successfully") /\
  (@Client.reachable sample_platform c_demo /\
   @Client.DEMO_USERS sample_platform !! "manager@demo.com" = Some c_manager).
Proof.
  destruct (@C10_reset_succeeds_without_hash_change sample_platform)
    as (C & B & R).
  assert (Hl : 6 <= JsString.length "newpass1") by (vm_compute; discriminate).
  assert (Hd : @Client.DEMO_USERS sample_platform !! "manager@demo.com"
               = Some c_manager) by (vm_compute; reflexivity).
  split; [|split; [|exact (conj c_demo_reachable Hd)]].
  - assert (Hr : Client.registeredUsers c_demo !! normalize "manager@demo.com"
                 = None)
      by exact (R c_demo "manager@demo.com" c_manager c_demo_reachable Hd).
    assert (Ht : Client.passwordResetTokens c_demo
                   !! normalize "manager@demo.com" = Some c_reset)
      by (vm_compute; reflexivity).
    assert (Hv : Client.now c_now <= Client.rt_expiresAt c_reset)
      by (vm_compute; discriminate).
    repeat (split; [assumption|]).
    exact (C c_now _ _ "newpass1" c_demo Hr Ht Hv Hl).
  - assert (Hem : "ghost@x.com" <> "") by discriminate.
    assert (Htk : Backend.token b_reset <> "") by discriminate.
    assert (Hn : @Backend.find_user (normalize "ghost@x.com")
                   (Backend.users b_orphan) = None) by reflexivity.
    assert (Hp : Backend.pendingVerifications b_orphan
                   !! Backend.reset_key (normalize "ghost@x.com") = Some b_reset)
      by (vm_compute; reflexivity).
    assert (Hv : Backend.now b_now <= Backend.expiry b_reset)
      by (vm_compute; discriminate).
    repeat (split; [assumption|]).
    exact (proj1 (B b_now _ _ _ b_orphan Hem Htk Hn Hp Hv Hl)).
Defined.

(** A malformed address and a taken address at the controller; a taken
    address, a short password and an acceptable request at the client. *)
Lemma C3_witness :
  ((exists em, Some "not-an-email" = Some em /\ Regex.test emailRegex em = false) /\
   exists message,
     @Backend.signup sample_platform b_now (Some "Jane") (Some "not-an-email")
       (Some "secret1") b0
     = (b0, Backend.failure 400 message)) /\
  ("Jane" <> "" /\ Regex.test emailRegex "JANE@x.com" = true /\
   6 <= JsString.length "secret2" /\
   Backend.find_user (normalize "JANE@x.com") (Backend.users b1) = Some b_jane /\
   @Backend.signup sample_platform b_now (Some "Jane") (Some "JANE@x.com")
     (Some "secret2") b1
   = (b1, Backend.failure 409 "An account with this email already exists")) /\
  (JsObject.truthy
     (JsObject.get (@Client.DEMO_USERS sample_platform)
        (normalize "Manager@Demo.com")) = true /\
   @Client.signup sample_platform c_now "Sam" "Manager@Demo.com" "secret1" c0
   = (c0, Client.failed "An account with this email already exists")) /\
  (JsObject.truthy
     (JsObject.get (@Client.DEMO_USERS sample_platform) (normalize "sam@x.com"))
   = false /\
   JsObject.truthy
     (JsObject.get (Client.registeredUsers c1) (normalize "sam@x.com")) = false /\
   JsString.wide_length "abc" < 6 /\
   @Client.signup sample_platform c_now "Sam" "sam@x.com" "abc" c1
   = (c1, Client.failed "Password must be at least 6 characters")).
Proof.
  destruct (@C3_signup_errors sample_platform) as (B1 & B2 & C1 & C2).
  split; [|split; [|split]].
  - assert (Hbad : exists em, Some "not-an-email" = Some em /\
                              Regex.test emailRegex em = false)
      by (exists "not-an-email"; split; reflexivity).
    split; [exact Hbad|].
    apply (B1 b_now (Some "Jane") (Some "not-an-email") (Some "secret1") b0).
    right. right. right. left. exact Hbad.
  - assert (H1 : "Jane" <> "") by discriminate.
    assert (H2 : Regex.test emailRegex "JANE@x.com" = true) by reflexivity.
    assert (H3 : 6 <= JsString.length "secret2") by (vm_compute; discriminate).
    assert (H4 : Backend.find_user (normalize "JANE@x.com") (Backend.users b1)
                 = Some b_jane) by (vm_compute; reflexivity).
    repeat (split; [assumption|]).
    exact (B2 b_now _ _ _ _ b1 H1 H2 H3 H4).
  - assert (H1 : JsObject.truthy
                   (JsObject.get (@Client.DEMO_USERS sample_platform)
                      (normalize "Manager@Demo.com")) = true)
      by (vm_compute; reflexivity).
    split; [exact H1|].
    exact (C1 c_now "Sam" _ "secret1" c0 (or_introl H1)).
  - assert (H1 : JsObject.truthy
                   (JsObject.get (@Client.DEMO_USERS sample_platform)
                      (normalize "sam@x.com")) = false)
      by (vm_compute; reflexivity).
    assert (H2 : JsObject.truthy
                   (JsObject.get (Client.registeredUsers c1)
                      (normalize "sam@x.com")) = false)
      by (vm_compute; reflexivity).
    assert (H3 : JsString.wide_length "abc" < 6) by (vm_compute; reflexivity).
    repeat (split; [assumption|]).
    exact (C2 c_now "Sam" _ "abc" c1 H1 H2 H3).
Defined.

(** C2, as stated, fails: Jane's reset link, checked after it expired,
    is removed from the token store by [validateResetToken] itself, in the
    controller and in the client. *)
Lemma C2_counterexample :
  Backend.pendingVerifications
    (fst (Backend.validateResetToken b_late (Some "jane@x.com") (Some hex) b3))
  <> Backend.pendingVerifications b3 /\
  Client.passwordResetTokens
    (fst (Client.validateResetToken c_late "jane@x.com"
            "MC5rM2o5eDJtMXFsb2Y=" c3))
  <> Client.passwordResetTokens c3.
Proof.
  split; intros Heq.
  - apply (f_equal (fun m => m !! "reset_jane@x.com")) in Heq.
    vm_compute in Heq. discriminate Heq.
  - apply (f_equal (fun m => m !! "jane@x.com")) in Heq.
    vm_compute in Heq. discriminate Heq.
Qed.

(** C6, as stated, fails on the controller's [resetPassword]: Jane's reset
    link, two days old, submitted with exactly its token and a new
    password of three characters, is not answered as an expired link, and
    the entry stays in the map. *)
Lemma C6_counterexample :
  Backend.pendingVerifications b3 !! Backend.reset_key (normalize "jane@x.com")
  = Some b_reset /\
  Backend.expiry b_reset < Backend.now b_late /\
  @Backend.resetPassword sample_platform b_late (Some "jane@x.com")
    (Some (Backend.token b_reset)) (Some "abc") b3
  = (b3, Backend.failure 400 "Password must be at least 6 characters") /\
  snd (@Backend.resetPassword sample_platform b_late (Some "jane@x.com")
         (Some (Backend.token b_reset)) (Some "abc") b3)
  <> Backend.failure 400 "Reset link has expired" /\
  Backend.pendingVerifications
    (fst (@Backend.resetPassword sample_platform b_late (Some "jane@x.com")
            (Some (Backend.token b_reset)) (Some "abc") b3))
    !! Backend.reset_key (normalize "jane@x.com")
  = Some b_reset.
Proof.
  repeat split; try (vm_compute; reflexivity).
  vm_compute. discriminate.
Qed.

(** C3, as stated, fails on the client: [signup] with no name and with an
    address the pattern rejects creates the account. *)
Lemma C3_counterexample :
  JsString.truthy (Some "") = None /\
  Regex.test emailRegex "not-an-email" = false /\
  snd (@Client.signup sample_platform c_now "" "not-an-email" "secret1" c0)
  = {| Client.success := true; Client.error := None;
       Client.requiresVerification := Some true |} /\
  Client.registeredUsers
    (fst (@Client.signup sample_platform c_now "" "not-an-email" "secret1" c0))
    !! "not-an-email"
  = Some {| Client.hashedPassword := "b64:secret1_flowdash_salt_2024";
            Client.user :=
              {| Client.id := "usr_1700000000000_k3j9x2m1q";
                 Client.email := "not-an-email"; Client.name := "";
                 Client.role := operator; Client.department := "General";
                 Client.title := "Team Member"; Client.isVerified := false;
                 Client.createdAt := "2023-11-14T22:13:20.000Z" |};
            Client.verificationToken := Some "MC5rM2o5eDJtMXFsb2Y=" |}.
Proof. repeat split; vm_compute; reflexivity. Qed.

End Instances.

(** ** The further properties on the sample runs *)

Section MoreInstances.
Import Sample.

Lemma c_session_reachable : @Client.reachable sample_platform c_session.
Proof.
  exact (Client.reachable_step c_now
           (Client.Login "manager@demo.com" "demo123") c0
           Client.reachable_initial).
Qed.

Lemma c2_reachable : @Client.reachable sample_platform c2.
Proof.
  exact (Client.reachable_step c_now
           (Client.VerifyEmail "jane@x.com" "MC5rM2o5eDJtMXFsb2Y=") c1
           c1_reachable).
Qed.

(** Jane's address signed up twice at once: both accounts are stored
    under the normalised address. *)
Lemma X1_witness :
  @Overlap.reachable sample_platform b_twice [] /\
  Forall (fun u => normalize (Backend.email u) = Backend.email u /\
                   Backend.email u <> "")
    (Backend.users b_twice) /\
  ~ NoDup (map Backend.email (Backend.users b_twice)) /\
  @Backend.reachable sample_platform b1 /\
  NoDup (map Backend.email (Backend.users b1)).
Proof.
  destruct (@X1_emails_normalised_and_unique_in_sequence sample_platform)
    as (A & B & C).
  assert (H1 : Overlap.signup_begin (Some "Jane")
                 (Some "jane@x.com") (Some "secret1") b0
               = inr (Overlap.SignupHashing "Jane" "jane@x.com" "secret1"))
    by (vm_compute; reflexivity).
  assert (H2 : Overlap.signup_begin (Some "Joan")
                 (Some "jane@x.com") (Some "secret2") b0
               = inr (Overlap.SignupHashing "Joan" "jane@x.com" "secret2"))
    by (vm_compute; reflexivity).
  destruct (C b_now b_again "Jane" "Joan" "jane@x.com" "secret1" "secret2"
              b0 [] (Overlap.reachable_initial "s1" "s2" "s3") H1 H2)
    as [R D].
  exact (conj R (conj (A _ _ R) (conj D (conj b1_reachable
                                             (B b1 b1_reachable))))).
Defined.

(** Jane signs up, verifies, and someone signs up as JANE@x.com. *)
Lemma X2_witness :
  Backend.status
    (snd (@Backend.signup sample_platform b_now (Some "Jane")
            (Some "Jane@X.com") (Some "secret1") b0)) = 201 /\
  normalize "JANE@x.com" = normalize "Jane@X.com" /\
  @Backend.signup sample_platform b_again (Some "Janet") (Some "JANE@x.com")
    (Some "another1") b2
  = (b2, Backend.failure 409 "An account with this email already exists").
Proof.
  assert (H1 : Backend.status
                 (snd (@Backend.signup sample_platform b_now (Some "Jane")
                         (Some "Jane@X.com") (Some "secret1") b0)) = 201)
    by (vm_compute; reflexivity).
  assert (H2 : "Janet" <> "") by discriminate.
  assert (H3 : Regex.test emailRegex "JANE@x.com" = true)
    by (vm_compute; reflexivity).
  assert (H4 : 6 <= JsString.length "another1") by (vm_compute; discriminate).
  assert (H5 : normalize "JANE@x.com" = normalize "Jane@X.com")
    by (vm_compute; reflexivity).
  exact (conj H1 (conj H5
           (@X2_signup_stays_unique sample_platform b_now b_again (Some "Jane")
              "Jane@X.com" (Some "secret1")
              [ (b_now, Backend.VerifyEmail (Some "jane@x.com") (Some hex)) ]
              "Janet" "JANE@x.com" "another1" b0 H1 H2 H3 H4 H5))).
Defined.

(** The manager the server starts with is still the only manager after
    Jane's signup. *)
Lemma X4_witness :
  @Backend.reachable sample_platform b1 /\
  In b_manager (Backend.users b1) /\
  Backend.role b_manager <> operator /\
  ((Backend.id b_manager = "2" /\ Backend.email b_manager = "manager@demo.com" /\
    Backend.role b_manager = manager) \/
   (Backend.id b_manager = "3" /\
    Backend.email b_manager = "director@demo.com" /\
    Backend.role b_manager = director)).
Proof.
  assert (H1 : In b_manager (Backend.users b1)) by (right; left; reflexivity).
  assert (H2 : Backend.role b_manager <> operator) by discriminate.
  exact (conj b1_reachable (conj H1 (conj H2
           (@X4_no_privilege_escalation sample_platform b1 b_manager
              b1_reachable H1 H2)))).
Defined.

(** Jane's account survives her verification and a reset request. *)
Lemma X5_witness :
  Backend.find_user "jane@x.com" (Backend.users b1) = Some b_jane /\
  exists u',
    Backend.find_user "jane@x.com"
      (Backend.users
         (@Backend.run sample_platform
            [ (b_now, Backend.VerifyEmail (Some "jane@x.com") (Some hex));
              (b_now, Backend.RequestPasswordReset (Some "jane@x.com")) ] b1))
    = Some u' /\
    Backend.identity u' = Backend.identity b_jane /\
    (Backend.isVerified b_jane = true -> Backend.isVerified u' = true).
Proof.
  assert (H1 : Backend.find_user "jane@x.com" (Backend.users b1) = Some b_jane)
    by (vm_compute; reflexivity).
  exact (conj H1
           (@X5_accounts_persist sample_platform
              [ (b_now, Backend.VerifyEmail (Some "jane@x.com") (Some hex));
                (b_now, Backend.RequestPasswordReset (Some "jane@x.com")) ]
              b1 "jane@x.com" b_jane H1)).
Defined.

(** Jane's signup, verification and login on the server. *)
Lemma X6_witness :
  Backend.find_user (normalize "Jane@X.com") (Backend.users b0) = None /\
  @bcrypt_compare sample_platform "secret1"
    (@bcrypt_hash sample_platform "secret1" 12 (Backend.salt b_now)) = true /\
  Backend.status
    (snd (@Backend.login sample_platform b_now (Some "jane@x.com")
            (Some "secret1") b1)) = 403 /\
  Backend.status
    (snd (Backend.verifyEmail b_now (Some "jane@x.com") (Some hex) b1)) = 200 /\
  Backend.status
    (snd (@Backend.login sample_platform b_now (Some "jane@x.com")
            (Some "secret1") b2)) = 200.
Proof.
  assert (H1 : "Jane" <> "") by discriminate.
  assert (H2 : Regex.test emailRegex "Jane@X.com" = true)
    by (vm_compute; reflexivity).
  assert (H3 : 6 <= JsString.length "secret1") by (vm_compute; discriminate).
  assert (H4 : Backend.find_user (normalize "Jane@X.com") (Backend.users b0)
               = None) by (vm_compute; reflexivity).
  assert (H5 : Backend.random_hex b_now <> "") by discriminate.
  assert (H6 : "jane@x.com" <> "") by discriminate.
  assert (H7 : normalize "jane@x.com" = normalize "Jane@X.com")
    by (vm_compute; reflexivity).
  assert (H8 : @bcrypt_compare sample_platform "secret1"
                 (@bcrypt_hash sample_platform "secret1" 12
                    (Backend.salt b_now)) = true)
    by (vm_compute; reflexivity).
  assert (H9 : Backend.now b_now <= Backend.now b_now + 24 * 60 * 60 * 1000)
    by (vm_compute; discriminate).
  pose proof (@X6_signup_verify_login sample_platform b_now b_now b_now
                "Jane" "Jane@X.com" "secret1" "jane@x.com" b0
                H1 H2 H3 H4 H5 H6 H7 H8) as (A & B & _).
  exact (conj H4 (conj H8 (conj A
           (conj (proj1 (B H9)) (proj1 (proj2 (B H9))))))).
Defined.

(** Jane asks for a second verification mail: the token of the first is
    refused from then on. *)
Lemma X7_witness :
  Backend.find_user (normalize "jane@x.com") (Backend.users b1) = Some b_jane /\
  Backend.isVerified b_jane = false /\
  Backend.verifyEmail b_again (Some "jane@x.com") (Some hex)
    (fst (Backend.resendVerification b_again (Some "jane@x.com") b1))
  = (fst (Backend.resendVerification b_again (Some "jane@x.com") b1),
     Backend.failure 400 "Invalid verification token").
Proof.
  assert (H1 : "jane@x.com" <> "") by discriminate.
  assert (H2 : Backend.find_user (normalize "jane@x.com") (Backend.users b1)
               = Some b_jane) by (vm_compute; reflexivity).
  assert (H3 : Backend.isVerified b_jane = false) by reflexivity.
  assert (H4 : hex <> "") by discriminate.
  assert (H5 : hex <> Backend.random_hex b_again) by discriminate.
  pose proof (X7_resend_replaces_token b_again b_again
                "jane@x.com" b1 H1) as (_ & _ & C).
  exact (conj H2 (conj H3
           (proj1 (proj2 (proj2 (C b_jane H2 H3))) hex H4 H5))).
Defined.

(** Jane's password reset on the server, and her login afterwards. *)
Lemma X8_witness :
  Backend.find_user (normalize "jane@x.com") (Backend.users b2)
  = Some b_jane_verified /\
  snd (@Backend.resetPassword sample_platform b_now (Some "jane@x.com")
         (Some hex) (Some "newpass1") b3)
  = Backend.success 200 "Password has been reset successfully" /\
  Backend.status
    (snd (@Backend.login sample_platform b_now (Some "jane@x.com")
            (Some "newpass1") b4)) = 200.
Proof.
  assert (H1 : "jane@x.com" <> "") by discriminate.
  assert (H2 : Backend.find_user (normalize "jane@x.com") (Backend.users b2)
               = Some b_jane_verified) by (vm_compute; reflexivity).
  assert (H3 : Backend.random_hex b_now <> "") by discriminate.
  assert (H4 : 6 <= JsString.length "newpass1") by (vm_compute; discriminate).
  assert (H5 : Backend.now b_now <= Backend.now b_now + 60 * 60 * 1000)
    by (vm_compute; discriminate).
  assert (H6 : Backend.isVerified b_jane_verified = true) by reflexivity.
  assert (H7 : @bcrypt_compare sample_platform "newpass1"
                 (@bcrypt_hash sample_platform "newpass1" 12
                    (Backend.salt b_now)) = true)
    by (vm_compute; reflexivity).
  pose proof (@X8_reset_round_trip sample_platform b_now b_now b_now
                "jane@x.com" "newpass1" b_jane_verified b2 H1 H2 H3 H4 H5)
    as (A & _ & _ & _ & E).
  exact (conj H2 (conj A (E H6 H7))).
Defined.

(** Jane asks for a second reset: the token of the first is refused. *)
Lemma X9_witness :
  Backend.find_user (normalize "jane@x.com") (Backend.users b3)
  = Some b_jane_verified /\
  hex <> Backend.random_hex b_again /\
  @Backend.resetPassword sample_platform b_again (Some "jane@x.com")
    (Some hex) (Some "newpass1")
    (fst (Backend.requestPasswordReset b_again (Some "jane@x.com") b3))
  = (fst (Backend.requestPasswordReset b_again (Some "jane@x.com") b3),
     Backend.failure 400 "Invalid reset token").
Proof.
  assert (H1 : "jane@x.com" <> "") by discriminate.
  assert (H2 : Backend.find_user (normalize "jane@x.com") (Backend.users b3)
               = Some b_jane_verified) by (vm_compute; reflexivity).
  assert (H3 : hex <> "") by discriminate.
  assert (H4 : hex <> Backend.random_hex b_again) by discriminate.
  assert (H5 : 6 <= JsString.length "newpass1") by (vm_compute; discriminate).
  exact (conj H2 (conj H4
           (proj2 (proj2
              (@X9_reset_request_replaces_token sample_platform b_again b_again
                 "jane@x.com" b_jane_verified hex "newpass1" b3
                 H1 H2 H3 H4 H5))))).
Defined.

(** Somebody signs up as reset_operator@demo.com and resets the password
    of operator@demo.com with the verification token. *)
Lemma X10_witness :
  Regex.test emailRegex "reset_operator@demo.com" = true /\
  Backend.find_user (normalize "operator@demo.com") (Backend.users b0)
  = Some b_operator /\
  normalize "reset_operator@demo.com"
  = Backend.reset_key (normalize "operator@demo.com") /\
  Backend.find_user (normalize "operator@demo.com")
    (Backend.users
       (fst (@Backend.resetPassword sample_platform b_again
               (Some "operator@demo.com") (Some hex) (Some "owned123")
               (fst (@Backend.signup sample_platform b_now (Some "Mallory")
                       (Some "reset_operator@demo.com") (Some "secret1")
                       b0)))))
  = Some (Backend.set_password
            (@bcrypt_hash sample_platform "owned123" 12 (Backend.salt b_again))
            b_operator).
Proof.
  assert (H1 : "Mallory" <> "") by discriminate.
  assert (H2 : Regex.test emailRegex "reset_operator@demo.com" = true)
    by (vm_compute; reflexivity).
  assert (H3 : 6 <= JsString.length "secret1") by (vm_compute; discriminate).
  assert (H4 : Backend.find_user (normalize "reset_operator@demo.com")
                 (Backend.users b0) = None) by (vm_compute; reflexivity).
  assert (H5 : Backend.random_hex b_now <> "") by discriminate.
  assert (H6 : "operator@demo.com" <> "") by discriminate.
  assert (H7 : 6 <= JsString.length "owned123") by (vm_compute; discriminate).
  assert (H8 : Backend.find_user (normalize "operator@demo.com")
                 (Backend.users b0) = Some b_operator)
    by (vm_compute; reflexivity).
  assert (H9 : normalize "reset_operator@demo.com"
               = Backend.reset_key (normalize "operator@demo.com"))
    by (vm_compute; reflexivity).
  assert (H10 : Backend.now b_again <= Backend.now b_now + 24 * 60 * 60 * 1000)
    by (vm_compute; discriminate).
  exact (conj H2 (conj H8 (conj H9
           (proj2 (proj2
              (@X10_signup_token_resets_other_account sample_platform
                 b_now b_again "Mallory" "reset_operator@demo.com" "secret1"
                 "operator@demo.com" "owned123" b_operator b0
                 H1 H2 H3 H4 H5 H6 H7 H8 H9 H10)))))).
Defined.

(** The manager logs in and asks who they are. *)
Lemma X11_witness :
  Backend.status
    (snd (@Backend.login sample_platform b_now (Some "manager@demo.com")
            (Some "demo123") b0)) = 200 /\
  NoDup (map Backend.id (Backend.users b0)) /\
  exists u userData,
    get_field "token"
      (Backend.body
         (snd (@Backend.login sample_platform b_now (Some "manager@demo.com")
                 (Some "demo123") b0)))
    = Some (JStr (@jwt_sign sample_platform
                    [ ("userId", JStr (Backend.id u));
                      ("email", JStr (Backend.email u));
                      ("role", JStr (role_name (Backend.role u))) ]
                    (@Backend.JWT_SECRET sample_platform) "24h"
                    (Backend.now b_now))) /\
    get_field "user"
      (Backend.body
         (snd (@Backend.login sample_platform b_now (Some "manager@demo.com")
                 (Some "demo123") b0)))
    = Some (JObj userData) /\
    Backend.getMe (Backend.id u) b0
    = (b0, {| Backend.status := 200;
              Backend.body := [ ("success", JBool true);
                                ("user", JObj userData) ] |}).
Proof.
  assert (H1 : Backend.status
                 (snd (@Backend.login sample_platform b_now
                         (Some "manager@demo.com") (Some "demo123") b0)) = 200)
    by (vm_compute; reflexivity).
  assert (H2 : NoDup (map Backend.id (Backend.users b0))).
  { repeat constructor; simpl; intuition discriminate. }
  exact (conj H1 (conj H2
           (proj2 (proj2
              (@X11_getMe_returns_the_login_user sample_platform b_now
                 (Some "manager@demo.com") (Some "demo123") b0)) H1 H2))).
Defined.

(** The manager's session in the browser. *)
Lemma X12_witness :
  @Client.reachable sample_platform c_session /\
  match Client.auth_user c_session with
  | None =>
      Client.auth_token c_session = None /\ Client.ls_user c_session = None /\
      Client.ls_token c_session = None /\ Client.ls_role c_session = None
  | Some u =>
      Client.isVerified u = true /\
      (exists k su, @Client.find_account sample_platform k c_session = JsObject.Own su /\
                    Client.user su = u) /\
      Client.ls_user c_session = Some (Client.user_object u) /\
      Client.ls_role c_session = Some (role_name (Client.role u)) /\
      Client.ls_token c_session = Client.auth_token c_session /\
      exists e, Client.auth_token c_session
                = Some (@Client.generateToken sample_platform e
                          (Client.id u) (Client.role u))
  end.
Proof.
  exact (conj c_session_reachable
           (@X12_session_is_a_verified_account sample_platform c_session
              c_session_reachable)).
Defined.

(** The manager's session is not an operator's, and is the demo manager's. *)
Lemma X13_witness :
  @Client.reachable sample_platform c_session /\
  Client.auth_user c_session = Some (Client.user c_manager) /\
  Client.role (Client.user c_manager) <> operator /\
  ((Client.email (Client.user c_manager) = "manager@demo.com" /\
    Client.role (Client.user c_manager) = manager) \/
   (Client.email (Client.user c_manager) = "director@demo.com" /\
    Client.role (Client.user c_manager) = director)).
Proof.
  assert (H1 : Client.auth_user c_session = Some (Client.user c_manager))
    by (vm_compute; reflexivity).
  assert (H2 : Client.role (Client.user c_manager) <> operator)
    by discriminate.
  exact (conj c_session_reachable (conj H1 (conj H2
           (proj2 (@X13_client_roles sample_platform c_session
                     c_session_reachable) _ H1 H2)))).
Defined.

(** The manager logs out and in again. *)
Lemma X14_witness :
  Client.success
    (snd (@Client.login sample_platform c_now "manager@demo.com" "demo123"
            c_session)) = true /\
  fst (@Client.login sample_platform c_now "manager@demo.com" "demo123"
         (Client.logout c_session))
  = fst (@Client.login sample_platform c_now "manager@demo.com" "demo123"
           c_session).
Proof.
  assert (H1 : Client.success
                 (snd (@Client.login sample_platform c_now "manager@demo.com"
                         "demo123" c_session)) = true)
    by (vm_compute; reflexivity).
  pose proof (@X14_logout_clears_only_the_session sample_platform c_session)
    as (_ & _ & _ & _ & _ & _ & _ & L).
  exact (conj H1 (proj2 (L c_now "manager@demo.com" "demo123") H1)).
Defined.

(** A stored project manager becomes a director; the manager's session
    comes back after a reload. *)
Lemma X15_witness :
  (get_field "role" legacy_user = Some (JStr "project_manager") /\
   get_field "role" (Client.migrate_role legacy_user)
   = Some (JStr "director")) /\
  (@Client.reachable sample_platform c_session /\
   Client.initializeAuth c_session
   = match Client.auth_user c_session,
           JsString.truthy (Client.auth_token c_session) with
     | Some u, Some token => Some (Client.user_object u, token)
     | _, _ => None
     end).
Proof.
  assert (H1 : get_field "role" legacy_user = Some (JStr "project_manager"))
    by reflexivity.
  pose proof (@X15_reload_restores_the_session sample_platform) as (A & _ & C).
  exact (conj (conj H1 (proj1 (A legacy_user H1)))
           (conj c_session_reachable (C c_session c_session_reachable))).
Defined.

(** Jane's signup, verification and login in the browser; and her signup
    with a password in Cyrillic letters. *)
Lemma X16_witness :
  JsObject.truthy
    (JsObject.get (@Client.DEMO_USERS sample_platform) (normalize "Jane@X.com"))
  = false /\
  JsObject.truthy
    (JsObject.get (Client.registeredUsers c0) (normalize "Jane@X.com"))
  = false /\
  (6 <= JsString.wide_length "secret1" /\
   JsString.narrow "secret1" = Some "secret1" /\
   snd (@Client.login sample_platform c_now "Jane@X.com" "secret1" c2)
   = Client.succeeded) /\
  (6 <= JsString.wide_length wide_password /\
   JsString.narrow wide_password = None /\
   @Client.signup sample_platform c_now "Jane" "Jane@X.com" wide_password c0
   = (c0, Client.unexpected)).
Proof.
  assert (H1 : JsObject.truthy
                 (JsObject.get (@Client.DEMO_USERS sample_platform)
                    (normalize "Jane@X.com")) = false)
    by (vm_compute; reflexivity).
  assert (H2 : JsObject.truthy
                 (JsObject.get (Client.registeredUsers c0)
                    (normalize "Jane@X.com")) = false)
    by (vm_compute; reflexivity).
  assert (H3 : 6 <= JsString.wide_length "secret1")
    by (vm_compute; discriminate).
  assert (H4 : Client.now c_now <= Client.now c_now + 24 * 60 * 60 * 1000)
    by (vm_compute; discriminate).
  assert (H5 : JsString.narrow "secret1" = Some "secret1")
    by (vm_compute; reflexivity).
  assert (H6 : 6 <= JsString.wide_length wide_password)
    by (vm_compute; discriminate).
  assert (H7 : JsString.narrow wide_password = None)
    by (vm_compute; reflexivity).
  pose proof (proj2 (@X16_client_signup_verify_login sample_platform c_now
                       c_now c_now "Jane" "Jane@X.com" "secret1" c0 H1 H2 H3)
                "secret1" H5 H4) as (_ & _ & _ & L & _).
  pose proof (proj1 (@X16_client_signup_verify_login sample_platform c_now
                       c_now c_now "Jane" "Jane@X.com" wide_password c0
                       H1 H2 H6) H7) as U.
  exact (conj H1 (conj H2 (conj (conj H3 (conj H5 L))
                              (conj H6 (conj H7 U))))).
Defined.

(** Jane's password reset in the browser; and the same with a new
    password in Cyrillic letters. *)
Lemma X17_witness :
  Client.registeredUsers c2 !! normalize "jane@x.com"
  = Some (Client.mark_verified c_jane) /\
  (JsString.narrow "newpass1" = Some "newpass1" /\
   snd (@Client.resetPassword sample_platform c_now "jane@x.com"
          "MC5rM2o5eDJtMXFsb2Y=" "newpass1" c3)
   = Client.succeeded) /\
  (JsString.narrow wide_password = None /\
   @Client.resetPassword sample_platform c_now "jane@x.com"
     "MC5rM2o5eDJtMXFsb2Y=" wide_password c3
   = (c3, Client.unexpected)).
Proof.
  assert (H1 : JsObject.get (@Client.DEMO_USERS sample_platform)
                 (normalize "jane@x.com") = JsObject.Undefined)
    by (vm_compute; reflexivity).
  assert (H2 : Client.registeredUsers c2 !! normalize "jane@x.com"
               = Some (Client.mark_verified c_jane))
    by (vm_compute; reflexivity).
  assert (H3 : 6 <= JsString.wide_length "newpass1")
    by (vm_compute; discriminate).
  assert (H4 : Client.now c_now <= Client.now c_now + 60 * 60 * 1000)
    by (vm_compute; discriminate).
  assert (H5 : JsString.narrow "newpass1" = Some "newpass1")
    by (vm_compute; reflexivity).
  assert (H6 : 6 <= JsString.wide_length wide_password)
    by (vm_compute; discriminate).
  assert (H7 : JsString.narrow wide_password = None)
    by (vm_compute; reflexivity).
  pose proof (@X17_client_reset_round_trip sample_platform c_now c_now c_now
                "jane@x.com" "newpass1" (Client.mark_verified c_jane) c2
                H1 H2 H3 H4) as (_ & _ & S).
  pose proof (@X17_client_reset_round_trip sample_platform c_now c_now c_now
                "jane@x.com" wide_password (Client.mark_verified c_jane) c2
                H1 H2 H6 H4) as (_ & U & _).
  exact (conj H2 (conj (conj H5 (proj1 (S "newpass1" H5)))
                       (conj H7 (U H7)))).
Defined.

(** Nobody is signed in at the start: the director's gate stays shut. *)
Lemma X19_witness :
  Client.isAuthenticated c0 = false /\
  Routes.ProtectedRoute false c0 (Some [director]) (Some manage_settings)
    (Some "/settings")
  = Routes.Navigate "/login" /\
  Routes.RoleGate c0 [director] = Routes.Fallback.
Proof.
  assert (H1 : Client.isAuthenticated c0 = false) by (vm_compute; reflexivity).
  pose proof (proj1 (X19_guards_fail_closed c0) H1) as (A & B & _).
  exact (conj H1 (conj (A _ _ _) (B _))).
Defined.

(** A visitor without a session who opens the root path ends on the
    sign-in page. *)
Lemma X20_witness :
  In (Routes.Redirect "/dashboard") (map snd Routes.routes) /\
  settled c0 (Routes.settle 3 false c0 (Routes.Redirect "/dashboard")).
Proof.
  assert (H1 : In (Routes.Redirect "/dashboard") (map snd Routes.routes))
    by (left; reflexivity).
  exact (conj H1 (X20_routes_settle c0 _ H1)).
Defined.

(** The manager's sidebar shows the team page, and the route shows it. *)
Lemma X21_witness :
  Client.isAuthenticated c_session = true /\
  (In ("Team", "/team", [manager; director])
      (Routes.filteredNavItems c_session) <->
   exists p, Routes.render false c_session (Routes.target "/team")
             = Routes.Shows p).
Proof.
  assert (H1 : Client.isAuthenticated c_session = true)
    by (vm_compute; reflexivity).
  assert (H2 : In ("Team", "/team", [manager; director]) Routes.NAV_ITEMS)
    by (right; right; left; reflexivity).
  exact (conj H1 (X21_sidebar_matches_routes c_session _ H1 H2)).
Defined.

(** A password that passes all five checks. *)
Lemma X23_witness :
  PasswordStrength.score
    (PasswordStrength.calculatePasswordStrength "Abcdef1!") = 100 /\
  8 <= JsString.length "Abcdef1!".
Proof.
  assert (H1 : PasswordStrength.score
                 (PasswordStrength.calculatePasswordStrength "Abcdef1!") = 100)
    by (vm_compute; reflexivity).
  pose proof (X23_strength_score "Abcdef1!") as (_ & _ & _ & _ & _ & L).
  exact (conj H1 (L H1)).
Defined.

(** Seven rows in pages of three. *)
Lemma X25_witness :
  0 < 3 /\
  exists n,
    DataTable.totalPages rows 3 = Some n /\
    (n - 1) * 3 < Z.of_nat (List.length rows) <= n * 3 /\
    (n = 0 <-> rows = []) /\
    concat (map (fun p => DataTable.paginatedData true rows p 3)
                (map Z.of_nat (seq 1 (Z.to_nat n))))
    = rows.
Proof.
  assert (H1 : 0 < 3) by reflexivity.
  exact (conj H1 (X25_pages_partition rows 3 H1)).
Defined.

(** The last of the three pages holds the seventh row. *)
Lemma X26_witness :
  DataTable.totalPages rows 3 = Some 3 /\
  DataTable.paginatedData true rows 3 3 <> [] /\
  Z.of_nat (List.length (DataTable.paginatedData true rows 3 3))
  = snd (DataTable.showing rows 3 3) - fst (DataTable.showing rows 3 3) + 1 /\
  (3 < 4 -> DataTable.paginatedData true rows 4 3 = []).
Proof.
  assert (H1 : 0 < 3) by reflexivity.
  assert (H2 : DataTable.totalPages rows 3 = Some 3) by reflexivity.
  assert (H3 : 1 <= 3 <= 3) by (split; discriminate).
  pose proof (X26_page_in_range rows 3 3 3 H1 H2) as [A _].
  pose proof (X26_page_in_range rows 4 3 3 H1 H2) as [_ B].
  exact (conj H2 (conj (proj1 (A H3))
           (conj (proj1 (proj2 (proj2 (proj2 (A H3))))) B))).
Defined.

End MoreInstances.
